(** * Smart Transport Trip Management System: trip lifecycle and bookings

    A shallow embedding of the request handlers of [core/views.py] that make
    up the trip lifecycle, the booking manager and the rating aggregator,
    together with the parts of [core/models.py], [core/forms.py] and
    [core/decorators.py] they rely on.

    Modelling conventions.
    - A database table is the list of its rows; the primary key of a row is
      its position.  The handlers below never delete a row, [objects.create]
      appends one, and [save] overwrites the row at its key.
    - A foreign key is the key of the referenced row, a nullable one an
      [option].
    - A text is the string of its UTF-8 bytes.
    - A [DecimalField] with [decimal_places=2] holds an integer number of
      hundredths.  Integers and decimals are unbounded: the size of a
      database integer is not modelled, and [max_digits] only where a mean
      of stars is saved (see [quantize]).
    - [timezone.now()] is an explicit argument of the handler that reads it.
    - A handler maps a request and a database to a response and a database.
    - Columns no handler of this development reads or writes (locations,
      plate numbers, [created_at], [updated_at], ...) are left out. *)

From Stdlib Require Import ZArith QArith Qabs String Ascii Lia.
From stdpp Require Import base decidable option list strings pretty.

Local Open Scope string_scope.
Local Open Scope list_scope.
Local Open Scope Z_scope.

(** ** Requests and responses *)

Inductive Method := GET | POST.

(** Levels of [django.contrib.messages]. *)
Inductive Level := SUCCESS | INFO | WARNING | ERROR.

(** Stars of a rating: the [choices] of [Rating.driver_rating] and
    [Rating.vehicle_rating], [range(1, 6)]. *)
Inductive Stars := Star1 | Star2 | Star3 | Star4 | Star5.

Definition stars_value (s : Stars) : Z :=
  match s with
  | Star1 => 1 | Star2 => 2 | Star3 => 3 | Star4 => 4 | Star5 => 5
  end.

(** What a handler returns: [redirect(to, ...)] with the flash message sent
    before it (if any), [render(request, template, ...)], the 404 of
    [get_object_or_404], or the 500 of an exception nobody catches (a
    dangling foreign key). *)
Inductive Response :=
  | Redirect (to : string) (arg : option nat) (flash : option (Level * string))
  | Render (template_name : string)
  | Http404
  | Http500.

#[global] Instance Method_eq_dec : EqDecision Method.
Proof. solve_decision. Defined.
#[global] Instance Level_eq_dec : EqDecision Level.
Proof. solve_decision. Defined.
#[global] Instance Stars_eq_dec : EqDecision Stars.
Proof. solve_decision. Defined.
#[global] Instance Response_eq_dec : EqDecision Response.
Proof. solve_decision. Defined.

(** ** Models ([core/models.py]) *)

Module User.
Inductive UserType := ADMINISTRATOR | DRIVER | PASSENGER.

#[global] Instance UserType_eq_dec : EqDecision UserType.
Proof. solve_decision. Defined.

Record t := { id : nat; user_type : UserType }.

Definition is_admin (self : t) : bool :=
  bool_decide (user_type self = ADMINISTRATOR).
Definition is_driver (self : t) : bool :=
  bool_decide (user_type self = DRIVER).
Definition is_passenger (self : t) : bool :=
  bool_decide (user_type self = PASSENGER).
End User.

Module Vehicle.
Inductive Status := AVAILABLE | IN_USE | MAINTENANCE | RETIRED.

Record t := {
  capacity : Z;
  average_rating : Z; (* hundredths *)
  status : Status }.

Definition set_average_rating (v : Z) (self : t) : t :=
  {| capacity := capacity self; average_rating := v;
     status := status self |}.
End Vehicle.

Module Driver.
Inductive Status := AVAILABLE | ON_TRIP | OFF_DUTY | SUSPENDED.

#[global] Instance Status_eq_dec : EqDecision Status.
Proof. solve_decision. Defined.

Record t := {
  user : nat;
  vehicle : option nat;
  average_rating : Z; (* hundredths *)
  total_trips : Z;
  status : Status }.

Definition set_average_rating (v : Z) (self : t) : t :=
  {| user := user self; vehicle := vehicle self; average_rating := v;
     total_trips := total_trips self; status := status self |}.
Definition set_total_trips (v : Z) (self : t) : t :=
  {| user := user self; vehicle := vehicle self;
     average_rating := average_rating self;
     total_trips := v; status := status self |}.
Definition set_status (v : Status) (self : t) : t :=
  {| user := user self; vehicle := vehicle self;
     average_rating := average_rating self;
     total_trips := total_trips self; status := v |}.
End Driver.

Module Trip.
Inductive Status := UPCOMING | ONGOING | COMPLETED | CANCELLED.

#[global] Instance Status_eq_dec : EqDecision Status.
Proof. solve_decision. Defined.

Record t := {
  driver : option nat;
  vehicle : option nat;
  trip_name : string;
  departure_time : Z;
  price : Z; (* hundredths *)
  available_seats : Z;
  status : Status;
  cancelled_by : option string;
  cancellation_reason : option string }.

Definition set_available_seats (v : Z) (self : t) : t :=
  {| driver := driver self; vehicle := vehicle self;
     trip_name := trip_name self; departure_time := departure_time self;
     price := price self; available_seats := v; status := status self;
     cancelled_by := cancelled_by self;
     cancellation_reason := cancellation_reason self |}.
Definition set_status (v : Status) (self : t) : t :=
  {| driver := driver self; vehicle := vehicle self;
     trip_name := trip_name self; departure_time := departure_time self;
     price := price self; available_seats := available_seats self;
     status := v; cancelled_by := cancelled_by self;
     cancellation_reason := cancellation_reason self |}.
Definition set_cancelled_by (v : option string) (self : t) : t :=
  {| driver := driver self; vehicle := vehicle self;
     trip_name := trip_name self; departure_time := departure_time self;
     price := price self; available_seats := available_seats self;
     status := status self; cancelled_by := v;
     cancellation_reason := cancellation_reason self |}.
Definition set_cancellation_reason (v : option string) (self : t) : t :=
  {| driver := driver self; vehicle := vehicle self;
     trip_name := trip_name self; departure_time := departure_time self;
     price := price self; available_seats := available_seats self;
     status := status self; cancelled_by := cancelled_by self;
     cancellation_reason := v |}.

(** The property [Trip.is_bookable]; [now] is [timezone.now()]. *)
Definition is_bookable (now : Z) (self : t) : bool :=
  bool_decide (status self = UPCOMING)
  && (0 <? available_seats self)
  && (now <? departure_time self).
End Trip.

Module TripBooking.
Inductive Status := CONFIRMED | CANCELLED | COMPLETED.

#[global] Instance Status_eq_dec : EqDecision Status.
Proof. solve_decision. Defined.

Record t := {
  trip : nat;
  user : nat;
  seats_booked : Z;
  total_price : Z; (* hundredths *)
  status : Status }.

Definition set_status (v : Status) (self : t) : t :=
  {| trip := trip self; user := user self;
     seats_booked := seats_booked self; total_price := total_price self;
     status := v |}.
End TripBooking.

Module Rating.
Record t := {
  trip : nat;
  user : nat;
  driver : option nat;
  vehicle : option nat;
  driver_rating : option Stars;
  vehicle_rating : option Stars;
  driver_comment : string }.
End Rating.

Module AdminLog.
Record t := {
  admin : nat;
  action_type : string;
  entity_type : string;
  entity_id : nat;
  description : string }.
End AdminLog.

(** The relational store. *)
Record Db := {
  trips : list Trip.t;
  bookings : list TripBooking.t;
  drivers : list Driver.t;
  vehicles : list Vehicle.t;
  ratings : list Rating.t;
  admin_logs : list AdminLog.t }.

Definition set_trips (v : list Trip.t) (db : Db) : Db :=
  {| trips := v; bookings := bookings db; drivers := drivers db;
     vehicles := vehicles db; ratings := ratings db;
     admin_logs := admin_logs db |}.
Definition set_bookings (v : list TripBooking.t) (db : Db) : Db :=
  {| trips := trips db; bookings := v; drivers := drivers db;
     vehicles := vehicles db; ratings := ratings db;
     admin_logs := admin_logs db |}.
Definition set_drivers (v : list Driver.t) (db : Db) : Db :=
  {| trips := trips db; bookings := bookings db; drivers := v;
     vehicles := vehicles db; ratings := ratings db;
     admin_logs := admin_logs db |}.
Definition set_vehicles (v : list Vehicle.t) (db : Db) : Db :=
  {| trips := trips db; bookings := bookings db; drivers := drivers db;
     vehicles := v; ratings := ratings db; admin_logs := admin_logs db |}.
Definition set_ratings (v : list Rating.t) (db : Db) : Db :=
  {| trips := trips db; bookings := bookings db; drivers := drivers db;
     vehicles := vehicles db; ratings := v; admin_logs := admin_logs db |}.
Definition set_admin_logs (v : list AdminLog.t) (db : Db) : Db :=
  {| trips := trips db; bookings := bookings db; drivers := drivers db;
     vehicles := vehicles db; ratings := ratings db; admin_logs := v |}.

(** [request.POST] after the fields went through their form field: the
    integer an [IntegerField] parsed ([None]: absent or not a number), the
    choice a [ChoiceField] over the five stars accepted ([None]: absent or
    not one of the choices), and the text submitted for a [CharField], as
    it came (absent: empty). *)
Record PostData := {
  post_seats : option Z;
  post_cancellation_reason : string;
  post_driver_rating : option Stars;
  post_vehicle_rating : option Stars;
  post_driver_comment : string }.

(** [user] is [None] for an anonymous visitor ([is_authenticated] false). *)
Record Request := {
  method : Method;
  user : option User.t;
  POST_ : PostData }.

Definition View := Request -> Db -> Response * Db.

(** ** Access guards ([core/decorators.py] and Django's [login_required]) *)

Definition login_required (view_func : View) : View :=
  fun request db =>
    match user request with
    | None => (Redirect "login" None None, db)
    | Some _ => view_func request db
    end.

Definition admin_required (view_func : View) : View :=
  fun request db =>
    match user request with
    | None =>
        (Redirect "login" None
           (Some (WARNING, "Please login to access this page.")), db)
    | Some u =>
        if negb (User.is_admin u) then
          (Redirect "dashboard" None
             (Some (ERROR, "You do not have permission to access this page.")),
           db)
        else view_func request db
    end.

Definition driver_required (view_func : View) : View :=
  fun request db =>
    match user request with
    | None =>
        (Redirect "login" None
           (Some (WARNING, "Please login to access this page.")), db)
    | Some u =>
        if negb (User.is_driver u) then
          (Redirect "dashboard" None
             (Some (ERROR, "This page is only accessible to drivers.")), db)
        else view_func request db
    end.

Definition passenger_required (view_func : View) : View :=
  fun request db =>
    match user request with
    | None =>
        (Redirect "login" None
           (Some (WARNING, "Please login to access this page.")), db)
    | Some u =>
        if negb (User.is_passenger u) then
          (Redirect "dashboard" None
             (Some (ERROR, "This page is only accessible to passengers.")), db)
        else view_func request db
    end.

(** ** Forms ([core/forms.py]) *)

(** The white space of [str.strip()]: the code points 9 to 13, 28 to 32,
    U+0085, U+00A0, U+1680, U+2000 to U+200A, U+2028, U+2029, U+202F,
    U+205F and U+3000, which UTF-8 writes on one, two or three bytes. *)
Definition is_space (c : ascii) : bool :=
  let n := nat_of_ascii c in
  ((9 <=? n) && (n <=? 13) || (28 <=? n) && (n <=? 32))%nat.

Definition is_space2 (c1 c2 : ascii) : bool :=
  let n1 := nat_of_ascii c1 in
  let n2 := nat_of_ascii c2 in
  ((n1 =? 194) && ((n2 =? 133) || (n2 =? 160)))%nat.

Definition is_space3 (c1 c2 c3 : ascii) : bool :=
  let n1 := nat_of_ascii c1 in
  let n2 := nat_of_ascii c2 in
  let n3 := nat_of_ascii c3 in
  ((n1 =? 225) && (n2 =? 154) && (n3 =? 128)
   || (n1 =? 226) && (n2 =? 128)
      && ((128 <=? n3) && (n3 <=? 138)
          || (n3 =? 168) || (n3 =? 169) || (n3 =? 175))
   || (n1 =? 226) && (n2 =? 129) && (n3 =? 159)
   || (n1 =? 227) && (n2 =? 128) && (n3 =? 128))%nat.

(** Dropping the white space at the head of a text, the two- and
    three-byte characters being recognised by [sp2] and [sp3]. *)
Fixpoint lstrip_with (sp2 : ascii -> ascii -> bool)
    (sp3 : ascii -> ascii -> ascii -> bool) (s : string) : string :=
  match s with
  | EmptyString => EmptyString
  | String c1 s1 =>
      if is_space c1 then lstrip_with sp2 sp3 s1
      else
        match s1 with
        | EmptyString => s
        | String c2 s2 =>
            if sp2 c1 c2 then lstrip_with sp2 sp3 s2
            else
              match s2 with
              | EmptyString => s
              | String c3 s3 =>
                  if sp3 c1 c2 c3 then lstrip_with sp2 sp3 s3 else s
              end
        end
  end.

Definition lstrip : string -> string := lstrip_with is_space2 is_space3.

(** At the tail the bytes of a character are met last byte first. *)
Definition rstrip (s : string) : string :=
  String.rev
    (lstrip_with (fun c2 c1 => is_space2 c1 c2)
       (fun c3 c2 c1 => is_space3 c1 c2 c3) (String.rev s)).

Definition strip (s : string) : string := rstrip (lstrip s).

(** [ProhibitNullCharactersValidator], which every [forms.CharField]
    carries: a text that holds a null character is refused. *)
Fixpoint has_null_character (s : string) : bool :=
  match s with
  | EmptyString => false
  | String c s' => bool_decide (c = Ascii.zero) || has_null_character s'
  end.

(** [forms.CharField.clean]: the text is stripped; a required field refuses
    the empty text, and every field a text with a null character. *)
Definition CharField (required : bool) (value : string) : option string :=
  let value := strip value in
  if required && bool_decide (value = EmptyString) then None
  else if has_null_character value then None
  else Some value.

(** [BookingForm]: [seats] is an [IntegerField(min_value=1)].  The
    constructor stores [trip.available_seats] in the field's [max_value]
    attribute once the field exists, which installs no validator: the form
    checks the lower bound only, and [clean] is [cleaned_data['seats']] of a
    valid form. *)
Module BookingForm.
Definition clean (data : PostData) : option Z :=
  match post_seats data with
  | Some seats => if 1 <=? seats then Some seats else None
  | None => None
  end.
End BookingForm.

(** [CancelTripForm]: [cancellation_reason] is a [CharField], required by
    default; [clean] is [cleaned_data['cancellation_reason']] of a valid
    form. *)
Module CancelTripForm.
Definition clean (data : PostData) : option string :=
  CharField true (post_cancellation_reason data).
End CancelTripForm.

(** [RatingForm]: both ratings are required choices among the five stars;
    the comment is the [CharField] of a [TextField] that may be blank, so
    it is not required.  [clean] is what [form.save(commit=False)] puts in
    the new [Rating]. *)
Module RatingForm.
Definition clean (data : PostData) : option (Stars * Stars * string) :=
  match post_driver_rating data, post_vehicle_rating data,
        CharField false (post_driver_comment data) with
  | Some d, Some v, Some comment => Some (d, v, comment)
  | _, _, _ => None
  end.
End RatingForm.

(** ** Aggregation *)

(** The arithmetic mean of a list of integers (of a non-empty one). *)
Definition arithmetic_mean (xs : list Z) : Q :=
  Qmake (foldr Z.add 0 xs) (Pos.of_nat (length xs)).

(** [Avg(column)] over a queryset: the mean of the non-null values, [None]
    (SQL NULL) when there is none. *)
Definition Avg (column : list (option Stars)) : option Q :=
  match stars_value <$> omap id column with
  | [] => None
  | values => Some (arithmetic_mean values)
  end.

(** The truth value of [avg] in [if avg:]: neither [None] nor zero. *)
Definition truthy (avg : option Q) : bool :=
  match avg with
  | Some q => negb (Qeq_bool q 0)
  | None => false
  end.

(** [n / d] rounded to the nearest integer, a tie going to the even one:
    the rounding of IEEE arithmetic and the default one of [decimal]. *)
Definition round_half_even (n d : Z) : Z :=
  let fl := n / d in
  let r := n mod d in
  if 2 * r <? d then fl
  else if d <? 2 * r then fl + 1
  else if Z.even fl then fl else fl + 1.

(** The aggregate of an integer column reaches Python as a [float]: the
    double nearest to the mean, a 53-bit numerator over a power of two
    (for a number from 1 on and below [2^53]; a mean of stars lies between
    1 and 5). *)
Definition float64 (q : Q) : Q :=
  let n := Qnum q in
  let d := Zpos (Qden q) in
  let e := Z.log2 (n / d) in
  let k := 52 - e in
  Qmake (round_half_even (n * 2 ^ k) d) (Z.to_pos (2 ^ k)).

(** Saving that [float] into a [DecimalField(max_digits=3,
    decimal_places=2)]: the exact value of the double, rounded to three
    significant digits, which for a number from 1 up to 10 are its
    hundredths. *)
Definition quantize (q : Q) : Z :=
  let f := float64 q in
  round_half_even (100 * Qnum f) (Zpos (Qden f)).

(** ** Helpers of [core/views.py] *)

(** The double quote inside a message. *)
Definition dquote : string := String (ascii_of_nat 34) EmptyString.

Definition log_admin_action (admin_user : User.t) (action_type entity_type : string)
    (entity_id : nat) (description : string) (db : Db) : Db :=
  set_admin_logs
    (admin_logs db ++
       [ {| AdminLog.admin := User.id admin_user;
            AdminLog.action_type := action_type;
            AdminLog.entity_type := entity_type;
            AdminLog.entity_id := entity_id;
            AdminLog.description := description |} ]) db.

(** [get_object_or_404(Model, id=pk, **filters)]. *)
Definition get_object_or_404 {A} (table : list A) (pk : nat)
    (filters : A -> bool) : option A :=
  match table !! pk with
  | Some row => if filters row then Some row else None
  | None => None
  end.

(** [request.user.driver_profile]: the driver row of the user with its key,
    [None] for [Driver.DoesNotExist]. *)
Definition driver_profile (u : User.t) (db : Db) : option (nat * Driver.t) :=
  list_find (fun d => Driver.user d = User.id u) (drivers db).

(** ** Trip management (administrator) *)

(** [TripBooking.objects.filter(trip=trip).update(status=CANCELLED)]. *)
Definition cancel_bookings_of (trip_id : nat)
    (rows : list TripBooking.t) : list TripBooking.t :=
  (fun b =>
     if bool_decide (TripBooking.trip b = trip_id)
     then TripBooking.set_status TripBooking.CANCELLED b else b) <$> rows.

Definition trip_cancel_view (request : Request) (trip_id : nat)
    : Db -> Response * Db :=
  login_required (admin_required (fun request db =>
    match user request with
    | None => (Http500, db)
    | Some admin_user =>
    match get_object_or_404 (trips db) trip_id (fun _ => true) with
    | None => (Http404, db)
    | Some trip =>
    if bool_decide (Trip.status trip = Trip.CANCELLED) then
      (Redirect "core:trip_list_admin" None
         (Some (WARNING, "This trip is already cancelled.")), db)
    else
      match method request with
      | POST =>
          match CancelTripForm.clean (POST_ request) with
          | Some reason =>
              let trip :=
                Trip.set_cancellation_reason (Some reason)
                  (Trip.set_cancelled_by (Some "Administrator")
                     (Trip.set_status Trip.CANCELLED trip)) in
              let db := set_trips (<[trip_id := trip]> (trips db)) db in
              (* Cancel all bookings for this trip *)
              let db :=
                set_bookings (cancel_bookings_of trip_id (bookings db)) db in
              let db :=
                log_admin_action admin_user "CANCEL" "Trip" trip_id
                  ("Cancelled trip: " +:+ Trip.trip_name trip) db in
              (Redirect "core:trip_list_admin" None
                 (Some (SUCCESS,
                    "Trip " +:+ dquote +:+ Trip.trip_name trip +:+ dquote
                      +:+ " cancelled successfully!")), db)
          | None => (Render "core/admin/trip_cancel.html", db)
          end
      | GET => (Render "core/admin/trip_cancel.html", db)
      end
    end end)) request.

(** ** Booking (passenger) *)

(** [TripBooking.objects.filter(trip=trip, user=request.user,
    status=CONFIRMED).exists()]. *)
Definition has_confirmed_booking (trip_id uid : nat)
    (rows : list TripBooking.t) : bool :=
  existsb
    (fun b =>
       bool_decide (TripBooking.trip b = trip_id)
       && bool_decide (TripBooking.user b = uid)
       && bool_decide (TripBooking.status b = TripBooking.CONFIRMED))
    rows.

Definition trip_book_view (now : Z) (request : Request) (trip_id : nat)
    : Db -> Response * Db :=
  login_required (passenger_required (fun request db =>
    match user request with
    | None => (Http500, db)
    | Some u =>
    match get_object_or_404 (trips db) trip_id (fun _ => true) with
    | None => (Http404, db)
    | Some trip =>
    if negb (Trip.is_bookable now trip) then
      (Redirect "core:trip_detail" (Some trip_id)
         (Some (ERROR, "This trip is no longer available for booking.")), db)
    else
    (* Check for existing booking *)
    let existing := has_confirmed_booking trip_id (User.id u) (bookings db) in
    if existing then
      (Redirect "core:trip_detail" (Some trip_id)
         (Some (WARNING, "You have already booked this trip.")), db)
    else
      match method request with
      | POST =>
          match BookingForm.clean (POST_ request) with
          | Some seats =>
              if Trip.available_seats trip <? seats then
                (Redirect "core:trip_book" (Some trip_id)
                   (Some (ERROR,
                      "Only " +:+ pretty (Trip.available_seats trip)
                        +:+ " seats available.")), db)
              else
                (* Create booking *)
                let total_price := Trip.price trip * seats in
                let booking :=
                  {| TripBooking.trip := trip_id;
                     TripBooking.user := User.id u;
                     TripBooking.seats_booked := seats;
                     TripBooking.total_price := total_price;
                     TripBooking.status := TripBooking.CONFIRMED |} in
                let db := set_bookings (bookings db ++ [booking]) db in
                (* Update available seats *)
                let trip :=
                  Trip.set_available_seats
                    (Trip.available_seats trip - seats) trip in
                let db := set_trips (<[trip_id := trip]> (trips db)) db in
                (Redirect "core:my_bookings" None
                   (Some (SUCCESS,
                      "Successfully booked " +:+ pretty seats
                        +:+ " seat(s) for " +:+ Trip.trip_name trip +:+ "!")),
                 db)
          | None => (Render "core/trips/book.html", db)
          end
      | GET => (Render "core/trips/book.html", db)
      end
    end end)) request.

Definition cancel_booking_view (request : Request) (booking_id : nat)
    : Db -> Response * Db :=
  login_required (passenger_required (fun request db =>
    match user request with
    | None => (Http500, db)
    | Some u =>
    match get_object_or_404 (bookings db) booking_id
            (fun b => bool_decide (TripBooking.user b = User.id u)) with
    | None => (Http404, db)
    | Some booking =>
    if bool_decide (TripBooking.status booking <> TripBooking.CONFIRMED) then
      (Redirect "core:my_bookings" None
         (Some (WARNING, "This booking cannot be cancelled.")), db)
    else
    (* booking.trip *)
    match trips db !! TripBooking.trip booking with
    | None => (Http500, db)
    | Some trip =>
    if bool_decide (Trip.status trip <> Trip.UPCOMING) then
      (Redirect "core:my_bookings" None
         (Some (WARNING,
            "Cannot cancel booking for trips that have started or completed.")),
       db)
    else
      match method request with
      | POST =>
          let booking :=
            TripBooking.set_status TripBooking.CANCELLED booking in
          let db := set_bookings (<[booking_id := booking]> (bookings db)) db in
          (* Restore available seats *)
          let trip :=
            Trip.set_available_seats
              (Trip.available_seats trip + TripBooking.seats_booked booking)
              trip in
          let db :=
            set_trips (<[TripBooking.trip booking := trip]> (trips db)) db in
          (Redirect "core:my_bookings" None
             (Some (SUCCESS, "Booking cancelled successfully.")), db)
      | GET => (Render "core/trips/cancel_booking.html", db)
      end
    end end end)) request.

(** ** Rating (passenger) *)

(** [Rating.objects.filter(trip=trip, user=request.user).exists()]. *)
Definition has_rating (trip_id uid : nat) (rows : list Rating.t) : bool :=
  existsb
    (fun r =>
       bool_decide (Rating.trip r = trip_id)
       && bool_decide (Rating.user r = uid))
    rows.

(** [Rating.objects.filter(driver=d).aggregate(avg=Avg('driver_rating'))['avg']]
    and the same over the vehicle. *)
Definition driver_avg (driver_id : nat) (rows : list Rating.t) : option Q :=
  Avg (Rating.driver_rating <$>
         filter (fun r => Rating.driver r = Some driver_id) rows).

Definition vehicle_avg (vehicle_id : nat) (rows : list Rating.t) : option Q :=
  Avg (Rating.vehicle_rating <$>
         filter (fun r => Rating.vehicle r = Some vehicle_id) rows).

(** Following a nullable foreign key: nothing for a null, the row, or the
    exception of a key without a row. *)
Inductive Related (A : Type) := Null | Row (pk : nat) (row : A) | Dangling.
Arguments Null {A}.
Arguments Row {A} pk row.
Arguments Dangling {A}.

Definition related {A} (table : list A) (fk : option nat) : Related A :=
  match fk with
  | None => Null
  | Some pk =>
      match table !! pk with
      | Some row => Row pk row
      | None => Dangling
      end
  end.

(** The two blocks after [rating.save()]. *)
Definition update_driver_average (driver : Related Driver.t) (db : Db) : Db :=
  match driver with
  | Row driver_id d =>
      let avg := driver_avg driver_id (ratings db) in
      if truthy avg then
        set_drivers
          (<[driver_id :=
               Driver.set_average_rating (quantize (default 0%Q avg)) d]>
             (drivers db)) db
      else db
  | _ => db
  end.

Definition update_vehicle_average (vehicle : Related Vehicle.t) (db : Db) : Db :=
  match vehicle with
  | Row vehicle_id v =>
      let avg := vehicle_avg vehicle_id (ratings db) in
      if truthy avg then
        set_vehicles
          (<[vehicle_id :=
               Vehicle.set_average_rating (quantize (default 0%Q avg)) v]>
             (vehicles db)) db
      else db
  | _ => db
  end.

Definition rate_trip_view (request : Request) (booking_id : nat)
    : Db -> Response * Db :=
  login_required (passenger_required (fun request db =>
    match user request with
    | None => (Http500, db)
    | Some u =>
    match get_object_or_404 (bookings db) booking_id
            (fun b => bool_decide (TripBooking.user b = User.id u)) with
    | None => (Http404, db)
    | Some booking =>
    let trip_id := TripBooking.trip booking in
    match trips db !! trip_id with
    | None => (Http500, db)
    | Some trip =>
    (* Check if trip is completed *)
    if bool_decide (Trip.status trip <> Trip.COMPLETED) then
      (Redirect "core:my_bookings" None
         (Some (WARNING, "You can only rate completed trips.")), db)
    else
    (* Check if already rated *)
    let existing_rating := has_rating trip_id (User.id u) (ratings db) in
    if existing_rating then
      (Redirect "core:my_bookings" None
         (Some (INFO, "You have already rated this trip.")), db)
    else
      match method request with
      | POST =>
          match RatingForm.clean (POST_ request) with
          | Some (driver_rating, vehicle_rating, driver_comment) =>
              let driver := related (drivers db) (Trip.driver trip) in
              let vehicle := related (vehicles db) (Trip.vehicle trip) in
              match driver, vehicle with
              | Dangling, _ | _, Dangling => (Http500, db)
              | _, _ =>
                  let rating :=
                    {| Rating.trip := trip_id;
                       Rating.user := User.id u;
                       Rating.driver := Trip.driver trip;
                       Rating.vehicle := Trip.vehicle trip;
                       Rating.driver_rating := Some driver_rating;
                       Rating.vehicle_rating := Some vehicle_rating;
                       Rating.driver_comment := driver_comment |} in
                  let db := set_ratings (ratings db ++ [rating]) db in
                  (* Update driver average rating *)
                  let db := update_driver_average driver db in
                  (* Update vehicle average rating *)
                  let db := update_vehicle_average vehicle db in
                  (Redirect "core:my_bookings" None
                     (Some (SUCCESS, "Thank you for your rating!")), db)
              end
          | None => (Render "core/trips/rate.html", db)
          end
      | GET => (Render "core/trips/rate.html", db)
      end
    end end end)) request.

(** ** Driver trip views *)

(** [TripBooking.objects.filter(trip=trip, status=CONFIRMED)
    .update(status=COMPLETED)]. *)
Definition complete_bookings_of (trip_id : nat)
    (rows : list TripBooking.t) : list TripBooking.t :=
  (fun b =>
     if bool_decide (TripBooking.trip b = trip_id)
        && bool_decide (TripBooking.status b = TripBooking.CONFIRMED)
     then TripBooking.set_status TripBooking.COMPLETED b else b) <$> rows.

Definition driver_start_trip_view (request : Request) (trip_id : nat)
    : Db -> Response * Db :=
  login_required (driver_required (fun request db =>
    match user request with
    | None => (Http500, db)
    | Some u =>
    match driver_profile u db with
    | None =>
        (Redirect "core:dashboard" None
           (Some (ERROR, "Driver profile not found.")), db)
    | Some (driver_id, driver) =>
    match get_object_or_404 (trips db) trip_id
            (fun t => bool_decide (Trip.driver t = Some driver_id)) with
    | None => (Http404, db)
    | Some trip =>
    if bool_decide (Trip.status trip <> Trip.UPCOMING) then
      (Redirect "core:driver_trips" None
         (Some (WARNING, "This trip cannot be started.")), db)
    else
      match method request with
      | POST =>
          let trip := Trip.set_status Trip.ONGOING trip in
          let db := set_trips (<[trip_id := trip]> (trips db)) db in
          let driver := Driver.set_status Driver.ON_TRIP driver in
          let db := set_drivers (<[driver_id := driver]> (drivers db)) db in
          (Redirect "core:driver_trips" None
             (Some (SUCCESS,
                "Trip " +:+ dquote +:+ Trip.trip_name trip +:+ dquote
                  +:+ " started!")), db)
      | GET => (Render "core/driver/start_trip.html", db)
      end
    end end end)) request.

Definition driver_complete_trip_view (request : Request) (trip_id : nat)
    : Db -> Response * Db :=
  login_required (driver_required (fun request db =>
    match user request with
    | None => (Http500, db)
    | Some u =>
    match driver_profile u db with
    | None =>
        (Redirect "core:dashboard" None
           (Some (ERROR, "Driver profile not found.")), db)
    | Some (driver_id, driver) =>
    match get_object_or_404 (trips db) trip_id
            (fun t => bool_decide (Trip.driver t = Some driver_id)) with
    | None => (Http404, db)
    | Some trip =>
    if bool_decide (Trip.status trip <> Trip.ONGOING) then
      (Redirect "core:driver_trips" None
         (Some (WARNING, "This trip cannot be completed.")), db)
    else
      match method request with
      | POST =>
          let trip := Trip.set_status Trip.COMPLETED trip in
          let db := set_trips (<[trip_id := trip]> (trips db)) db in
          (* Update bookings to completed *)
          let db :=
            set_bookings (complete_bookings_of trip_id (bookings db)) db in
          (* Update driver stats *)
          let driver := Driver.set_status Driver.AVAILABLE driver in
          let driver :=
            Driver.set_total_trips (Driver.total_trips driver + 1) driver in
          let db := set_drivers (<[driver_id := driver]> (drivers db)) db in
          (Redirect "core:driver_trips" None
             (Some (SUCCESS,
                "Trip " +:+ dquote +:+ Trip.trip_name trip +:+ dquote
                  +:+ " completed!")), db)
      | GET => (Render "core/driver/complete_trip.html", db)
      end
    end end end)) request.

(** ** The operations of the core, as their callers invoke them

    Each operation is the handler above on the POST request of an
    authenticated user of the role the handler is reserved to. *)

Definition passenger (uid : nat) : User.t :=
  {| User.id := uid; User.user_type := User.PASSENGER |}.
Definition driver_user (uid : nat) : User.t :=
  {| User.id := uid; User.user_type := User.DRIVER |}.
Definition administrator (uid : nat) : User.t :=
  {| User.id := uid; User.user_type := User.ADMINISTRATOR |}.

Definition no_data : PostData :=
  {| post_seats := None; post_cancellation_reason := EmptyString;
     post_driver_rating := None; post_vehicle_rating := None;
     post_driver_comment := EmptyString |}.

Definition post (u : User.t) (data : PostData) : Request :=
  {| method := POST; user := Some u; POST_ := data |}.

Definition book (now : Z) (trip_id uid : nat) (seats : Z)
    : Db -> Response * Db :=
  trip_book_view now
    (post (passenger uid)
       {| post_seats := Some seats; post_cancellation_reason := EmptyString;
          post_driver_rating := None; post_vehicle_rating := None;
          post_driver_comment := EmptyString |})
    trip_id.

Definition cancel (booking_id uid : nat) : Db -> Response * Db :=
  cancel_booking_view (post (passenger uid) no_data) booking_id.

Definition rate (booking_id uid : nat) (driver_rating vehicle_rating : Stars)
    (comment : string) : Db -> Response * Db :=
  rate_trip_view
    (post (passenger uid)
       {| post_seats := None; post_cancellation_reason := EmptyString;
          post_driver_rating := Some driver_rating;
          post_vehicle_rating := Some vehicle_rating;
          post_driver_comment := comment |})
    booking_id.

Definition cancelTrip (trip_id admin_id : nat) (reason : string)
    : Db -> Response * Db :=
  trip_cancel_view
    (post (administrator admin_id)
       {| post_seats := None; post_cancellation_reason := reason;
          post_driver_rating := None; post_vehicle_rating := None;
          post_driver_comment := EmptyString |})
    trip_id.

Definition startTrip (trip_id uid : nat) : Db -> Response * Db :=
  driver_start_trip_view (post (driver_user uid) no_data) trip_id.

Definition completeTrip (trip_id uid : nat) : Db -> Response * Db :=
  driver_complete_trip_view (post (driver_user uid) no_data) trip_id.

(** An operation went through when the handler answers with its success
    message; every other answer (a warning or an error, the form shown
    again, a 404) is a rejection. *)
Definition succeeded (r : Response) : bool :=
  match r with
  | Redirect _ _ (Some (SUCCESS, _)) => true
  | _ => false
  end.

Definition rejected (r : Response) : bool := negb (succeeded r).

(** ** Quantities the properties speak about *)

(** [trip.available_seats] of the trip with key [trip_id]. *)
Definition seats_of (trip_id : nat) (db : Db) : option Z :=
  Trip.available_seats <$> trips db !! trip_id.

Definition status_of (trip_id : nat) (db : Db) : option Trip.Status :=
  Trip.status <$> trips db !! trip_id.

(** What a booking holds of a trip in a status, and the sum of
    [seats_booked] over the bookings of a trip in that status. *)
Definition held (st : TripBooking.Status) (trip_id : nat)
    (b : TripBooking.t) : Z :=
  if bool_decide (TripBooking.trip b = trip_id)
     && bool_decide (TripBooking.status b = st)
  then TripBooking.seats_booked b else 0.

Fixpoint seats_in (st : TripBooking.Status) (trip_id : nat)
    (rows : list TripBooking.t) : Z :=
  match rows with
  | [] => 0
  | b :: rows => held st trip_id b + seats_in st trip_id rows
  end.

(** Requests to the booking manager, and a run of them from a database. *)
Inductive BookingRequest :=
  | BookRequest (now : Z) (request : Request) (trip_id : nat)
  | CancelRequest (request : Request) (booking_id : nat).

Definition handle (rq : BookingRequest) (db : Db) : Db :=
  match rq with
  | BookRequest now request trip_id => (trip_book_view now request trip_id db).2
  | CancelRequest request booking_id => (cancel_booking_view request booking_id db).2
  end.

Definition run (rqs : list BookingRequest) (db : Db) : Db :=
  foldl (fun db rq => handle rq db) db rqs.

(** Requests to the trip lifecycle manager. *)
Inductive LifecycleRequest :=
  | CancelTripRequest (request : Request) (trip_id : nat)
  | StartTripRequest (request : Request) (trip_id : nat)
  | CompleteTripRequest (request : Request) (trip_id : nat).

Definition lifecycle (rq : LifecycleRequest) (db : Db) : Response * Db :=
  match rq with
  | CancelTripRequest request trip_id => trip_cancel_view request trip_id db
  | StartTripRequest request trip_id => driver_start_trip_view request trip_id db
  | CompleteTripRequest request trip_id =>
      driver_complete_trip_view request trip_id db
  end.

(** The number of hundredths [a] as a rational. *)
Definition hundredths (a : Z) : Q := Qmake a 100.

(** Inventory of the trip [trip_id] created with [created] seats: the seats
    left and the seats of the confirmed bookings add up to [created], none
    of the two is negative. *)
Definition conserved (trip_id : nat) (created : Z) (db : Db) : Prop :=
  exists seats,
    seats_of trip_id db = Some seats
    /\ 0 <= seats
    /\ seats + seats_in TripBooking.CONFIRMED trip_id (bookings db) = created
    /\ Forall (fun b => TripBooking.trip b = trip_id ->
                        1 <= TripBooking.seats_booked b) (bookings db).

(** A request leaves a trip that is Completed or Cancelled in its status. *)
Definition terminal_for (rq : LifecycleRequest) (db : Db) (trip_id : nat)
    : Prop :=
  forall st, status_of trip_id db = Some st ->
             st = Trip.COMPLETED \/ st = Trip.CANCELLED ->
             status_of trip_id (lifecycle rq db).2 = Some st.

(** The stored average of a driver is the mean of the ratings that
    reference the driver. *)
Definition average_is_mean (driver_id : nat) (db : Db) : Prop :=
  exists d mean,
    drivers db !! driver_id = Some d
    /\ driver_avg driver_id (ratings db) = Some mean
    /\ (hundredths (Driver.average_rating d) == mean)%Q.

(** ** Sample data *)

Definition sample_trip (st : Trip.Status) (seats : Z) : Trip.t :=
  {| Trip.driver := Some 0%nat; Trip.vehicle := Some 0%nat;
     Trip.trip_name := "Airport shuttle"; Trip.departure_time := 1000;
     Trip.price := 1000; Trip.available_seats := seats; Trip.status := st;
     Trip.cancelled_by := None; Trip.cancellation_reason := None |}.

Definition sample_driver : Driver.t :=
  {| Driver.user := 7%nat; Driver.vehicle := Some 0%nat;
     Driver.average_rating := 0; Driver.total_trips := 0;
     Driver.status := Driver.ON_TRIP |}.

Definition sample_vehicle : Vehicle.t :=
  {| Vehicle.capacity := 3; Vehicle.average_rating := 0;
     Vehicle.status := Vehicle.AVAILABLE |}.

Definition sample_booking (uid : nat) (seats : Z)
    (st : TripBooking.Status) : TripBooking.t :=
  {| TripBooking.trip := 0%nat; TripBooking.user := uid;
     TripBooking.seats_booked := seats; TripBooking.total_price := 1000 * seats;
     TripBooking.status := st |}.

Definition sample_db (st : Trip.Status) (seats : Z)
    (rows : list TripBooking.t) : Db :=
  {| trips := [sample_trip st seats]; bookings := rows;
     drivers := [sample_driver]; vehicles := [sample_vehicle];
     ratings := []; admin_logs := [] |}.

(** A completed trip whose passenger held two seats. *)
Definition completed_db : Db :=
  sample_db Trip.COMPLETED 1 [sample_booking 1 2 TripBooking.COMPLETED].

(** A completed trip with three passengers, and the database after the
    first two, then all three, rated it. *)
Definition rating_db : Db :=
  sample_db Trip.COMPLETED 0
    [sample_booking 1 1 TripBooking.COMPLETED;
     sample_booking 2 1 TripBooking.COMPLETED;
     sample_booking 3 1 TripBooking.COMPLETED].

Definition after_4 : Db := (rate 0 1 Star4 Star4 "ok" rating_db).2.
Definition after_4_5 : Db := (rate 1 2 Star5 Star5 "ok" after_4).2.
Definition after_4_5_5 : Db := (rate 2 3 Star5 Star5 "ok" after_4_5).2.

(** ** Every request of the core *)

Inductive AnyRequest :=
  | BookingManager (rq : BookingRequest)
  | TripLifecycle (rq : LifecycleRequest)
  | RateRequest (request : Request) (booking_id : nat).

Definition serve (rq : AnyRequest) (db : Db) : Response * Db :=
  match rq with
  | BookingManager (BookRequest now request trip_id) =>
      trip_book_view now request trip_id db
  | BookingManager (CancelRequest request booking_id) =>
      cancel_booking_view request booking_id db
  | TripLifecycle rq => lifecycle rq db
  | RateRequest request booking_id => rate_trip_view request booking_id db
  end.

Definition serve_all (rqs : list AnyRequest) (db : Db) : Db :=
  foldl (fun db rq => (serve rq db).2) db rqs.

(** The HTTP request of a request, and the role its handler is reserved
    to by its guard. *)
Definition request_of (rq : AnyRequest) : Request :=
  match rq with
  | BookingManager (BookRequest _ request _) => request
  | BookingManager (CancelRequest request _) => request
  | TripLifecycle (CancelTripRequest request _) => request
  | TripLifecycle (StartTripRequest request _) => request
  | TripLifecycle (CompleteTripRequest request _) => request
  | RateRequest request _ => request
  end.

Definition required_role (rq : AnyRequest) : User.UserType :=
  match rq with
  | BookingManager _ => User.PASSENGER
  | TripLifecycle (CancelTripRequest _ _) => User.ADMINISTRATOR
  | TripLifecycle _ => User.DRIVER
  | RateRequest _ _ => User.PASSENGER
  end.

(** What one request does to the trips and the bookings: nothing, or one of
    five transitions. *)
Inductive store_step (db db' : Db) : Prop :=
  | step_none :
      trips db' = trips db -> bookings db' = bookings db ->
      store_step db db'
  | step_book (now : Z) (trip_id uid : nat) (trip : Trip.t) (seats : Z) :
      trips db !! trip_id = Some trip ->
      Trip.is_bookable now trip = true ->
      has_confirmed_booking trip_id uid (bookings db) = false ->
      1 <= seats <= Trip.available_seats trip ->
      trips db' =
        <[trip_id := Trip.set_available_seats
                       (Trip.available_seats trip - seats) trip]> (trips db) ->
      bookings db' =
        bookings db ++
          [ {| TripBooking.trip := trip_id; TripBooking.user := uid;
               TripBooking.seats_booked := seats;
               TripBooking.total_price := Trip.price trip * seats;
               TripBooking.status := TripBooking.CONFIRMED |} ] ->
      store_step db db'
  | step_cancel (booking_id : nat) (booking : TripBooking.t) (trip : Trip.t) :
      bookings db !! booking_id = Some booking ->
      TripBooking.status booking = TripBooking.CONFIRMED ->
      trips db !! TripBooking.trip booking = Some trip ->
      Trip.status trip = Trip.UPCOMING ->
      trips db' =
        <[TripBooking.trip booking :=
            Trip.set_available_seats
              (Trip.available_seats trip + TripBooking.seats_booked booking)
              trip]> (trips db) ->
      bookings db' =
        <[booking_id := TripBooking.set_status TripBooking.CANCELLED booking]>
          (bookings db) ->
      store_step db db'
  | step_cancel_trip (trip_id : nat) (trip : Trip.t) (reason : string) :
      trips db !! trip_id = Some trip ->
      Trip.status trip <> Trip.CANCELLED ->
      trips db' =
        <[trip_id :=
            Trip.set_cancellation_reason (Some reason)
              (Trip.set_cancelled_by (Some "Administrator")
                 (Trip.set_status Trip.CANCELLED trip))]> (trips db) ->
      bookings db' = cancel_bookings_of trip_id (bookings db) ->
      store_step db db'
  | step_start (trip_id : nat) (trip : Trip.t) :
      trips db !! trip_id = Some trip ->
      Trip.status trip = Trip.UPCOMING ->
      trips db' = <[trip_id := Trip.set_status Trip.ONGOING trip]> (trips db) ->
      bookings db' = bookings db ->
      store_step db db'
  | step_complete (trip_id : nat) (trip : Trip.t) :
      trips db !! trip_id = Some trip ->
      Trip.status trip = Trip.ONGOING ->
      trips db' =
        <[trip_id := Trip.set_status Trip.COMPLETED trip]> (trips db) ->
      bookings db' = complete_bookings_of trip_id (bookings db) ->
      store_step db db'.

(** At most one Confirmed booking for a trip and a user. *)
Definition one_confirmed_booking (rows : list TripBooking.t) : Prop :=
  forall i j b b',
    rows !! i = Some b -> rows !! j = Some b' ->
    TripBooking.trip b = TripBooking.trip b' ->
    TripBooking.user b = TripBooking.user b' ->
    TripBooking.status b = TripBooking.CONFIRMED ->
    TripBooking.status b' = TripBooking.CONFIRMED ->
    i = j.

(** At most one rating for a trip and a user ([unique_together] of
    [Rating]). *)
Definition one_rating (rows : list Rating.t) : Prop :=
  forall i j x y,
    rows !! i = Some x -> rows !! j = Some y ->
    Rating.trip x = Rating.trip y -> Rating.user x = Rating.user y ->
    i = j.

(** Seats of a trip created with [created] seats, under every request:
    the seats left are not negative, and with the seats of the Confirmed
    bookings they do not exceed [created]. *)
Definition within_capacity (trip_id : nat) (created : Z) (db : Db) : Prop :=
  exists seats,
    seats_of trip_id db = Some seats
    /\ 0 <= seats
    /\ seats + seats_in TripBooking.CONFIRMED trip_id (bookings db) <= created
    /\ Forall (fun b => TripBooking.trip b = trip_id ->
                        1 <= TripBooking.seats_booked b) (bookings db).

(** ** Listings *)

(** The queryset of [trip_search_view], which the handler then orders by
    departure and cuts into pages: the trips that are Upcoming, depart after
    [now] and have a seat left, among those the search form keeps.  The
    form filters on columns left out here (locations, date); [narrow] tells
    by key which rows it keeps, every row when no filter is given. *)
Definition trip_search_queryset (now : Z) (narrow : nat -> bool) (db : Db)
    : list (nat * Trip.t) :=
  filter
    (fun it =>
       Trip.status it.2 = Trip.UPCOMING
       /\ now < Trip.departure_time it.2
       /\ 0 < Trip.available_seats it.2
       /\ narrow it.1 = true)
    (imap pair (trips db)).

(** The queryset of [my_bookings_view]: the bookings of the user, latest
    first, narrowed by the [status] parameter of the query string when it
    is one of the three the handler knows. *)
Definition my_bookings_queryset (status : option string) (uid : nat) (db : Db)
    : list (nat * TripBooking.t) :=
  let bookings :=
    reverse (filter (fun ib => TripBooking.user ib.2 = uid)
               (imap pair (bookings db))) in
  match status with
  | None => bookings
  | Some status =>
      if bool_decide (status = EmptyString) then bookings
      else if bool_decide (status = "Confirmed") then
        filter (fun ib => TripBooking.status ib.2 = TripBooking.CONFIRMED)
          bookings
      else if bool_decide (status = "Completed") then
        filter
          (fun ib =>
             TripBooking.status ib.2 = TripBooking.COMPLETED
             \/ Trip.status <$> trips db !! TripBooking.trip ib.2
                = Some Trip.COMPLETED)
          bookings
      else if bool_decide (status = "Cancelled") then
        filter (fun ib => TripBooking.status ib.2 = TripBooking.CANCELLED)
          bookings
      else bookings
  end.

(** [my_bookings_view]: the page and the bookings it shows. *)
Definition my_bookings_view (status : option string) (request : Request)
    (db : Db) : Response * list (nat * TripBooking.t) :=
  match user request with
  | None => (Redirect "login" None None, [])
  | Some u =>
      if negb (User.is_passenger u) then
        (Redirect "dashboard" None
           (Some (ERROR, "This page is only accessible to passengers.")), [])
      else
        (Render "core/trips/my_bookings.html",
         my_bookings_queryset status (User.id u) db)
  end.

(** The value of a booking status, as the query string of
    [my_bookings_view] spells it. *)
Definition booking_status_value (st : TripBooking.Status) : string :=
  match st with
  | TripBooking.CONFIRMED => "Confirmed"
  | TripBooking.CANCELLED => "Cancelled"
  | TripBooking.COMPLETED => "Completed"
  end.

(** Every rating is about a trip that is Completed, or Cancelled. *)
Definition rated_trips_completed (db : Db) : Prop :=
  forall x, x ∈ ratings db ->
    status_of (Rating.trip x) db = Some Trip.COMPLETED
    \/ status_of (Rating.trip x) db = Some Trip.CANCELLED.

(** ** Kinds of requests and of texts *)

(** The requests to cancel a booking. *)
Definition is_booking_cancellation (rq : AnyRequest) : bool :=
  match rq with
  | BookingManager (CancelRequest _ _) => true
  | _ => false
  end.

(** One white-space character, as UTF-8 writes it. *)
Definition white_space (w : string) : bool :=
  match w with
  | String c1 EmptyString => is_space c1
  | String c1 (String c2 EmptyString) => is_space2 c1 c2
  | String c1 (String c2 (String c3 EmptyString)) => is_space3 c1 c2 c3
  | _ => false
  end.

(** A text made of white-space characters only. *)
Inductive blank : string -> Prop :=
  | blank_empty : blank EmptyString
  | blank_space (w s : string) :
      white_space w = true -> blank s -> blank (w +:+ s).

(** * Properties *)

(** ** Proof tools *)

Ltac unfold_views :=
  unfold lifecycle, handle, book, cancel, rate, cancelTrip, startTrip,
    completeTrip, trip_cancel_view, trip_book_view, cancel_booking_view,
    rate_trip_view, driver_start_trip_view, driver_complete_trip_view,
    login_required, admin_required, driver_required, passenger_required,
    get_object_or_404, driver_profile, post, rejected in *.

Ltac decide_hyps :=
  repeat match goal with
  | H : bool_decide _ = true |- _ => apply bool_decide_eq_true in H
  | H : bool_decide _ = false |- _ => apply bool_decide_eq_false in H
  | H : negb _ = false |- _ => apply negb_false_iff in H
  | H : negb _ = true |- _ => apply negb_true_iff in H
  | H : (_ <=? _) = true |- _ => apply Z.leb_le in H
  | H : (_ <=? _) = false |- _ => apply Z.leb_gt in H
  | H : (_ <? _) = true |- _ => apply Z.ltb_lt in H
  | H : (_ <? _) = false |- _ => apply Z.ltb_ge in H
  end.

Ltac insert_cases tid trip_id :=
  destruct (decide (tid = trip_id)) as [->|?];
  [ rewrite list_lookup_insert_eq by (eapply lookup_lt_Some; eauto)
  | rewrite list_lookup_insert_ne by done; auto ].

(** ** The queries of the handlers, in plain terms *)

Lemma is_bookable_spec (now : Z) (trip : Trip.t) :
  Trip.is_bookable now trip = true <->
  Trip.status trip = Trip.UPCOMING /\ 0 < Trip.available_seats trip
  /\ now < Trip.departure_time trip.
Proof.
  unfold Trip.is_bookable.
  rewrite !andb_true_iff, bool_decide_eq_true, !Z.ltb_lt. tauto.
Qed.

Lemma has_confirmed_booking_spec (trip_id uid : nat)
    (rows : list TripBooking.t) :
  has_confirmed_booking trip_id uid rows = true <->
  exists b, b ∈ rows /\ TripBooking.trip b = trip_id
            /\ TripBooking.user b = uid
            /\ TripBooking.status b = TripBooking.CONFIRMED.
Proof.
  unfold has_confirmed_booking. rewrite existsb_exists. split.
  - intros (b & Hin & Hb). exists b.
    rewrite !andb_true_iff, !bool_decide_eq_true in Hb.
    rewrite list_elem_of_In. tauto.
  - intros (b & Hin & Hb). exists b.
    rewrite !andb_true_iff, !bool_decide_eq_true, <- list_elem_of_In. tauto.
Qed.

Lemma has_confirmed_booking_false (trip_id uid : nat)
    (rows : list TripBooking.t) :
  has_confirmed_booking trip_id uid rows = false <->
  forall b, b ∈ rows -> TripBooking.trip b = trip_id ->
            TripBooking.user b = uid ->
            TripBooking.status b <> TripBooking.CONFIRMED.
Proof.
  rewrite <- not_true_iff_false, has_confirmed_booking_spec. split.
  - intros Hn b ? ? ? ?. apply Hn. eauto.
  - intros Hall (b & ? & ? & ? & ?). eapply Hall; eauto.
Qed.

Lemma has_rating_spec (trip_id uid : nat) (rows : list Rating.t) :
  has_rating trip_id uid rows = true <->
  exists x, x ∈ rows /\ Rating.trip x = trip_id /\ Rating.user x = uid.
Proof.
  unfold has_rating. rewrite existsb_exists. split.
  - intros (x & Hin & Hx). exists x.
    rewrite !andb_true_iff, !bool_decide_eq_true in Hx.
    rewrite list_elem_of_In. tauto.
  - intros (x & Hin & Hx). exists x.
    rewrite !andb_true_iff, !bool_decide_eq_true, <- list_elem_of_In. tauto.
Qed.

Lemma cancel_bookings_of_lookup (trip_id i : nat)
    (rows : list TripBooking.t) :
  cancel_bookings_of trip_id rows !! i =
  (fun b => if bool_decide (TripBooking.trip b = trip_id)
            then TripBooking.set_status TripBooking.CANCELLED b else b)
    <$> rows !! i.
Proof. unfold cancel_bookings_of. by rewrite list_lookup_fmap. Qed.

Lemma complete_bookings_of_lookup (trip_id i : nat)
    (rows : list TripBooking.t) :
  complete_bookings_of trip_id rows !! i =
  (fun b => if bool_decide (TripBooking.trip b = trip_id /\
                            TripBooking.status b = TripBooking.CONFIRMED)
            then TripBooking.set_status TripBooking.COMPLETED b else b)
    <$> rows !! i.
Proof.
  unfold complete_bookings_of. rewrite list_lookup_fmap.
  destruct (rows !! i) as [b|]; simpl; [|done].
  f_equal. repeat case_bool_decide; simpl; intuition.
Qed.

(** ** The scenario of the booking manager

    Three seats at 10.00.  Passenger 1 books two of them, passenger 2 is
    refused two more, passenger 1 cancels. *)

Example scenario_booking :
  let db0 := sample_db Trip.UPCOMING 3 [] in
  let a := book 0 0 1 2 db0 in
  let b := book 0 0 2 2 a.2 in
  let c := cancel 0 1 b.2 in
  succeeded a.1 = true /\ seats_of 0 a.2 = Some 1
  /\ TripBooking.total_price <$> bookings a.2 !! 0%nat = Some 2000
  /\ rejected b.1 = true /\ seats_of 0 b.2 = Some 1
  /\ succeeded c.1 = true /\ seats_of 0 c.2 = Some 3.
Proof. vm_compute. repeat split. Qed.

(** Starting and completing a trip, by its driver (user 7). *)
Example scenario_lifecycle :
  let db0 :=
    sample_db Trip.UPCOMING 1 [sample_booking 1 2 TripBooking.CONFIRMED] in
  let a := startTrip 0 7 db0 in
  let b := completeTrip 0 7 a.2 in
  status_of 0 a.2 = Some Trip.ONGOING
  /\ Driver.status <$> drivers a.2 !! 0%nat = Some Driver.ON_TRIP
  /\ status_of 0 b.2 = Some Trip.COMPLETED
  /\ TripBooking.status <$> bookings b.2 !! 0%nat = Some TripBooking.COMPLETED
  /\ Driver.status <$> drivers b.2 !! 0%nat = Some Driver.AVAILABLE
  /\ Driver.total_trips <$> drivers b.2 !! 0%nat = Some 1.
Proof. vm_compute. repeat split. Qed.

(** ** Booking manager *)

(** C1.  For a bookable trip (Upcoming, with seats left, departing after
    [now]) and a passenger without a Confirmed booking of it, booking
    [seats] seats with [1 <= seats <= trip.available_seats] goes through; it
    appends a booking that is Confirmed, whose [total_price] is exactly
    [trip.price * seats], and takes exactly [seats] from
    [trip.available_seats]. *)
Theorem book_creates_confirmed_booking
    (now : Z) (trip_id uid : nat) (seats : Z) (db : Db) (trip : Trip.t) :
  trips db !! trip_id = Some trip ->
  Trip.status trip = Trip.UPCOMING ->
  0 < Trip.available_seats trip ->
  now < Trip.departure_time trip ->
  (forall b, b ∈ bookings db -> TripBooking.trip b = trip_id ->
             TripBooking.user b = uid ->
             TripBooking.status b <> TripBooking.CONFIRMED) ->
  1 <= seats <= Trip.available_seats trip ->
  let r := book now trip_id uid seats db in
  succeeded r.1 = true
  /\ bookings r.2 =
       bookings db ++
         [ {| TripBooking.trip := trip_id; TripBooking.user := uid;
              TripBooking.seats_booked := seats;
              TripBooking.total_price := Trip.price trip * seats;
              TripBooking.status := TripBooking.CONFIRMED |} ]
  /\ trips r.2 =
       <[trip_id := Trip.set_available_seats
                      (Trip.available_seats trip - seats) trip]> (trips db)
  /\ seats_of trip_id r.2 = Some (Trip.available_seats trip - seats).
Proof.
  intros Htrip Hst Hav Hdep Hnone Hseats r. subst r.
  assert (Hb : Trip.is_bookable now trip = true)
    by (apply is_bookable_spec; auto).
  apply has_confirmed_booking_false in Hnone.
  unfold_views. unfold BookingForm.clean. simpl.
  rewrite Htrip, Hb. simpl. rewrite Hnone.
  destruct (Z.leb_spec 1 seats); [|lia].
  destruct (Z.ltb_spec (Trip.available_seats trip) seats); [lia|].
  simpl. repeat split.
  unfold seats_of. simpl.
  rewrite list_lookup_insert_eq by (eapply lookup_lt_Some; eauto). done.
Qed.

Lemma book_creates_confirmed_booking_witness :
  let r := book 0 0 1 2 (sample_db Trip.UPCOMING 3 []) in
  succeeded r.1 = true
  /\ bookings r.2 = [] ++ [sample_booking 1 2 TripBooking.CONFIRMED]
  /\ trips r.2 = <[0%nat := sample_trip Trip.UPCOMING 1]>
                   [sample_trip Trip.UPCOMING 3]
  /\ seats_of 0 r.2 = Some (3 - 2).
Proof.
  apply (book_creates_confirmed_booking 0 0 1 2
           (sample_db Trip.UPCOMING 3 []) (sample_trip Trip.UPCOMING 3)).
  - reflexivity.
  - reflexivity.
  - simpl. lia.
  - simpl. lia.
  - intros b Hb. inversion Hb.
  - simpl. lia.
Defined.

(** C2.  Booking is rejected exactly when the trip is not bookable (it is
    not Upcoming, or has no seat left, or does not depart strictly after
    [now]), or the passenger already has a Confirmed booking of the trip,
    or [seats > trip.available_seats], or [seats < 1]; and a rejected
    booking leaves the whole database, so the seats of the trip and every
    booking, as it was. *)
Theorem book_rejected_iff
    (now : Z) (trip_id uid : nat) (seats : Z) (db : Db) (trip : Trip.t) :
  trips db !! trip_id = Some trip ->
  let r := book now trip_id uid seats db in
  (rejected r.1 = true <->
     ~ (Trip.status trip = Trip.UPCOMING /\ 0 < Trip.available_seats trip
        /\ now < Trip.departure_time trip)
     \/ (exists b, b ∈ bookings db /\ TripBooking.trip b = trip_id
                   /\ TripBooking.user b = uid
                   /\ TripBooking.status b = TripBooking.CONFIRMED)
     \/ Trip.available_seats trip < seats
     \/ seats < 1)
  /\ (rejected r.1 = true -> r.2 = db).
Proof.
  intros Htrip r. subst r.
  rewrite <- is_bookable_spec, <- has_confirmed_booking_spec.
  unfold_views. unfold BookingForm.clean. simpl.
  rewrite Htrip.
  destruct (Trip.is_bookable now trip); simpl.
  2: { split; [|done]. split; [intros _; left; congruence | done]. }
  destruct (has_confirmed_booking trip_id uid (bookings db)); simpl.
  { split; [|done]. split; [intros _; right; left; congruence | done]. }
  destruct (Z.leb_spec 1 seats); simpl.
  2: { split; [|done]. split; [intros _; lia | done]. }
  destruct (Z.ltb_spec (Trip.available_seats trip) seats); simpl.
  { split; [|done]. split; [intros _; lia | done]. }
  split; [|done]. split; [done|].
  intros [Hn | [Hn | Hn]]; [congruence | congruence | lia].
Qed.

Lemma book_rejected_iff_witness :
  let db := sample_db Trip.UPCOMING 1 [sample_booking 1 2 TripBooking.CONFIRMED] in
  let r := book 0 0 2 2 db in
  (rejected r.1 = true <->
     ~ (Trip.UPCOMING = Trip.UPCOMING /\ 0 < 1 /\ 0 < 1000)
     \/ (exists b, b ∈ bookings db /\ TripBooking.trip b = 0%nat
                   /\ TripBooking.user b = 2%nat
                   /\ TripBooking.status b = TripBooking.CONFIRMED)
     \/ 1 < 2
     \/ 2 < 1)
  /\ (rejected r.1 = true -> r.2 = db).
Proof.
  apply (book_rejected_iff 0 0 2 2
           (sample_db Trip.UPCOMING 1
              [sample_booking 1 2 TripBooking.CONFIRMED])
           (sample_trip Trip.UPCOMING 1)).
  reflexivity.
Defined.

(** C3.  Cancelling a booking, by the passenger it belongs to, is rejected
    exactly when the booking is not Confirmed or its trip is not Upcoming;
    a rejection changes nothing; on success the booking becomes Cancelled
    and [trip.available_seats] grows by exactly [booking.seats_booked]. *)
Theorem cancel_rejected_iff
    (booking_id uid : nat) (db : Db) (booking : TripBooking.t)
    (trip : Trip.t) :
  bookings db !! booking_id = Some booking ->
  TripBooking.user booking = uid ->
  trips db !! TripBooking.trip booking = Some trip ->
  let r := cancel booking_id uid db in
  (rejected r.1 = true <->
     TripBooking.status booking <> TripBooking.CONFIRMED
     \/ Trip.status trip <> Trip.UPCOMING)
  /\ (rejected r.1 = true -> r.2 = db)
  /\ (succeeded r.1 = true ->
      bookings r.2 =
        <[booking_id := TripBooking.set_status TripBooking.CANCELLED booking]>
          (bookings db)
      /\ TripBooking.status <$> bookings r.2 !! booking_id
         = Some TripBooking.CANCELLED
      /\ trips r.2 =
           <[TripBooking.trip booking :=
               Trip.set_available_seats
                 (Trip.available_seats trip + TripBooking.seats_booked booking)
                 trip]> (trips db)
      /\ seats_of (TripBooking.trip booking) r.2
         = Some (Trip.available_seats trip + TripBooking.seats_booked booking)).
Proof.
  intros Hb Hu Ht r. subst r.
  unfold_views. unfold seats_of. simpl.
  rewrite Hb, Hu, bool_decide_eq_true_2 by done.
  case_bool_decide; simpl; [intuition congruence|].
  rewrite Ht. case_bool_decide; simpl; [intuition congruence|].
  split; [intuition congruence|]. split; [done|]. intros _.
  rewrite !list_lookup_insert_eq by (eapply lookup_lt_Some; eauto). done.
Qed.

Lemma cancel_rejected_iff_witness :
  let db := sample_db Trip.UPCOMING 1 [sample_booking 1 2 TripBooking.CONFIRMED] in
  let r := cancel 0 1 db in
  succeeded r.1 = true /\ seats_of 0 r.2 = Some (1 + 2).
Proof.
  pose proof (cancel_rejected_iff 0 1
                (sample_db Trip.UPCOMING 1
                   [sample_booking 1 2 TripBooking.CONFIRMED])
                (sample_booking 1 2 TripBooking.CONFIRMED)
                (sample_trip Trip.UPCOMING 1)
                eq_refl eq_refl eq_refl) as (_ & _ & Hok).
  split; [reflexivity|]. apply Hok. reflexivity.
Defined.

(** C4.  Booking seats on a trip and cancelling that booking at once (the
    trip is still Upcoming: booking does not touch its status) brings
    [trip.available_seats] back to what it was before the booking. *)
Theorem book_then_cancel_restores_seats
    (now : Z) (trip_id uid : nat) (seats : Z) (db : Db) (trip : Trip.t) :
  trips db !! trip_id = Some trip ->
  let booked := book now trip_id uid seats db in
  succeeded booked.1 = true ->
  let booking_id := length (bookings db) in
  let cancelled := cancel booking_id uid booked.2 in
  bookings booked.2 !! booking_id =
    Some {| TripBooking.trip := trip_id; TripBooking.user := uid;
            TripBooking.seats_booked := seats;
            TripBooking.total_price := Trip.price trip * seats;
            TripBooking.status := TripBooking.CONFIRMED |}
  /\ status_of trip_id booked.2 = Some Trip.UPCOMING
  /\ succeeded cancelled.1 = true
  /\ seats_of trip_id cancelled.2 = seats_of trip_id db.
Proof.
  intros Htrip booked Hok booking_id cancelled.
  subst booked cancelled booking_id. revert Hok.
  unfold book, trip_book_view, login_required, passenger_required, post,
    get_object_or_404, BookingForm.clean, seats_of, status_of. simpl.
  rewrite Htrip.
  destruct (Trip.is_bookable now trip) eqn:Hbk; simpl; [|done].
  destruct (has_confirmed_booking trip_id uid (bookings db)); simpl; [done|].
  destruct (Z.leb_spec 1 seats); simpl; [|done].
  destruct (Z.ltb_spec (Trip.available_seats trip) seats); simpl; [done|].
  intros _.
  apply is_bookable_spec in Hbk as (Hst & _ & _).
  assert (Hlt : (trip_id < length (trips db))%nat)
    by (eapply lookup_lt_Some; eauto).
  unfold cancel, cancel_booking_view, login_required, passenger_required,
    post, get_object_or_404. simpl.
  rewrite list_lookup_middle by done. simpl.
  rewrite bool_decide_eq_true_2 by done. simpl.
  rewrite list_lookup_insert_eq by done. simpl. rewrite Hst. simpl.
  rewrite list_lookup_insert_eq by (by rewrite length_insert).
  simpl. repeat split. f_equal. lia.
Qed.

Lemma book_then_cancel_restores_seats_witness :
  let db := sample_db Trip.UPCOMING 3 [] in
  succeeded (cancel 0 1 (book 0 0 1 2 db).2).1 = true
  /\ seats_of 0 (cancel 0 1 (book 0 0 1 2 db).2).2 = seats_of 0 db.
Proof.
  pose proof (book_then_cancel_restores_seats 0 0 1 2
                (sample_db Trip.UPCOMING 3 []) (sample_trip Trip.UPCOMING 3)
                eq_refl eq_refl) as (_ & _ & Hok & Hseats).
  split; [exact Hok | exact Hseats].
Defined.

(** ** Trip lifecycle manager *)

(** C5.  A request to complete a trip goes through only when it comes from
    a driver whose profile is the driver assigned to the trip and the trip
    is Ongoing.  The trip then reads Completed and the other trips are as
    before; every booking of the trip that was Confirmed reads Completed,
    with its trip, user, seats and price as before, and every other booking
    is as it was; the stored driver reads Available with one more in
    [total_trips], and the other drivers are as before. *)
Theorem complete_trip_spec (request : Request) (trip_id : nat) (db : Db) :
  let r := driver_complete_trip_view request trip_id db in
  succeeded r.1 = true ->
  exists u driver_id driver trip,
    user request = Some u /\ User.user_type u = User.DRIVER
    /\ drivers db !! driver_id = Some driver
    /\ Driver.user driver = User.id u
    /\ trips db !! trip_id = Some trip
    /\ Trip.driver trip = Some driver_id
    /\ Trip.status trip = Trip.ONGOING
    /\ Trip.status <$> trips r.2 !! trip_id = Some Trip.COMPLETED
    /\ Trip.available_seats <$> trips r.2 !! trip_id
       = Some (Trip.available_seats trip)
    /\ (forall tid, tid <> trip_id -> trips r.2 !! tid = trips db !! tid)
    /\ length (bookings r.2) = length (bookings db)
    /\ (forall i b, bookings db !! i = Some b ->
          TripBooking.trip b = trip_id ->
          TripBooking.status b = TripBooking.CONFIRMED ->
          exists b', bookings r.2 !! i = Some b'
            /\ TripBooking.status b' = TripBooking.COMPLETED
            /\ TripBooking.trip b' = TripBooking.trip b
            /\ TripBooking.user b' = TripBooking.user b
            /\ TripBooking.seats_booked b' = TripBooking.seats_booked b
            /\ TripBooking.total_price b' = TripBooking.total_price b)
    /\ (forall i b, bookings db !! i = Some b ->
          ~ (TripBooking.trip b = trip_id
             /\ TripBooking.status b = TripBooking.CONFIRMED) ->
          bookings r.2 !! i = Some b)
    /\ Driver.status <$> drivers r.2 !! driver_id = Some Driver.AVAILABLE
    /\ Driver.total_trips <$> drivers r.2 !! driver_id
       = Some (Driver.total_trips driver + 1)
    /\ Driver.user <$> drivers r.2 !! driver_id = Some (Driver.user driver)
    /\ (forall i, i <> driver_id -> drivers r.2 !! i = drivers db !! i).
Proof.
  intros r. subst r. unfold_views. unfold User.is_driver.
  repeat (case_match; simplify_eq/=; try done).
  intros _.
  match goal with H : list_find _ _ = Some _ |- _ =>
    apply list_find_Some in H as (Hd & Hu & _) end.
  repeat case_bool_decide; simplify_eq/=.
  eexists _, _, _, _. repeat split; eauto;
    try (rewrite list_lookup_insert_eq by (eapply lookup_lt_Some; eauto); done).
  - intros tid Hne. by rewrite list_lookup_insert_ne.
  - unfold complete_bookings_of. by rewrite length_fmap.
  - intros i b Hb Ht Hs. rewrite complete_bookings_of_lookup, Hb. simpl.
    rewrite bool_decide_eq_true_2 by done. eexists. split; [done|].
    by destruct b.
  - intros i b Hb Hn. rewrite complete_bookings_of_lookup, Hb. simpl.
    by rewrite bool_decide_eq_false_2.
  - intros i Hne. by rewrite list_lookup_insert_ne.
Qed.

(** An Ongoing trip with a Confirmed and a Cancelled booking, completed by
    its driver (user 7): the first booking reads Completed, the second is
    still Cancelled. *)
Lemma complete_trip_spec_witness :
  let db :=
    sample_db Trip.ONGOING 1
      [sample_booking 1 2 TripBooking.CONFIRMED;
       sample_booking 2 1 TripBooking.CANCELLED] in
  let r := completeTrip 0 7 db in
  succeeded r.1 = true
  /\ Trip.status <$> trips r.2 !! 0%nat = Some Trip.COMPLETED
  /\ TripBooking.status <$> bookings r.2 !! 0%nat = Some TripBooking.COMPLETED
  /\ bookings r.2 !! 1%nat = Some (sample_booking 2 1 TripBooking.CANCELLED)
  /\ Driver.status <$> drivers r.2 !! 0%nat = Some Driver.AVAILABLE
  /\ Driver.total_trips <$> drivers r.2 !! 0%nat = Some 1.
Proof.
  cbv zeta. unfold completeTrip.
  destruct (complete_trip_spec (post (driver_user 7) no_data) 0
              (sample_db Trip.ONGOING 1
                 [sample_booking 1 2 TripBooking.CONFIRMED;
                  sample_booking 2 1 TripBooking.CANCELLED]) eq_refl)
    as (u & driver_id & driver & trip & _ & _ & Hd & Hu & Ht & Htd & _ & Hst
        & _ & _ & _ & Hdone & Hkept & Hds & Hdt & _).
  assert (driver_id = 0%nat) as ->.
  { vm_compute in Ht. injection Ht as <-. vm_compute in Htd. congruence. }
  split; [reflexivity|]. split; [exact Hst|].
  destruct (Hdone 0%nat _ eq_refl eq_refl eq_refl) as (b' & -> & Hb' & _).
  split; [by rewrite <- Hb'|].
  split; [apply Hkept; [reflexivity | intros [_ ?]; discriminate]|].
  split; [exact Hds|].
  rewrite Hdt. vm_compute in Hd. by simplify_eq.
Defined.

(** The assigned driver does complete an Ongoing trip. *)
Lemma complete_trip_succeeds (trip_id uid driver_id : nat) (db : Db)
    (driver : Driver.t) (trip : Trip.t) :
  driver_profile (driver_user uid) db = Some (driver_id, driver) ->
  trips db !! trip_id = Some trip ->
  Trip.driver trip = Some driver_id ->
  Trip.status trip = Trip.ONGOING ->
  succeeded (completeTrip trip_id uid db).1 = true.
Proof.
  intros Hp Ht Hd Hs. unfold completeTrip, driver_complete_trip_view,
    login_required, driver_required, get_object_or_404, post. simpl.
  rewrite Hp, Ht. simpl. rewrite (bool_decide_eq_true_2 _ Hd).
  rewrite bool_decide_eq_false_2 by (intros Hne; apply Hne, Hs). done.
Qed.

(** C6.  Cancelling a trip that is already Cancelled is rejected and
    changes nothing.  When the cancellation goes through, the trip was not
    Cancelled and reads Cancelled; its [cancelled_by] reads the
    administrator tag and its [cancellation_reason] the reason submitted,
    stripped, which is not empty; the other trips are as before; every
    booking of the trip, whatever its status was, reads Cancelled with its
    trip, user, seats and price as before, and the bookings of other trips
    are as they were. *)
Theorem cancel_trip_spec
    (request : Request) (trip_id : nat) (db : Db) (trip : Trip.t) :
  trips db !! trip_id = Some trip ->
  let r := trip_cancel_view request trip_id db in
  (Trip.status trip = Trip.CANCELLED -> rejected r.1 = true /\ r.2 = db)
  /\ (succeeded r.1 = true ->
      Trip.status trip <> Trip.CANCELLED
      /\ (exists reason,
            reason = strip (post_cancellation_reason (POST_ request))
            /\ reason <> EmptyString
            /\ has_null_character reason = false
            /\ Trip.cancellation_reason <$> trips r.2 !! trip_id
               = Some (Some reason))
      /\ Trip.cancelled_by <$> trips r.2 !! trip_id
         = Some (Some "Administrator")
      /\ Trip.status <$> trips r.2 !! trip_id = Some Trip.CANCELLED
      /\ (forall tid, tid <> trip_id -> trips r.2 !! tid = trips db !! tid)
      /\ length (bookings r.2) = length (bookings db)
      /\ (forall i b, bookings db !! i = Some b ->
            TripBooking.trip b = trip_id ->
            exists b', bookings r.2 !! i = Some b'
              /\ TripBooking.status b' = TripBooking.CANCELLED
              /\ TripBooking.trip b' = TripBooking.trip b
              /\ TripBooking.user b' = TripBooking.user b
              /\ TripBooking.seats_booked b' = TripBooking.seats_booked b
              /\ TripBooking.total_price b' = TripBooking.total_price b)
      /\ (forall i b, bookings db !! i = Some b ->
            TripBooking.trip b <> trip_id -> bookings r.2 !! i = Some b)).
Proof.
  intros Htrip r. subst r. unfold_views.
  unfold CancelTripForm.clean, CharField. rewrite Htrip.
  repeat (case_match; simplify_eq/=; try done);
    repeat case_bool_decide; simplify_eq/=; try done.
  split; [done|]. intros _.
  assert (Hlt : (trip_id < length (trips db))%nat)
    by (eapply lookup_lt_Some; eauto).
  rewrite list_lookup_insert_eq by done.
  repeat split; eauto.
  - intros tid Hne. by rewrite list_lookup_insert_ne.
  - unfold cancel_bookings_of. by rewrite length_fmap.
  - intros i b Hb Hi. rewrite cancel_bookings_of_lookup, Hb. simpl.
    rewrite bool_decide_eq_true_2 by done. eexists. split; [done|].
    by destruct b.
  - intros i b Hb Hi. rewrite cancel_bookings_of_lookup, Hb. simpl.
    by rewrite bool_decide_eq_false_2.
Qed.

(** An Upcoming trip with a Confirmed and a Cancelled booking, cancelled by
    an administrator who gives the reason between two spaces. *)
Lemma cancel_trip_spec_witness :
  let db :=
    sample_db Trip.UPCOMING 1
      [sample_booking 1 2 TripBooking.CONFIRMED;
       sample_booking 2 1 TripBooking.CANCELLED] in
  let r := cancelTrip 0 9 " storm " db in
  succeeded r.1 = true
  /\ Trip.status <$> trips r.2 !! 0%nat = Some Trip.CANCELLED
  /\ Trip.cancelled_by <$> trips r.2 !! 0%nat = Some (Some "Administrator")
  /\ Trip.cancellation_reason <$> trips r.2 !! 0%nat = Some (Some "storm")
  /\ TripBooking.status <$> bookings r.2 !! 0%nat = Some TripBooking.CANCELLED
  /\ TripBooking.status <$> bookings r.2 !! 1%nat = Some TripBooking.CANCELLED.
Proof.
  cbv zeta. unfold cancelTrip.
  pose proof (cancel_trip_spec
                (post (administrator 9)
                   {| post_seats := None;
                      post_cancellation_reason := " storm ";
                      post_driver_rating := None; post_vehicle_rating := None;
                      post_driver_comment := EmptyString |}) 0
                (sample_db Trip.UPCOMING 1
                   [sample_booking 1 2 TripBooking.CONFIRMED;
                    sample_booking 2 1 TripBooking.CANCELLED])
                (sample_trip Trip.UPCOMING 1) eq_refl) as (_ & Hok).
  split; [reflexivity|].
  destruct (Hok eq_refl)
    as (_ & (reason & -> & _ & _ & Hreason) & Hby & Hst & _ & _ & Hall & _).
  split; [exact Hst|]. split; [exact Hby|]. split; [exact Hreason|].
  destruct (Hall 0%nat _ eq_refl eq_refl) as (b0 & -> & Hb0 & _).
  destruct (Hall 1%nat _ eq_refl eq_refl) as (b1 & -> & Hb1 & _).
  split; [by rewrite <- Hb0 | by rewrite <- Hb1].
Defined.

(** C10.  Cancelling a trip leaves [available_seats] of every trip, the
    cancelled one included, as it was, also when the cancellation goes
    through and every booking of the trip ends up Cancelled: the seats
    those bookings held are not given back. *)
Theorem cancel_trip_keeps_seats (request : Request) (trip_id : nat) (db : Db) :
  let r := trip_cancel_view request trip_id db in
  (forall tid, seats_of tid r.2 = seats_of tid db)
  /\ (succeeded r.1 = true ->
      forall b, b ∈ bookings r.2 -> TripBooking.trip b = trip_id ->
                TripBooking.status b = TripBooking.CANCELLED).
Proof.
  intros r. subst r. unfold_views. unfold seats_of.
  repeat (case_match; simplify_eq/=; try done).
  split.
  - intros tid. destruct (decide (trip_id = tid)) as [->|Hne].
    + rewrite list_lookup_insert_eq by (eapply lookup_lt_Some; eauto).
      match goal with H : trips db !! tid = Some _ |- _ => rewrite H end. done.
    + by rewrite list_lookup_insert_ne.
  - intros _ b Hb Hi. unfold cancel_bookings_of in Hb.
    apply list_elem_of_fmap in Hb as (b0 & -> & _).
    revert Hi.
    destruct (bool_decide_reflect (TripBooking.trip b0 = trip_id)); simpl;
      [done | intros; contradiction].
Qed.

(** One seat left and a confirmed booking of two: the passenger's
    cancellation gives the two seats back, the administrator's cancellation
    of the trip does not. *)
Example cancel_trip_does_not_restore :
  let db :=
    sample_db Trip.UPCOMING 1 [sample_booking 1 2 TripBooking.CONFIRMED] in
  seats_of 0 (cancel 0 1 db).2 = Some 3
  /\ succeeded (cancelTrip 0 9 "storm" db).1 = true
  /\ seats_of 0 (cancelTrip 0 9 "storm" db).2 = Some 1
  /\ TripBooking.status <$> bookings (cancelTrip 0 9 "storm" db).2 !! 0%nat
     = Some TripBooking.CANCELLED.
Proof. vm_compute. repeat split. Qed.

(** *** The status of a trip along the three transitions *)

Lemma trip_cancel_view_status (request : Request) (tid trip_id : nat)
    (db : Db) :
  status_of trip_id (trip_cancel_view request tid db).2 = status_of trip_id db
  \/ (status_of trip_id db <> Some Trip.CANCELLED
      /\ status_of trip_id (trip_cancel_view request tid db).2
         = Some Trip.CANCELLED).
Proof.
  unfold_views. unfold status_of.
  repeat (case_match; simplify_eq/=; auto). decide_hyps.
  insert_cases tid trip_id. right.
  match goal with H : trips db !! _ = Some _ |- _ => rewrite H end.
  simpl. split; congruence.
Qed.

Lemma driver_start_trip_view_status (request : Request) (tid trip_id : nat)
    (db : Db) :
  status_of trip_id (driver_start_trip_view request tid db).2
    = status_of trip_id db
  \/ (status_of trip_id db = Some Trip.UPCOMING
      /\ status_of trip_id (driver_start_trip_view request tid db).2
         = Some Trip.ONGOING).
Proof.
  unfold_views. unfold status_of.
  repeat (case_match; simplify_eq/=; auto). decide_hyps.
  insert_cases tid trip_id. right.
  match goal with H : trips db !! _ = Some ?t |- _ =>
    rewrite H; simpl; destruct (decide (Trip.status t = Trip.UPCOMING)) end;
    [split; congruence | contradiction].
Qed.

Lemma driver_complete_trip_view_status (request : Request)
    (tid trip_id : nat) (db : Db) :
  status_of trip_id (driver_complete_trip_view request tid db).2
    = status_of trip_id db
  \/ (status_of trip_id db = Some Trip.ONGOING
      /\ status_of trip_id (driver_complete_trip_view request tid db).2
         = Some Trip.COMPLETED).
Proof.
  unfold_views. unfold status_of.
  repeat (case_match; simplify_eq/=; auto). decide_hyps.
  insert_cases tid trip_id. right.
  match goal with H : trips db !! _ = Some ?t |- _ =>
    rewrite H; simpl; destruct (decide (Trip.status t = Trip.ONGOING)) end;
    [split; congruence | contradiction].
Qed.

(** C7, as worded, fails: the guard of [trip_cancel_view] refuses a trip
    that is Cancelled and nothing else, so the administrator's cancellation
    takes a Completed trip to Cancelled. *)
Lemma completed_trip_is_cancelled_by_cancelTrip :
  status_of 0 completed_db = Some Trip.COMPLETED
  /\ status_of 0 (cancelTrip 0 9 "storm" completed_db).2 = Some Trip.CANCELLED
  /\ ~ terminal_for
         (CancelTripRequest
            (post (administrator 9)
               {| post_seats := None; post_cancellation_reason := "storm";
                  post_driver_rating := None; post_vehicle_rating := None;
                  post_driver_comment := EmptyString |}) 0)
         completed_db 0.
Proof.
  split; [reflexivity|]. split; [reflexivity|].
  intros Hterm. specialize (Hterm Trip.COMPLETED eq_refl (or_introl eq_refl)).
  vm_compute in Hterm. discriminate.
Qed.

(** C7, amended.  Cancelled is terminal: no request to cancel, start or
    complete a trip, by anyone and about any trip, changes the status of a
    Cancelled trip.  A Completed trip keeps its status under every request
    to start or complete a trip; a request to cancel a trip leaves it
    Completed or makes it Cancelled. *)
Theorem terminal_states (rq : LifecycleRequest) (db : Db) (trip_id : nat) :
  (status_of trip_id db = Some Trip.CANCELLED ->
   status_of trip_id (lifecycle rq db).2 = Some Trip.CANCELLED)
  /\ (status_of trip_id db = Some Trip.COMPLETED ->
      match rq with
      | CancelTripRequest _ _ =>
          status_of trip_id (lifecycle rq db).2 = Some Trip.COMPLETED
          \/ status_of trip_id (lifecycle rq db).2 = Some Trip.CANCELLED
      | _ => status_of trip_id (lifecycle rq db).2 = Some Trip.COMPLETED
      end).
Proof.
  split; intros Hst; destruct rq as [request tid|request tid|request tid]; simpl.
  - destruct (trip_cancel_view_status request tid trip_id db)
      as [->|[? ?]]; done.
  - destruct (driver_start_trip_view_status request tid trip_id db)
      as [->|[? ?]]; congruence.
  - destruct (driver_complete_trip_view_status request tid trip_id db)
      as [->|[? ?]]; congruence.
  - destruct (trip_cancel_view_status request tid trip_id db)
      as [->|[? ?]]; auto.
  - destruct (driver_start_trip_view_status request tid trip_id db)
      as [->|[? ?]]; congruence.
  - destruct (driver_complete_trip_view_status request tid trip_id db)
      as [->|[? ?]]; congruence.
Qed.

(** ** Inventory conservation *)

Lemma seats_in_app st trip_id (l1 l2 : list TripBooking.t) :
  seats_in st trip_id (l1 ++ l2)
  = seats_in st trip_id l1 + seats_in st trip_id l2.
Proof. induction l1 as [|b l1 IH]; simpl; [done|]. rewrite IH. lia. Qed.

Lemma seats_in_insert st trip_id (rows : list TripBooking.t) i b b' :
  rows !! i = Some b ->
  seats_in st trip_id (<[i := b']> rows)
  = seats_in st trip_id rows - held st trip_id b + held st trip_id b'.
Proof.
  revert i. induction rows as [|x rows IH]; intros [|i] Hi; simplify_eq/=.
  - lia.
  - rewrite (IH i) by done. lia.
Qed.

Lemma seats_in_nonneg st trip_id (rows : list TripBooking.t) :
  (forall b, b ∈ rows -> TripBooking.trip b = trip_id ->
             0 <= TripBooking.seats_booked b) ->
  0 <= seats_in st trip_id rows.
Proof.
  induction rows as [|b rows IH]; intros Hall; simpl; [done|].
  assert (0 <= held st trip_id b).
  { unfold held.
    destruct (bool_decide_reflect (TripBooking.trip b = trip_id)); simpl;
      [|done].
    case_bool_decide; [|done]. apply Hall; [left|done]. }
  assert (0 <= seats_in st trip_id rows).
  { apply IH. intros b' Hb'. apply Hall. by right. }
  lia.
Qed.

Lemma seats_in_none st trip_id (rows : list TripBooking.t) :
  (forall b, b ∈ rows -> TripBooking.trip b <> trip_id) ->
  seats_in st trip_id rows = 0.
Proof.
  induction rows as [|b rows IH]; intros Hall; simpl; [done|].
  rewrite IH by (intros b' Hb'; apply Hall; by right).
  unfold held. rewrite bool_decide_eq_false_2; [done|]. apply Hall. left.
Qed.

(** What a request to [trip_book_view] does to the database: nothing, or
    one booking more and as many seats less. *)
Lemma trip_book_view_effect now request tid db :
  (trip_book_view now request tid db).2 = db
  \/ exists u trip seats,
       trips db !! tid = Some trip
       /\ 1 <= seats <= Trip.available_seats trip
       /\ (trip_book_view now request tid db).2 =
          set_trips
            (<[tid := Trip.set_available_seats
                        (Trip.available_seats trip - seats) trip]> (trips db))
            (set_bookings
               (bookings db ++
                  [ {| TripBooking.trip := tid; TripBooking.user := u;
                       TripBooking.seats_booked := seats;
                       TripBooking.total_price := Trip.price trip * seats;
                       TripBooking.status := TripBooking.CONFIRMED |} ]) db).
Proof.
  unfold_views. unfold BookingForm.clean.
  repeat (case_match; simplify_eq/=; auto). decide_hyps. right.
  eexists _, _, _. split; [done|]. split; [|done]. lia.
Qed.

(** What a request to [cancel_booking_view] does: nothing, or a Confirmed
    booking turned Cancelled and its seats back on its trip. *)
Lemma cancel_booking_view_effect request booking_id db :
  (cancel_booking_view request booking_id db).2 = db
  \/ exists booking trip,
       bookings db !! booking_id = Some booking
       /\ TripBooking.status booking = TripBooking.CONFIRMED
       /\ trips db !! TripBooking.trip booking = Some trip
       /\ (cancel_booking_view request booking_id db).2 =
          set_trips
            (<[TripBooking.trip booking :=
                 Trip.set_available_seats
                   (Trip.available_seats trip
                    + TripBooking.seats_booked booking) trip]> (trips db))
            (set_bookings
               (<[booking_id :=
                    TripBooking.set_status TripBooking.CANCELLED booking]>
                  (bookings db)) db).
Proof.
  unfold_views.
  repeat (case_match; simplify_eq/=; auto). decide_hyps. right.
  eexists _, _. repeat split; eauto.
  match goal with H : ¬ _ ≠ _ |- _ => by apply dec_stable in H end.
Qed.

Section Inventory.
Variable trip_id : nat.
Variable created : Z.

Lemma conserved_book now request tid db :
  conserved trip_id created db ->
  conserved trip_id created (trip_book_view now request tid db).2.
Proof.
  intros (seats & Hseats & Hpos & Hsum & Hall).
  destruct (trip_book_view_effect now request tid db)
    as [->|(u & trip & n & Htrip & Hn & ->)].
  { by exists seats. }
  unfold conserved, seats_of in *. simpl.
  rewrite seats_in_app. simpl. unfold held. simpl.
  destruct (decide (tid = trip_id)) as [->|Hne].
  - rewrite list_lookup_insert_eq by (eapply lookup_lt_Some; eauto).
    rewrite Htrip in Hseats. simplify_eq/=.
    rewrite bool_decide_eq_true_2 by done. simpl.
    eexists. split; [done|]. split; [lia|]. split; [lia|].
    apply Forall_app. split; [done|]. apply Forall_singleton. simpl. lia.
  - rewrite list_lookup_insert_ne by done.
    rewrite bool_decide_eq_false_2 by done. simpl.
    exists seats. split; [done|]. split; [lia|]. split; [lia|].
    apply Forall_app. split; [done|]. apply Forall_singleton. simpl. done.
Qed.

Lemma conserved_cancel request booking_id db :
  conserved trip_id created db ->
  conserved trip_id created (cancel_booking_view request booking_id db).2.
Proof.
  intros (seats & Hseats & Hpos & Hsum & Hall).
  destruct (cancel_booking_view_effect request booking_id db)
    as [->|(booking & trip & Hb & Hst & Htrip & ->)].
  { by exists seats. }
  unfold conserved, seats_of in *. simpl.
  rewrite (seats_in_insert _ _ _ _ _ _ Hb). unfold held. simpl. rewrite Hst.
  assert (Hbk : TripBooking.trip booking = trip_id ->
                1 <= TripBooking.seats_booked booking).
  { eapply (proj1 (Forall_lookup _ _) Hall); eauto. }
  destruct (decide (TripBooking.trip booking = trip_id)) as [Heq|Hne].
  - rewrite Heq in *.
    rewrite list_lookup_insert_eq by (eapply lookup_lt_Some; eauto).
    rewrite Htrip in Hseats. simplify_eq/=.
    rewrite !bool_decide_eq_true_2 by done. simpl.
    specialize (Hbk eq_refl).
    eexists. split; [done|]. split; [lia|]. split; [lia|].
    apply Forall_insert; [done|]. simpl. intros _. done.
  - rewrite list_lookup_insert_ne by done.
    rewrite !(bool_decide_eq_false_2 (TripBooking.trip booking = trip_id))
      by done.
    simpl. exists seats. split; [done|]. split; [lia|]. split; [lia|].
    apply Forall_insert; [done|]. simpl. done.
Qed.

Lemma conserved_run rqs db :
  conserved trip_id created db -> conserved trip_id created (run rqs db).
Proof.
  revert db. induction rqs as [|rq rqs IH]; intros db Hdb; simpl; [done|].
  apply IH. destruct rq; simpl;
    [by apply conserved_book | by apply conserved_cancel].
Qed.

End Inventory.

(** C9.  Take a trip as created: [available_seats] is not negative and no
    booking refers to the trip yet.  After any sequence of requests to book
    and to cancel bookings, by any users and about any trips and bookings,
    [available_seats] of the trip is not negative and does not exceed its
    value at creation plus the seats of the Cancelled bookings of the trip
    minus the seats of its Confirmed bookings; it is exactly the value at
    creation minus the seats of the Confirmed bookings. *)
Theorem inventory_conservation
    (rqs : list BookingRequest) (db : Db) (trip_id : nat) (trip : Trip.t) :
  trips db !! trip_id = Some trip ->
  0 <= Trip.available_seats trip ->
  (forall b, b ∈ bookings db -> TripBooking.trip b <> trip_id) ->
  exists seats,
    seats_of trip_id (run rqs db) = Some seats
    /\ 0 <= seats
    /\ seats <= Trip.available_seats trip
                + seats_in TripBooking.CANCELLED trip_id (bookings (run rqs db))
                - seats_in TripBooking.CONFIRMED trip_id (bookings (run rqs db))
    /\ seats = Trip.available_seats trip
               - seats_in TripBooking.CONFIRMED trip_id (bookings (run rqs db)).
Proof.
  intros Htrip Hpos Hfresh.
  assert (Hinit : conserved trip_id (Trip.available_seats trip) db).
  { exists (Trip.available_seats trip). unfold seats_of. rewrite Htrip.
    split; [done|]. split; [done|].
    rewrite seats_in_none by done. split; [lia|].
    apply Forall_forall. intros b Hb Heq. by apply Hfresh in Hb. }
  destruct (conserved_run trip_id _ rqs db Hinit)
    as (seats & Hs & Hge & Hsum & Hall).
  exists seats. split; [done|]. split; [done|].
  assert (0 <= seats_in TripBooking.CANCELLED trip_id (bookings (run rqs db))).
  { apply seats_in_nonneg. intros b Hb Heq.
    rewrite Forall_forall in Hall. specialize (Hall b Hb Heq). lia. }
  lia.
Qed.

Lemma inventory_conservation_witness :
  let db := sample_db Trip.UPCOMING 3 [] in
  let rqs :=
    [ BookRequest 0 (post (passenger 1)
        {| post_seats := Some 2; post_cancellation_reason := EmptyString;
           post_driver_rating := None; post_vehicle_rating := None;
           post_driver_comment := EmptyString |}) 0;
      BookRequest 0 (post (passenger 2)
        {| post_seats := Some 2; post_cancellation_reason := EmptyString;
           post_driver_rating := None; post_vehicle_rating := None;
           post_driver_comment := EmptyString |}) 0;
      CancelRequest (post (passenger 1) no_data) 0;
      BookRequest 0 (post (passenger 2)
        {| post_seats := Some 1; post_cancellation_reason := EmptyString;
           post_driver_rating := None; post_vehicle_rating := None;
           post_driver_comment := EmptyString |}) 0 ] in
  exists seats,
    seats_of 0 (run rqs db) = Some seats
    /\ 0 <= seats
    /\ seats <= 3 + seats_in TripBooking.CANCELLED 0 (bookings (run rqs db))
                - seats_in TripBooking.CONFIRMED 0 (bookings (run rqs db))
    /\ seats = 3 - seats_in TripBooking.CONFIRMED 0 (bookings (run rqs db)).
Proof.
  apply (inventory_conservation _ (sample_db Trip.UPCOMING 3 []) 0
           (sample_trip Trip.UPCOMING 3)).
  - reflexivity.
  - simpl. lia.
  - intros b Hb. inversion Hb.
Defined.

(** ** Rating aggregator *)

(** *** Rounding *)

Lemma round_half_even_spec (n d : Z) :
  0 < d -> - d <= 2 * (d * round_half_even n d - n) <= d.
Proof.
  intros Hd. unfold round_half_even.
  pose proof (Z.div_mod n d ltac:(lia)) as Hdm.
  pose proof (Z.mod_pos_bound n d ltac:(lia)) as Hr.
  set (fl := n / d) in *. set (r := n mod d) in *.
  destruct (Z.ltb_spec (2 * r) d); [lia|].
  destruct (Z.ltb_spec d (2 * r)); [lia|].
  destruct (Z.even fl); lia.
Qed.

(** The double of a number from 1 up to 8: a numerator [m] over a power of
    two [P], with [m / P] a nearest such fraction. *)
Lemma float64_spec (n : Z) (d : positive) :
  Zpos d <= n < 8 * Zpos d ->
  exists P m,
    float64 (n # d) = (m # Z.to_pos P)%Q
    /\ 2 ^ 50 <= P <= 2 ^ 52
    /\ - Zpos d <= 2 * (Zpos d * m - n * P) <= Zpos d.
Proof.
  intros Hq. unfold float64. cbn [Qnum Qden].
  assert (Hfl : 1 <= n / Zpos d < 8).
  { split; [apply Z.div_le_lower_bound; lia|apply Z.div_lt_upper_bound; lia]. }
  assert (Hcases : n / Zpos d = 1 \/ n / Zpos d = 2 \/ n / Zpos d = 3
                   \/ n / Zpos d = 4 \/ n / Zpos d = 5 \/ n / Zpos d = 6
                   \/ n / Zpos d = 7) by lia.
  destruct Hcases as [->|[->|[->|[->|[->|[->| ->]]]]]];
    match goal with |- context [Z.log2 ?x] =>
      let v := eval vm_compute in (Z.log2 x) in change (Z.log2 x) with v end;
    match goal with |- context [52 - ?e] =>
      let v := eval vm_compute in (52 - e) in change (52 - e) with v end;
    eexists _, _; (split; [reflexivity|]);
    (split; [vm_compute; split; discriminate|]);
    apply round_half_even_spec; lia.
Qed.

Lemma quantize_spec (n : Z) (d : positive) :
  Zpos d <= n < 8 * Zpos d ->
  exists P m,
    float64 (n # d) = (m # Z.to_pos P)%Q
    /\ 2 ^ 50 <= P <= 2 ^ 52
    /\ - Zpos d <= 2 * (Zpos d * m - n * P) <= Zpos d
    /\ - P <= 2 * (P * quantize (n # d) - 100 * m) <= P.
Proof.
  intros Hq. destruct (float64_spec n d Hq) as (P & m & Hf & HP & Hm).
  exists P, m. repeat split; try tauto.
  all: unfold quantize; rewrite Hf; cbn [Qnum Qden];
    rewrite Z2Pos.id by lia; apply round_half_even_spec; lia.
Qed.

(** The double lies within [2^-51] of the number. *)
Lemma float64_near (n : Z) (d : positive) :
  Zpos d <= n < 8 * Zpos d ->
  (Qabs (float64 (n # d) - (n # d)) <= 1 # 2 ^ 51)%Q.
Proof.
  intros Hq.
  destruct (float64_spec n d Hq) as (P & m & -> & HP & Hm).
  unfold Qle, Qminus, Qplus, Qopp, Qabs. cbn [Qnum Qden].
  rewrite Pos2Z.inj_mul, Z2Pos.id by lia.
  change (Z.pos (2 ^ 51)) with (2 ^ 51) in *.
  change (2 ^ 50) with 1125899906842624 in *.
  change (2 ^ 51) with 2251799813685248 in *.
  change (2 ^ 52) with 4503599627370496 in *.
  nia.
Qed.

(** [quantize] yields a number of hundredths nearest to the double. *)
Lemma quantize_near (n : Z) (d : positive) :
  Zpos d <= n < 8 * Zpos d ->
  (Qabs (hundredths (quantize (n # d)) - float64 (n # d)) <= 1 # 200)%Q.
Proof.
  intros Hq.
  destruct (quantize_spec n d Hq) as (P & m & -> & HP & Hm & Ha).
  unfold hundredths, Qle, Qminus, Qplus, Qopp, Qabs. cbn [Qnum Qden].
  rewrite Pos2Z.inj_mul, Z2Pos.id by lia.
  change (2 ^ 50) with 1125899906842624 in *.
  change (2 ^ 52) with 4503599627370496 in *.
  nia.
Qed.

(** A number of hundredths is stored as it is. *)
Lemma quantize_exact (n : Z) (d : positive) (a : Z) :
  Zpos d <= n < 8 * Zpos d ->
  ((n # d) == hundredths a)%Q -> quantize (n # d) = a.
Proof.
  unfold Qeq, hundredths. cbn [Qnum Qden]. intros Hq Heq.
  destruct (quantize_spec n d Hq) as (P & m & _ & HP & Hm & Ha).
  change (2 ^ 50) with 1125899906842624 in *.
  change (2 ^ 52) with 4503599627370496 in *.
  assert (Hd : 0 < Zpos d) by lia.
  assert (Hm' : - 50 <= 100 * m - a * P <= 50) by nia.
  nia.
Qed.

Lemma quantize_range (n : Z) (d : positive) :
  Zpos d <= n <= 5 * Zpos d -> 100 <= quantize (n # d) <= 500.
Proof.
  intros Hq.
  destruct (quantize_spec n d ltac:(lia)) as (P & m & _ & HP & Hm & Ha).
  change (2 ^ 50) with 1125899906842624 in *.
  change (2 ^ 52) with 4503599627370496 in *.
  assert (Hd : 0 < Zpos d) by lia.
  assert (P <= m <= 5 * P) by nia.
  nia.
Qed.

(** *** The mean of stars *)

Lemma stars_sum_bounds (xs : list Stars) :
  Z.of_nat (length xs) <= foldr Z.add 0 (stars_value <$> xs)
  <= 5 * Z.of_nat (length xs).
Proof.
  induction xs as [|x xs IH]; csimpl; [lia|].
  destruct x; simpl; lia.
Qed.

(** An aggregate that is not null is a fraction between 1 and 5. *)
Lemma Avg_bounds (column : list (option Stars)) (mean : Q) :
  Avg column = Some mean ->
  exists n d, mean = (n # d)%Q /\ Zpos d <= n <= 5 * Zpos d.
Proof.
  unfold Avg. destruct (omap id column) as [|x xs] eqn:Hcol; [done|].
  pose proof (stars_sum_bounds (x :: xs)) as Hsum.
  intros Hmean. assert (mean = arithmetic_mean (stars_value <$> x :: xs))
    as -> by (by simplify_eq/=).
  unfold arithmetic_mean. eexists _, _. split; [reflexivity|].
  rewrite length_fmap.
  assert (Hd : Z.pos (Pos.of_nat (length (x :: xs)))
               = Z.of_nat (length (x :: xs))).
  { simpl length. rewrite <- Pos.of_nat_succ. lia. }
  rewrite Hd. exact Hsum.
Qed.

(** What the column holds once the aggregate [mean] is saved. *)
Lemma Avg_stored (column : list (option Stars)) (mean : Q) :
  Avg column = Some mean ->
  (Qabs (float64 mean - mean) <= 1 # 2 ^ 51)%Q
  /\ (Qabs (hundredths (quantize mean) - float64 mean) <= 1 # 200)%Q
  /\ (forall a', (mean == hundredths a')%Q -> quantize mean = a').
Proof.
  intros Hm. destruct (Avg_bounds _ _ Hm) as (n & d & -> & Hq).
  split; [apply float64_near; lia|]. split; [apply quantize_near; lia|].
  intros a'. apply quantize_exact. lia.
Qed.

Lemma sum_stars_pos (xs : list Stars) :
  xs <> [] -> 0 < foldr Z.add 0 (stars_value <$> xs).
Proof.
  assert (Hge : forall ys : list Stars,
             0 <= foldr Z.add 0 (stars_value <$> ys)).
  { induction ys as [|y ys IH]; csimpl; [done|]. destruct y; simpl; lia. }
  destruct xs as [|x xs]; [done|]. intros _. csimpl.
  specialize (Hge xs). destruct x; simpl; lia.
Qed.

Lemma Avg_Some (column : list (option Stars)) :
  omap id column <> [] ->
  Avg column = Some (arithmetic_mean (stars_value <$> omap id column)).
Proof. unfold Avg. by destruct (omap id column). Qed.

(** With one rating given, the aggregate is neither null nor zero. *)
Lemma Avg_snoc (column : list (option Stars)) (s : Stars) :
  exists mean,
    Avg (column ++ [Some s]) = Some mean /\ truthy (Some mean) = true.
Proof.
  assert (Hne : omap id (column ++ [Some s]) <> []).
  { rewrite omap_app. simpl. by destruct (omap id column). }
  pose proof (sum_stars_pos _ Hne) as Hpos.
  rewrite Avg_Some by done. eexists. split; [done|].
  unfold truthy, Qeq_bool, arithmetic_mean. cbn [Qnum Qden].
  apply negb_true_iff, not_true_iff_false. rewrite Z.eqb_eq. lia.
Qed.

Lemma driver_avg_snoc (driver_id : nat) (rows : list Rating.t)
    (x : Rating.t) (s : Stars) :
  Rating.driver x = Some driver_id -> Rating.driver_rating x = Some s ->
  exists mean, driver_avg driver_id (rows ++ [x]) = Some mean
               /\ truthy (Some mean) = true.
Proof.
  intros Hd Hs. unfold driver_avg.
  rewrite filter_app, filter_cons_True, filter_nil by done.
  rewrite fmap_app. simpl. rewrite Hs. apply Avg_snoc.
Qed.

Lemma vehicle_avg_snoc (vehicle_id : nat) (rows : list Rating.t)
    (x : Rating.t) (s : Stars) :
  Rating.vehicle x = Some vehicle_id -> Rating.vehicle_rating x = Some s ->
  exists mean, vehicle_avg vehicle_id (rows ++ [x]) = Some mean
               /\ truthy (Some mean) = true.
Proof.
  intros Hd Hs. unfold vehicle_avg.
  rewrite filter_app, filter_cons_True, filter_nil by done.
  rewrite fmap_app. simpl. rewrite Hs. apply Avg_snoc.
Qed.

Lemma update_driver_average_null (driver_id : nat) (d : Driver.t) (db : Db) :
  driver_avg driver_id (ratings db) = None ->
  update_driver_average (Row driver_id d) db = db.
Proof. intros Hnull. unfold update_driver_average. by rewrite Hnull. Qed.

Lemma update_vehicle_average_null (vehicle_id : nat) (v : Vehicle.t)
    (db : Db) :
  vehicle_avg vehicle_id (ratings db) = None ->
  update_vehicle_average (Row vehicle_id v) db = db.
Proof. intros Hnull. unfold update_vehicle_average. by rewrite Hnull. Qed.

(** C8, as worded, fails: [average_rating] has two decimal places, so after
    ratings of 4, 5 and 5 stars it holds 4.67 and not their mean 14/3. *)
Lemma rate_4_5_5_is_not_the_mean :
  succeeded (rate 2 3 Star5 Star5 "ok" after_4_5).1 = true
  /\ driver_avg 0 (ratings after_4_5_5) = Some (14 # 3)%Q
  /\ Driver.average_rating <$> drivers after_4_5_5 !! 0%nat = Some 467
  /\ ~ average_is_mean 0 after_4_5_5.
Proof.
  split; [reflexivity|]. split; [reflexivity|]. split; [reflexivity|].
  intros (d & mean & Hd & Hmean & Heq).
  vm_compute in Hd. vm_compute in Hmean. simplify_eq.
  vm_compute in Heq. discriminate.
Qed.

(** C8, amended.  Rating a trip, by the passenger the booking belongs to,
    is rejected, and changes nothing, if the trip is not Completed or the
    passenger already rated it.  When it goes through, the comment,
    stripped, holds no null character, and the rating is appended with the
    driver and the vehicle of the trip, the stars given and that comment.
    The stored [average_rating] of the driver of the trip then reads [a],
    where [a] hundredths is a number of hundredths nearest to the double
    of the arithmetic mean of [driver_rating] over all the ratings that
    reference the driver, the double lying within [2^-51] of the mean; [a]
    is the mean itself when the mean is a number of hundredths.  Nothing
    else of the drivers changes, and a trip without driver changes no
    driver.  The same holds for the vehicle.  An aggregate that is null
    leaves the average as it was.  Ratings of 4 and 5 stars for one driver
    and vehicle give 4.00 and then 4.50. *)
Theorem rate_spec
    (booking_id uid : nat) (driver_rating vehicle_rating : Stars)
    (comment : string) (db : Db) (booking : TripBooking.t) (trip : Trip.t) :
  bookings db !! booking_id = Some booking ->
  TripBooking.user booking = uid ->
  trips db !! TripBooking.trip booking = Some trip ->
  let r := rate booking_id uid driver_rating vehicle_rating comment db in
  (Trip.status trip <> Trip.COMPLETED
   \/ (exists x, x ∈ ratings db /\ Rating.trip x = TripBooking.trip booking
                 /\ Rating.user x = uid) ->
   rejected r.1 = true /\ r.2 = db)
  /\ (succeeded r.1 = true ->
      has_null_character (strip comment) = false
      /\ ratings r.2 =
        ratings db ++
          [ {| Rating.trip := TripBooking.trip booking; Rating.user := uid;
               Rating.driver := Trip.driver trip;
               Rating.vehicle := Trip.vehicle trip;
               Rating.driver_rating := Some driver_rating;
               Rating.vehicle_rating := Some vehicle_rating;
               Rating.driver_comment := strip comment |} ]
      /\ (forall driver_id, Trip.driver trip = Some driver_id ->
          exists d mean a,
            drivers db !! driver_id = Some d
            /\ driver_avg driver_id (ratings r.2) = Some mean
            /\ Driver.average_rating <$> drivers r.2 !! driver_id = Some a
            /\ (Qabs (float64 mean - mean) <= 1 # 2 ^ 51)%Q
            /\ (Qabs (hundredths a - float64 mean) <= 1 # 200)%Q
            /\ (forall a', (mean == hundredths a')%Q -> a = a')
            /\ drivers r.2 =
               <[driver_id := Driver.set_average_rating a d]> (drivers db)
            /\ Driver.status <$> drivers r.2 !! driver_id
               = Some (Driver.status d)
            /\ Driver.total_trips <$> drivers r.2 !! driver_id
               = Some (Driver.total_trips d))
      /\ (Trip.driver trip = None -> drivers r.2 = drivers db)
      /\ (forall vehicle_id, Trip.vehicle trip = Some vehicle_id ->
          exists v mean a,
            vehicles db !! vehicle_id = Some v
            /\ vehicle_avg vehicle_id (ratings r.2) = Some mean
            /\ Vehicle.average_rating <$> vehicles r.2 !! vehicle_id = Some a
            /\ (Qabs (float64 mean - mean) <= 1 # 2 ^ 51)%Q
            /\ (Qabs (hundredths a - float64 mean) <= 1 # 200)%Q
            /\ (forall a', (mean == hundredths a')%Q -> a = a')
            /\ vehicles r.2 =
               <[vehicle_id := Vehicle.set_average_rating a v]> (vehicles db))
      /\ (Trip.vehicle trip = None -> vehicles r.2 = vehicles db))
  /\ (forall driver_id d db', driver_avg driver_id (ratings db') = None ->
        update_driver_average (Row driver_id d) db' = db')
  /\ (forall vehicle_id v db', vehicle_avg vehicle_id (ratings db') = None ->
        update_vehicle_average (Row vehicle_id v) db' = db')
  /\ (succeeded (rate 0 1 Star4 Star4 "ok" rating_db).1 = true
      /\ Driver.average_rating <$> drivers after_4 !! 0%nat = Some 400
      /\ Vehicle.average_rating <$> vehicles after_4 !! 0%nat = Some 400
      /\ succeeded (rate 1 2 Star5 Star5 "ok" after_4).1 = true
      /\ Driver.average_rating <$> drivers after_4_5 !! 0%nat = Some 450
      /\ Vehicle.average_rating <$> vehicles after_4_5 !! 0%nat = Some 450).
Proof.
  intros Hb Hu Ht r. subst r.
  split; [|split; [|split; [|split]]];
    [| | apply update_driver_average_null | apply update_vehicle_average_null
     | vm_compute; repeat split].
  - rewrite <- has_rating_spec.
    unfold_views. simpl. rewrite Hb, Hu, bool_decide_eq_true_2 by done.
    rewrite Ht. intros [Hst|Hex].
    + by rewrite bool_decide_eq_true_2.
    + case_bool_decide; [done|]. by rewrite Hex.
  - unfold_views. unfold RatingForm.clean, CharField.
    cbn [POST_ post_driver_rating post_vehicle_rating post_driver_comment
         method user andb User.is_passenger User.user_type passenger User.id].
    rewrite Hb, Hu, bool_decide_eq_true_2 by done. rewrite Ht.
    generalize (strip comment). intros c. simpl.
    case_bool_decide; [done|].
    destruct (has_rating _ _ _); [done|].
    destruct (has_null_character c) eqn:Hnull; [done|].
    unfold related.
    destruct (Trip.driver trip) as [driver_id|] eqn:Hdrv;
      [destruct (drivers db !! driver_id) as [d|] eqn:Hd; [|done]|];
      (destruct (Trip.vehicle trip) as [vehicle_id|] eqn:Hveh;
        [destruct (vehicles db !! vehicle_id) as [v|] eqn:Hv; [|done]|]);
      intros _; simpl;
      repeat match goal with
      | |- context [driver_avg ?i (?rows ++ [?x])] =>
          let Hm := fresh "Hm" in let Htr := fresh "Htr" in
          let Hst := fresh "Hst" in
          destruct (driver_avg_snoc i rows x driver_rating eq_refl eq_refl)
            as (? & Hm & Htr);
          destruct (Avg_stored _ _ Hm) as (? & ? & ?);
          rewrite Hm in *; rewrite Htr in *; simpl
      | |- context [vehicle_avg ?i (?rows ++ [?x])] =>
          let Hm := fresh "Hm" in let Htr := fresh "Htr" in
          destruct (vehicle_avg_snoc i rows x vehicle_rating eq_refl eq_refl)
            as (? & Hm & Htr);
          destruct (Avg_stored _ _ Hm) as (? & ? & ?);
          rewrite Hm in *; rewrite Htr in *; simpl
      end;
      repeat split; try done;
      intros ? ?; simplify_eq;
      eexists _, _, _; repeat split; eauto;
      rewrite list_lookup_insert_eq by (eapply lookup_lt_Some; eauto); done.
Qed.

(** The third rating of the driver: the mean is 14/3. *)
Lemma rate_spec_witness :
  let r := rate 2 3 Star5 Star5 "ok" after_4_5 in
  succeeded r.1 = true
  /\ exists d mean a,
       drivers after_4_5 !! 0%nat = Some d
       /\ driver_avg 0 (ratings r.2) = Some mean
       /\ Driver.average_rating <$> drivers r.2 !! 0%nat = Some a
       /\ (Qabs (float64 mean - mean) <= 1 # 2 ^ 51)%Q
       /\ (Qabs (hundredths a - float64 mean) <= 1 # 200)%Q
       /\ (forall a', (mean == hundredths a')%Q -> a = a')
       /\ drivers r.2 = <[0%nat := Driver.set_average_rating a d]>
                          (drivers after_4_5)
       /\ Driver.status <$> drivers r.2 !! 0%nat = Some (Driver.status d)
       /\ Driver.total_trips <$> drivers r.2 !! 0%nat
          = Some (Driver.total_trips d).
Proof.
  pose proof (rate_spec 2 3 Star5 Star5 "ok" after_4_5
                (sample_booking 3 1 TripBooking.COMPLETED)
                (sample_trip Trip.COMPLETED 0)
                eq_refl eq_refl eq_refl) as (_ & Hok & _).
  split; [reflexivity|].
  destruct (Hok eq_refl) as (_ & _ & Hdriver & _).
  exact (Hdriver 0%nat eq_refl).
Defined.

(** * Further properties of the handlers *)

(** ** Every request is one transition *)

Lemma trip_book_view_step now request trip_id db :
  store_step db (trip_book_view now request trip_id db).2.
Proof.
  unfold_views. unfold BookingForm.clean.
  repeat (case_match; simplify_eq/=; try (by apply step_none)).
  decide_hyps.
  eapply step_book; eauto; lia.
Qed.

Lemma cancel_booking_view_step request booking_id db :
  store_step db (cancel_booking_view request booking_id db).2.
Proof.
  unfold_views.
  repeat (case_match; simplify_eq/=; try (by apply step_none)).
  decide_hyps.
  eapply step_cancel; eauto.
  - match goal with H : ¬ TripBooking.status _ ≠ _ |- _ =>
      by apply dec_stable in H end.
  - match goal with H : ¬ Trip.status _ ≠ _ |- _ =>
      by apply dec_stable in H end.
Qed.

Lemma trip_cancel_view_step request trip_id db :
  store_step db (trip_cancel_view request trip_id db).2.
Proof.
  unfold_views.
  repeat (case_match; simplify_eq/=; try (by apply step_none)).
  decide_hyps.
  eapply step_cancel_trip; eauto.
Qed.

Lemma driver_start_trip_view_step request trip_id db :
  store_step db (driver_start_trip_view request trip_id db).2.
Proof.
  unfold_views.
  repeat (case_match; simplify_eq/=; try (by apply step_none)).
  decide_hyps.
  eapply step_start; eauto.
  match goal with H : ¬ Trip.status _ ≠ _ |- _ =>
    by apply dec_stable in H end.
Qed.

Lemma driver_complete_trip_view_step request trip_id db :
  store_step db (driver_complete_trip_view request trip_id db).2.
Proof.
  unfold_views.
  repeat (case_match; simplify_eq/=; try (by apply step_none)).
  decide_hyps.
  eapply step_complete; eauto.
  match goal with H : ¬ Trip.status _ ≠ _ |- _ =>
    by apply dec_stable in H end.
Qed.

Lemma update_driver_average_store driver db :
  trips (update_driver_average driver db) = trips db
  /\ bookings (update_driver_average driver db) = bookings db
  /\ ratings (update_driver_average driver db) = ratings db
  /\ vehicles (update_driver_average driver db) = vehicles db
  /\ admin_logs (update_driver_average driver db) = admin_logs db.
Proof. unfold update_driver_average. by repeat case_match. Qed.

Lemma update_vehicle_average_store vehicle db :
  trips (update_vehicle_average vehicle db) = trips db
  /\ bookings (update_vehicle_average vehicle db) = bookings db
  /\ ratings (update_vehicle_average vehicle db) = ratings db
  /\ drivers (update_vehicle_average vehicle db) = drivers db
  /\ admin_logs (update_vehicle_average vehicle db) = admin_logs db.
Proof. unfold update_vehicle_average. by repeat case_match. Qed.

Lemma rate_trip_view_store request booking_id db :
  trips (rate_trip_view request booking_id db).2 = trips db
  /\ bookings (rate_trip_view request booking_id db).2 = bookings db
  /\ admin_logs (rate_trip_view request booking_id db).2 = admin_logs db.
Proof.
  unfold_views. unfold RatingForm.clean.
  repeat (case_match; simplify_eq/=; try done);
    repeat match goal with
    | |- context [update_vehicle_average ?v ?d] =>
        destruct (update_vehicle_average_store v d) as (-> & -> & _ & _ & ->)
    | |- context [update_driver_average ?v ?d] =>
        destruct (update_driver_average_store v d) as (-> & -> & _ & _ & ->)
    end; done.
Qed.

Lemma serve_step rq db : store_step db (serve rq db).2.
Proof.
  destruct rq as [[now request trip_id|request booking_id]
                 |[request trip_id|request trip_id|request trip_id]
                 |request booking_id]; simpl.
  - apply trip_book_view_step.
  - apply cancel_booking_view_step.
  - apply trip_cancel_view_step.
  - apply driver_start_trip_view_step.
  - apply driver_complete_trip_view_step.
  - destruct (rate_trip_view_store request booking_id db) as (? & ? & _).
    by apply step_none.
Qed.

(** ** Guards: role, method, ownership *)

(** X1.  A request that is not answered with the success message of its
    handler leaves the whole database as it was. *)
Theorem rejected_changes_nothing (rq : AnyRequest) (db : Db) :
  succeeded (serve rq db).1 = false -> (serve rq db).2 = db.
Proof.
  destruct rq as [[now request trip_id|request booking_id]
                 |[request trip_id|request trip_id|request trip_id]
                 |request booking_id]; simpl;
    unfold_views; unfold BookingForm.clean, CancelTripForm.clean,
      RatingForm.clean;
    repeat (case_match; simplify_eq/=; try done).
Qed.

Lemma rejected_changes_nothing_witness :
  let db := sample_db Trip.UPCOMING 1 [] in
  (serve (BookingManager
            (BookRequest 0
               (post (passenger 1)
                  {| post_seats := Some 2;
                     post_cancellation_reason := EmptyString;
                     post_driver_rating := None; post_vehicle_rating := None;
                     post_driver_comment := EmptyString |}) 0)) db).2 = db.
Proof.
  apply (rejected_changes_nothing
           (BookingManager
              (BookRequest 0
                 (post (passenger 1)
                    {| post_seats := Some 2;
                       post_cancellation_reason := EmptyString;
                       post_driver_rating := None;
                       post_vehicle_rating := None;
                       post_driver_comment := EmptyString |}) 0))
           (sample_db Trip.UPCOMING 1 [])).
  reflexivity.
Defined.

(** X2.  A request goes through only as a POST of an authenticated user
    whose role is the one the guard of the handler asks for: passenger for
    booking, cancelling a booking and rating, administrator for cancelling
    a trip, driver for starting and completing one. *)
Theorem success_needs_role_and_post (rq : AnyRequest) (db : Db) :
  succeeded (serve rq db).1 = true ->
  method (request_of rq) = POST
  /\ exists u, user (request_of rq) = Some u
               /\ User.user_type u = required_role rq.
Proof.
  destruct rq as [[now request trip_id|request booking_id]
                 |[request trip_id|request trip_id|request trip_id]
                 |request booking_id]; simpl;
    unfold_views;
    unfold User.is_passenger, User.is_admin, User.is_driver;
    repeat (case_match; simplify_eq/=; try done);
    decide_hyps; intros _; eauto.
Qed.

Lemma success_needs_role_and_post_witness :
  method (post (driver_user 7) no_data) = POST
  /\ exists u, user (post (driver_user 7) no_data) = Some u
               /\ User.user_type u = User.DRIVER.
Proof.
  apply (success_needs_role_and_post
           (TripLifecycle (StartTripRequest (post (driver_user 7) no_data) 0))
           (sample_db Trip.UPCOMING 1 [])).
  reflexivity.
Defined.

(** X3.  A booking is reachable by its owner only: a passenger who asks to
    cancel or to rate a booking that does not exist or belongs to someone
    else gets a 404, whatever the state of the booking and of its trip, and
    nothing changes. *)
Theorem foreign_booking_is_not_found
    (request : Request) (u : User.t) (booking_id : nat) (db : Db) :
  user request = Some u ->
  User.user_type u = User.PASSENGER ->
  (forall b, bookings db !! booking_id = Some b ->
             TripBooking.user b <> User.id u) ->
  cancel_booking_view request booking_id db = (Http404, db)
  /\ rate_trip_view request booking_id db = (Http404, db).
Proof.
  intros Hu Hp Hforeign. unfold_views. unfold User.is_passenger.
  rewrite Hu, Hp. simpl.
  destruct (bookings db !! booking_id) as [b|] eqn:Hb; [|done].
  rewrite bool_decide_eq_false_2 by (by apply Hforeign). done.
Qed.

Lemma foreign_booking_is_not_found_witness :
  let db :=
    sample_db Trip.UPCOMING 1 [sample_booking 1 2 TripBooking.CONFIRMED] in
  cancel_booking_view (post (passenger 2) no_data) 0 db = (Http404, db)
  /\ rate_trip_view (post (passenger 2) no_data) 0 db = (Http404, db).
Proof.
  apply (foreign_booking_is_not_found (post (passenger 2) no_data)
           (passenger 2) 0
           (sample_db Trip.UPCOMING 1
              [sample_booking 1 2 TripBooking.CONFIRMED])).
  - reflexivity.
  - reflexivity.
  - intros b Hb. injection Hb as <-. simpl. lia.
Defined.

(** X4.  A request to start a trip goes through only when it comes from a
    driver whose profile is the driver assigned to the trip and the trip is
    Upcoming, whatever the status of the driver.  It then makes the trip
    Ongoing and the driver On Trip, and leaves the other columns of both,
    the seats among them, and every booking as they were. *)
Theorem start_trip_spec (request : Request) (trip_id : nat) (db : Db) :
  let r := driver_start_trip_view request trip_id db in
  succeeded r.1 = true ->
  exists u driver_id driver trip,
    user request = Some u /\ User.user_type u = User.DRIVER
    /\ drivers db !! driver_id = Some driver
    /\ Driver.user driver = User.id u
    /\ trips db !! trip_id = Some trip
    /\ Trip.driver trip = Some driver_id
    /\ Trip.status trip = Trip.UPCOMING
    /\ trips r.2 = <[trip_id := Trip.set_status Trip.ONGOING trip]> (trips db)
    /\ drivers r.2 =
         <[driver_id := Driver.set_status Driver.ON_TRIP driver]> (drivers db)
    /\ status_of trip_id r.2 = Some Trip.ONGOING
    /\ seats_of trip_id r.2 = Some (Trip.available_seats trip)
    /\ Driver.status <$> drivers r.2 !! driver_id = Some Driver.ON_TRIP
    /\ Driver.total_trips <$> drivers r.2 !! driver_id
       = Some (Driver.total_trips driver)
    /\ bookings r.2 = bookings db.
Proof.
  intros r. subst r. unfold_views. unfold User.is_driver, status_of, seats_of.
  repeat (case_match; simplify_eq/=; try done).
  intros _.
  match goal with H : list_find _ _ = Some _ |- _ =>
    apply list_find_Some in H as (Hd & Hu & _) end.
  decide_hyps.
  match goal with H : ¬ Trip.status _ ≠ _ |- _ => apply dec_stable in H end.
  eexists _, _, _, _. repeat split; eauto;
    rewrite list_lookup_insert_eq by (eapply lookup_lt_Some; eauto); done.
Qed.

Lemma start_trip_spec_witness :
  let db :=
    sample_db Trip.UPCOMING 1 [sample_booking 1 2 TripBooking.CONFIRMED] in
  let r := startTrip 0 7 db in
  status_of 0 r.2 = Some Trip.ONGOING /\ bookings r.2 = bookings db.
Proof.
  destruct (start_trip_spec (post (driver_user 7) no_data) 0
              (sample_db Trip.UPCOMING 1
                 [sample_booking 1 2 TripBooking.CONFIRMED]) eq_refl)
    as (u & driver_id & driver & trip & _ & _ & _ & _ & _ & _ & _ & _ & _
        & Hst & _ & _ & _ & Hbk).
  split; [exact Hst | exact Hbk].
Defined.

(** ** What every request keeps of the bookings *)

Lemma serve_all_snoc rqs rq db :
  serve_all (rqs ++ [rq]) db = (serve rq (serve_all rqs db)).2.
Proof. unfold serve_all. by rewrite foldl_app. Qed.

(** An invariant of the six transitions holds after every run. *)
Lemma serve_all_invariant (P : Db -> Prop) :
  (forall db db', store_step db db' -> P db -> P db') ->
  forall rqs db, P db -> P (serve_all rqs db).
Proof.
  intros Hstep rqs. induction rqs as [|rq rqs IH]; intros db Hdb; [done|].
  simpl. apply IH. eapply Hstep; [apply serve_step | done].
Qed.

Lemma has_confirmed_booking_elem (trip_id uid : nat) rows i b :
  rows !! i = Some b -> TripBooking.trip b = trip_id ->
  TripBooking.user b = uid -> TripBooking.status b = TripBooking.CONFIRMED ->
  has_confirmed_booking trip_id uid rows = true.
Proof.
  intros Hi ? ? ?. apply has_confirmed_booking_spec. exists b.
  split; [by eapply list_elem_of_lookup_2|done].
Qed.

(** Updating the status of bookings to one that is not Confirmed. *)
Lemma one_confirmed_fmap (g : TripBooking.t -> TripBooking.t) rows :
  (forall b, TripBooking.status (g b) = TripBooking.CONFIRMED -> g b = b) ->
  one_confirmed_booking rows -> one_confirmed_booking (g <$> rows).
Proof.
  intros Hg Hone i j b b' Hi Hj Ht Hu Hs Hs'.
  rewrite list_lookup_fmap in Hi, Hj.
  destruct (rows !! i) as [b0|] eqn:Hi0; simplify_eq/=.
  destruct (rows !! j) as [b1|] eqn:Hj0; simplify_eq/=.
  pose proof (Hg _ Hs) as E0. pose proof (Hg _ Hs') as E1.
  rewrite E0 in Ht, Hu, Hs. rewrite E1 in Ht, Hu, Hs'.
  exact (Hone i j b0 b1 Hi0 Hj0 Ht Hu Hs Hs').
Qed.

Lemma one_confirmed_step db db' :
  store_step db db' ->
  one_confirmed_booking (bookings db) -> one_confirmed_booking (bookings db').
Proof.
  intros [Ht Hb|now tid uid trip seats Htrip Hbk Hnone Hseats Ht Hb
         |k booking trip Hk Hst Htrip Hup Ht Hb
         |tid trip reason Htrip Hst Ht Hb
         |tid trip Htrip Hst Ht Hb
         |tid trip Htrip Hst Ht Hb] Hone; rewrite Hb.
  - done.
  - intros i j b b' Hi Hj Htr Hu Hs Hs'.
    apply lookup_app_Some in Hi as [Hi|[Hi Hi']];
      apply lookup_app_Some in Hj as [Hj|[Hj Hj']].
    + eapply Hone; eauto.
    + apply list_lookup_singleton_Some in Hj' as [_ <-]. simpl in *.
      rewrite (has_confirmed_booking_elem _ _ _ _ _ Hi Htr Hu Hs) in Hnone.
      done.
    + apply list_lookup_singleton_Some in Hi' as [_ <-]. simpl in *.
      rewrite (has_confirmed_booking_elem _ _ _ _ _ Hj (eq_sym Htr)
                 (eq_sym Hu) Hs') in Hnone.
      done.
    + apply list_lookup_singleton_Some in Hi' as [? _].
      apply list_lookup_singleton_Some in Hj' as [? _]. lia.
  - intros i j b b' Hi Hj Htr Hu Hs Hs'.
    apply list_lookup_insert_Some in Hi as [(-> & <- & _)|[? Hi]]; [done|].
    apply list_lookup_insert_Some in Hj as [(-> & <- & _)|[? Hj]]; [done|].
    eapply Hone; eauto.
  - apply one_confirmed_fmap; [|done].
    intros b. case_bool_decide; simpl; done.
  - done.
  - apply one_confirmed_fmap; [|done].
    intros b. destruct (_ && _); simpl; done.
Qed.

(** X5.  At most one Confirmed booking for a trip and a user: when it holds
    of the database, it holds after any sequence of requests to the six
    handlers. *)
Theorem one_confirmed_booking_kept (rqs : list AnyRequest) (db : Db) :
  one_confirmed_booking (bookings db) ->
  one_confirmed_booking (bookings (serve_all rqs db)).
Proof.
  apply (serve_all_invariant (fun db => one_confirmed_booking (bookings db))).
  apply one_confirmed_step.
Qed.

Lemma one_confirmed_booking_kept_witness :
  one_confirmed_booking
    (bookings
       (serve_all
          [ BookingManager
              (BookRequest 0
                 (post (passenger 1)
                    {| post_seats := Some 2;
                       post_cancellation_reason := EmptyString;
                       post_driver_rating := None;
                       post_vehicle_rating := None;
                       post_driver_comment := EmptyString |}) 0);
            BookingManager
              (BookRequest 0
                 (post (passenger 1)
                    {| post_seats := Some 1;
                       post_cancellation_reason := EmptyString;
                       post_driver_rating := None;
                       post_vehicle_rating := None;
                       post_driver_comment := EmptyString |}) 0) ]
          (sample_db Trip.UPCOMING 3 []))).
Proof.
  apply (one_confirmed_booking_kept _ (sample_db Trip.UPCOMING 3 [])).
  intros i j b b' Hi. destruct i; discriminate Hi.
Defined.

(** How a booking fares in one transition. *)
Lemma booking_step db db' i b :
  store_step db db' -> bookings db !! i = Some b ->
  exists b',
    bookings db' !! i = Some b'
    /\ TripBooking.trip b' = TripBooking.trip b
    /\ TripBooking.user b' = TripBooking.user b
    /\ TripBooking.seats_booked b' = TripBooking.seats_booked b
    /\ TripBooking.total_price b' = TripBooking.total_price b
    /\ (TripBooking.status b <> TripBooking.CONFIRMED ->
        TripBooking.status b' <> TripBooking.CONFIRMED).
Proof.
  intros [Ht Hb|now tid uid trip seats Htrip Hbk Hnone Hseats Ht Hb
         |k booking trip Hk Hst Htrip Hup Ht Hb
         |tid trip reason Htrip Hst Ht Hb
         |tid trip Htrip Hst Ht Hb
         |tid trip Htrip Hst Ht Hb] Hi; rewrite Hb.
  - eauto 10.
  - exists b. rewrite lookup_app_l by (eapply lookup_lt_Some; eauto). eauto 10.
  - destruct (decide (k = i)) as [->|Hne].
    + rewrite list_lookup_insert_eq by (eapply lookup_lt_Some; eauto).
      simplify_eq. eexists. split; [done|]. simpl. repeat split; done.
    + rewrite list_lookup_insert_ne by done. eauto 10.
  - rewrite cancel_bookings_of_lookup, Hi. simpl. eexists. split; [done|].
    case_bool_decide; simpl; repeat split; done.
  - eauto 10.
  - rewrite complete_bookings_of_lookup, Hi. simpl. eexists. split; [done|].
    case_bool_decide; simpl; repeat split; done.
Qed.

(** X6.  Bookings are never removed, and a booking keeps the trip, the user,
    the seats and the total price it was made with: after any sequence of
    requests each booking is found at its key with these four columns
    unchanged (the price is the one at booking time).  Its status alone may
    change, and never back to Confirmed once it is not Confirmed. *)
Theorem booking_snapshot_kept
    (rqs : list AnyRequest) (db : Db) (i : nat) (b : TripBooking.t) :
  bookings db !! i = Some b ->
  exists b',
    bookings (serve_all rqs db) !! i = Some b'
    /\ TripBooking.trip b' = TripBooking.trip b
    /\ TripBooking.user b' = TripBooking.user b
    /\ TripBooking.seats_booked b' = TripBooking.seats_booked b
    /\ TripBooking.total_price b' = TripBooking.total_price b
    /\ (TripBooking.status b <> TripBooking.CONFIRMED ->
        TripBooking.status b' <> TripBooking.CONFIRMED).
Proof.
  revert db b. induction rqs as [|rq rqs IH]; intros db b Hi; simpl.
  { eauto 10. }
  destruct (booking_step _ _ _ _ (serve_step rq db) Hi)
    as (b1 & Hi1 & Ht1 & Hu1 & Hs1 & Hp1 & Hc1).
  destruct (IH _ _ Hi1) as (b' & Hi' & Ht' & Hu' & Hs' & Hp' & Hc').
  exists b'. split; [done|]. repeat split; try congruence. auto.
Qed.

Lemma booking_snapshot_kept_witness :
  let db :=
    sample_db Trip.UPCOMING 3 [sample_booking 1 2 TripBooking.CANCELLED] in
  let rqs :=
    [ BookingManager
        (BookRequest 0
           (post (passenger 1)
              {| post_seats := Some 1;
                 post_cancellation_reason := EmptyString;
                 post_driver_rating := None; post_vehicle_rating := None;
                 post_driver_comment := EmptyString |}) 0);
      TripLifecycle (StartTripRequest (post (driver_user 7) no_data) 0);
      TripLifecycle (CompleteTripRequest (post (driver_user 7) no_data) 0) ] in
  exists b',
    bookings (serve_all rqs db) !! 0%nat = Some b'
    /\ TripBooking.trip b' = 0%nat
    /\ TripBooking.user b' = 1%nat
    /\ TripBooking.seats_booked b' = 2
    /\ TripBooking.total_price b' = 1000 * 2
    /\ (TripBooking.CANCELLED <> TripBooking.CONFIRMED ->
        TripBooking.status b' <> TripBooking.CONFIRMED).
Proof.
  apply (booking_snapshot_kept _
           (sample_db Trip.UPCOMING 3
              [sample_booking 1 2 TripBooking.CANCELLED]) 0
           (sample_booking 1 2 TripBooking.CANCELLED)).
  reflexivity.
Defined.

(** ** Seats under every request *)

Lemma seats_in_fmap_le (g : TripBooking.t -> TripBooking.t) trip_id rows :
  (forall b, TripBooking.trip (g b) = TripBooking.trip b) ->
  (forall b, TripBooking.seats_booked (g b) = TripBooking.seats_booked b) ->
  (forall b, TripBooking.status (g b) = TripBooking.CONFIRMED ->
             TripBooking.status b = TripBooking.CONFIRMED) ->
  Forall (fun b => TripBooking.trip b = trip_id ->
                   1 <= TripBooking.seats_booked b) rows ->
  seats_in TripBooking.CONFIRMED trip_id (g <$> rows)
  <= seats_in TripBooking.CONFIRMED trip_id rows
  /\ Forall (fun b => TripBooking.trip b = trip_id ->
                      1 <= TripBooking.seats_booked b) (g <$> rows).
Proof.
  intros Ht Hs Hc. induction 1 as [|b rows Hb Hall [IHle IHall]]; csimpl.
  { split; [lia | constructor]. }
  split.
  - assert (held TripBooking.CONFIRMED trip_id (g b)
            <= held TripBooking.CONFIRMED trip_id b); [|lia].
    unfold held. rewrite Ht, Hs.
    destruct (bool_decide_reflect (TripBooking.trip b = trip_id)); simpl;
      [|lia].
    destruct (bool_decide_reflect
                (TripBooking.status (g b) = TripBooking.CONFIRMED)) as [Hg|Hg].
    + rewrite bool_decide_eq_true_2 by auto. lia.
    + case_bool_decide; [|lia]. specialize (Hb ltac:(done)). lia.
  - constructor; [|done]. rewrite Ht, Hs. done.
Qed.

Lemma within_capacity_step trip_id created db db' :
  store_step db db' ->
  within_capacity trip_id created db -> within_capacity trip_id created db'.
Proof.
  intros Hstep (seats & Hseats & Hpos & Hsum & Hall).
  unfold within_capacity, seats_of in *.
  destruct Hstep as [Ht Hb|now tid uid trip n Htrip Hbk Hnone Hn Ht Hb
         |k booking trip Hk Hst Htrip Hup Ht Hb
         |tid trip reason Htrip Hst Ht Hb
         |tid trip Htrip Hst Ht Hb
         |tid trip Htrip Hst Ht Hb]; rewrite Ht, Hb.
  - by exists seats.
  - rewrite seats_in_app. simpl. unfold held. simpl.
    destruct (decide (tid = trip_id)) as [->|Hne].
    + rewrite list_lookup_insert_eq by (eapply lookup_lt_Some; eauto).
      rewrite Htrip in Hseats. simplify_eq/=.
      rewrite bool_decide_eq_true_2 by done. simpl.
      eexists. split; [done|]. split; [lia|]. split; [lia|].
      apply Forall_app. split; [done|]. apply Forall_singleton. simpl. lia.
    + rewrite list_lookup_insert_ne by done.
      rewrite bool_decide_eq_false_2 by done. simpl.
      exists seats. split; [done|]. split; [lia|]. split; [lia|].
      apply Forall_app. split; [done|]. apply Forall_singleton. simpl. done.
  - rewrite (seats_in_insert _ _ _ _ _ _ Hk). unfold held. simpl. rewrite Hst.
    assert (Hbk : TripBooking.trip booking = trip_id ->
                  1 <= TripBooking.seats_booked booking).
    { eapply (proj1 (Forall_lookup _ _) Hall); eauto. }
    destruct (decide (TripBooking.trip booking = trip_id)) as [Heq|Hne].
    + rewrite Heq in *.
      rewrite list_lookup_insert_eq by (eapply lookup_lt_Some; eauto).
      rewrite Htrip in Hseats. simplify_eq/=.
      rewrite !bool_decide_eq_true_2 by done. simpl.
      specialize (Hbk eq_refl).
      eexists. split; [done|]. split; [lia|]. split; [lia|].
      apply Forall_insert; [done|]. simpl. intros _. done.
    + rewrite list_lookup_insert_ne by done.
      rewrite !(bool_decide_eq_false_2 (TripBooking.trip booking = trip_id))
        by done.
      simpl. exists seats. split; [done|]. split; [lia|]. split; [lia|].
      apply Forall_insert; [done|]. simpl. done.
  - destruct (seats_in_fmap_le
                (fun b => if bool_decide (TripBooking.trip b = tid)
                          then TripBooking.set_status TripBooking.CANCELLED b
                          else b) trip_id (bookings db)) as [Hle Hall'];
      try done; try (intros b; case_bool_decide; simpl; done).
    unfold cancel_bookings_of.
    destruct (decide (tid = trip_id)) as [->|Hne].
    + rewrite list_lookup_insert_eq by (eapply lookup_lt_Some; eauto).
      rewrite Htrip in Hseats. simplify_eq/=.
      eexists. split; [done|]. split; [lia|]. split; [lia|done].
    + rewrite list_lookup_insert_ne by done.
      exists seats. split; [done|]. split; [lia|]. split; [lia|done].
  - destruct (decide (tid = trip_id)) as [->|Hne].
    + rewrite list_lookup_insert_eq by (eapply lookup_lt_Some; eauto).
      rewrite Htrip in Hseats. simplify_eq/=.
      eexists. split; [done|]. split; [lia|]. split; [lia|done].
    + rewrite list_lookup_insert_ne by done.
      exists seats. split; [done|]. split; [lia|]. split; [lia|done].
  - destruct (seats_in_fmap_le
                (fun b => if bool_decide (TripBooking.trip b = tid)
                             && bool_decide
                                  (TripBooking.status b = TripBooking.CONFIRMED)
                          then TripBooking.set_status TripBooking.COMPLETED b
                          else b) trip_id (bookings db)) as [Hle Hall'];
      try done; try (intros b; destruct (_ && _); simpl; done).
    unfold complete_bookings_of.
    destruct (decide (tid = trip_id)) as [->|Hne].
    + rewrite list_lookup_insert_eq by (eapply lookup_lt_Some; eauto).
      rewrite Htrip in Hseats. simplify_eq/=.
      eexists. split; [done|]. split; [lia|]. split; [lia|done].
    + rewrite list_lookup_insert_ne by done.
      exists seats. split; [done|]. split; [lia|]. split; [lia|done].
Qed.

(** X7.  Take a trip as created: [available_seats] is not negative and no
    booking refers to the trip yet.  After any sequence of requests to the
    six handlers, cancelling, starting and completing trips included, its
    [available_seats] is not negative and not above its value at creation,
    and the seats its Confirmed bookings hold are at most the seats taken
    from it. *)
Theorem seats_within_capacity
    (rqs : list AnyRequest) (db : Db) (trip_id : nat) (trip : Trip.t) :
  trips db !! trip_id = Some trip ->
  0 <= Trip.available_seats trip ->
  (forall b, b ∈ bookings db -> TripBooking.trip b <> trip_id) ->
  exists seats,
    seats_of trip_id (serve_all rqs db) = Some seats
    /\ 0 <= seats <= Trip.available_seats trip
    /\ 0 <= seats_in TripBooking.CONFIRMED trip_id
              (bookings (serve_all rqs db))
         <= Trip.available_seats trip - seats.
Proof.
  intros Htrip Hpos Hfresh.
  assert (Hinit : within_capacity trip_id (Trip.available_seats trip) db).
  { exists (Trip.available_seats trip). unfold seats_of. rewrite Htrip.
    split; [done|]. split; [done|].
    rewrite seats_in_none by done. split; [lia|].
    apply Forall_forall. intros b Hb Heq. by apply Hfresh in Hb. }
  destruct (serve_all_invariant
              (within_capacity trip_id (Trip.available_seats trip))
              (within_capacity_step trip_id _) rqs db Hinit)
    as (seats & Hs & Hge & Hsum & Hall).
  exists seats. split; [done|].
  assert (0 <= seats_in TripBooking.CONFIRMED trip_id
                  (bookings (serve_all rqs db))).
  { apply seats_in_nonneg. intros b Hb Heq.
    rewrite Forall_forall in Hall. specialize (Hall b Hb Heq). lia. }
  lia.
Qed.

Lemma seats_within_capacity_witness :
  let db := sample_db Trip.UPCOMING 3 [] in
  let rqs :=
    [ BookingManager
        (BookRequest 0
           (post (passenger 1)
              {| post_seats := Some 2;
                 post_cancellation_reason := EmptyString;
                 post_driver_rating := None; post_vehicle_rating := None;
                 post_driver_comment := EmptyString |}) 0);
      TripLifecycle (StartTripRequest (post (driver_user 7) no_data) 0);
      TripLifecycle (CompleteTripRequest (post (driver_user 7) no_data) 0) ] in
  exists seats,
    seats_of 0 (serve_all rqs db) = Some seats
    /\ 0 <= seats <= 3
    /\ 0 <= seats_in TripBooking.CONFIRMED 0 (bookings (serve_all rqs db))
         <= 3 - seats.
Proof.
  apply (seats_within_capacity _ (sample_db Trip.UPCOMING 3 []) 0
           (sample_trip Trip.UPCOMING 3)).
  - reflexivity.
  - simpl. lia.
  - intros b Hb. inversion Hb.
Defined.

(** ** A cancelled trip is frozen *)

Lemma cancelled_trip_step trip_id db db' :
  store_step db db' ->
  status_of trip_id db = Some Trip.CANCELLED ->
  trips db' !! trip_id = trips db !! trip_id
  /\ (forall i b, TripBooking.trip b = trip_id ->
        bookings db' !! i = Some b <-> bookings db !! i = Some b).
Proof.
  unfold status_of.
  intros [Ht Hb|now tid uid trip n Htrip Hbk Hnone Hn Ht Hb
         |k booking trip Hk Hst Htrip Hup Ht Hb
         |tid trip reason Htrip Hst Ht Hb
         |tid trip Htrip Hst Ht Hb
         |tid trip Htrip Hst Ht Hb] Hc; rewrite Ht, Hb.
  - done.
  - apply is_bookable_spec in Hbk as (Hup & _ & _).
    assert (tid <> trip_id) by (intros ->; rewrite Htrip in Hc; simplify_eq/=; congruence).
    split; [by rewrite list_lookup_insert_ne|].
    intros i b Hb'. rewrite lookup_app_Some. split; [|by left].
    intros [?|[_ Hnew]]; [done|].
    apply list_lookup_singleton_Some in Hnew as [_ <-]. done.
  - assert (TripBooking.trip booking <> trip_id)
      by (intros Heq; rewrite Heq in Htrip; rewrite Htrip in Hc;
          simplify_eq/=; congruence).
    split; [by rewrite list_lookup_insert_ne|].
    intros i b Hb'. rewrite list_lookup_insert_Some. split.
    + intros [(_ & <- & _)|[_ ?]]; done.
    + intros Hi. right. split; [|done]. intros ->. congruence.
  - assert (tid <> trip_id)
      by (intros ->; rewrite Htrip in Hc; simplify_eq/=; congruence).
    split; [by rewrite list_lookup_insert_ne|].
    intros i b Hb'. rewrite cancel_bookings_of_lookup.
    destruct (bookings db !! i) as [b0|]; simpl; [|done].
    case_bool_decide; simpl; split; intros; simplify_eq/=; done.
  - assert (tid <> trip_id)
      by (intros ->; rewrite Htrip in Hc; simplify_eq/=; congruence).
    split; [by rewrite list_lookup_insert_ne|done].
  - assert (tid <> trip_id)
      by (intros ->; rewrite Htrip in Hc; simplify_eq/=; congruence).
    split; [by rewrite list_lookup_insert_ne|].
    intros i b Hb'. rewrite complete_bookings_of_lookup.
    destruct (bookings db !! i) as [b0|]; simpl; [|done].
    case_bool_decide; simpl; split; intros; simplify_eq/=; try done;
      destruct_and?; congruence.
Qed.

(** X8.  A Cancelled trip is frozen.  After any sequence of requests to the
    six handlers its row (status, seats, who cancelled it and why) is the
    one it had, and its bookings are exactly the ones it had, each as it
    was: none is added, none changes. *)
Theorem cancelled_trip_is_frozen
    (rqs : list AnyRequest) (db : Db) (trip_id : nat) :
  status_of trip_id db = Some Trip.CANCELLED ->
  trips (serve_all rqs db) !! trip_id = trips db !! trip_id
  /\ (forall i b, TripBooking.trip b = trip_id ->
        bookings (serve_all rqs db) !! i = Some b
        <-> bookings db !! i = Some b).
Proof.
  revert db. induction rqs as [|rq rqs IH]; intros db Hc; simpl; [done|].
  destruct (cancelled_trip_step trip_id _ _ (serve_step rq db) Hc)
    as [Ht Hb].
  assert (Hc' : status_of trip_id (serve rq db).2 = Some Trip.CANCELLED).
  { unfold status_of in *. by rewrite Ht. }
  destruct (IH _ Hc') as [Ht' Hb'].
  split; [congruence|].
  intros i b Hi. rewrite Hb' by done. by apply Hb.
Qed.

Lemma cancelled_trip_is_frozen_witness :
  let db :=
    sample_db Trip.CANCELLED 1 [sample_booking 1 2 TripBooking.CANCELLED] in
  let rqs :=
    [ BookingManager
        (BookRequest 0
           (post (passenger 2)
              {| post_seats := Some 1;
                 post_cancellation_reason := EmptyString;
                 post_driver_rating := None; post_vehicle_rating := None;
                 post_driver_comment := EmptyString |}) 0);
      TripLifecycle (StartTripRequest (post (driver_user 7) no_data) 0) ] in
  trips (serve_all rqs db) !! 0%nat = trips db !! 0%nat
  /\ (forall i b, TripBooking.trip b = 0%nat ->
        bookings (serve_all rqs db) !! i = Some b
        <-> bookings db !! i = Some b).
Proof.
  apply (cancelled_trip_is_frozen _
           (sample_db Trip.CANCELLED 1
              [sample_booking 1 2 TripBooking.CANCELLED]) 0).
  reflexivity.
Defined.

(** ** How booking and cancelling compose *)

Lemma book_success_inv now trip_id uid seats db :
  succeeded (book now trip_id uid seats db).1 = true ->
  exists trip,
    trips db !! trip_id = Some trip
    /\ Trip.is_bookable now trip = true
    /\ 1 <= seats <= Trip.available_seats trip
    /\ (book now trip_id uid seats db).2 =
       set_trips
         (<[trip_id := Trip.set_available_seats
                         (Trip.available_seats trip - seats) trip]> (trips db))
         (set_bookings
            (bookings db ++
               [ {| TripBooking.trip := trip_id; TripBooking.user := uid;
                    TripBooking.seats_booked := seats;
                    TripBooking.total_price := Trip.price trip * seats;
                    TripBooking.status := TripBooking.CONFIRMED |} ]) db).
Proof.
  unfold_views. unfold BookingForm.clean. simpl.
  repeat (case_match; simplify_eq/=; try done). decide_hyps. intros _.
  eexists. split; [done|]. split; [done|]. split; [lia|done].
Qed.

Lemma cancel_success_inv booking_id uid db :
  succeeded (cancel booking_id uid db).1 = true ->
  exists booking trip,
    bookings db !! booking_id = Some booking
    /\ trips db !! TripBooking.trip booking = Some trip
    /\ (cancel booking_id uid db).2 =
       set_trips
         (<[TripBooking.trip booking :=
              Trip.set_available_seats
                (Trip.available_seats trip + TripBooking.seats_booked booking)
                trip]> (trips db))
         (set_bookings
            (<[booking_id :=
                 TripBooking.set_status TripBooking.CANCELLED booking]>
               (bookings db)) db).
Proof.
  unfold_views. simpl.
  repeat (case_match; simplify_eq/=; try done). intros _.
  eexists _, _. split; [done|]. split; [done|]. done.
Qed.

(** A booking through a sequence of requests. *)
Lemma booking_run (rqs : list AnyRequest) (db : Db) (i : nat)
    (b : TripBooking.t) :
  bookings db !! i = Some b ->
  exists b',
    bookings (serve_all rqs db) !! i = Some b'
    /\ TripBooking.trip b' = TripBooking.trip b
    /\ TripBooking.user b' = TripBooking.user b
    /\ (TripBooking.status b <> TripBooking.CONFIRMED ->
        TripBooking.status b' <> TripBooking.CONFIRMED).
Proof.
  revert db b. induction rqs as [|rq rqs IH]; intros db b Hi; simpl.
  { eauto 10. }
  destruct (booking_step _ _ _ _ (serve_step rq db) Hi)
    as (b1 & Hi1 & Ht1 & Hu1 & _ & _ & Hc1).
  destruct (IH _ _ Hi1) as (b' & Hi' & Ht' & Hu' & Hc').
  exists b'. split; [done|]. repeat split; try congruence. auto.
Qed.

(** A passenger who holds a Confirmed booking of a trip is refused another
    one. *)
Lemma trip_book_view_existing now request trip_id uid db :
  User.id <$> user request = Some uid ->
  has_confirmed_booking trip_id uid (bookings db) = true ->
  succeeded (trip_book_view now request trip_id db).1 = false
  /\ (trip_book_view now request trip_id db).2 = db.
Proof.
  intros Hu Hex. destruct (user request) as [u|] eqn:Hreq; simplify_eq/=.
  unfold trip_book_view, login_required, passenger_required,
    get_object_or_404. rewrite Hreq. simpl.
  destruct (User.is_passenger u); simpl; [|done].
  destruct (trips db !! trip_id) as [trip|]; simpl; [|done].
  destruct (Trip.is_bookable now trip); simpl; [|done].
  by rewrite Hex.
Qed.

(** A booking that is not Confirmed is not cancelled. *)
Lemma cancel_booking_view_not_confirmed request booking_id db :
  TripBooking.status <$> bookings db !! booking_id
    <> Some TripBooking.CONFIRMED ->
  succeeded (cancel_booking_view request booking_id db).1 = false
  /\ (cancel_booking_view request booking_id db).2 = db.
Proof.
  intros Hst. unfold cancel_booking_view, login_required, passenger_required,
    get_object_or_404.
  destruct (user request) as [u|]; simpl; [|done].
  destruct (User.is_passenger u); simpl; [|done].
  destruct (bookings db !! booking_id) as [b|]; simpl in *; [|done].
  case_bool_decide; simpl; [|done].
  rewrite bool_decide_eq_true_2 by congruence. done.
Qed.

(** A trip without a seat left takes no booking. *)
Lemma trip_book_view_no_seat now request trip_id db :
  seats_of trip_id db = Some 0 ->
  succeeded (trip_book_view now request trip_id db).1 = false
  /\ (trip_book_view now request trip_id db).2 = db.
Proof.
  unfold seats_of. intros Hs.
  unfold trip_book_view, login_required, passenger_required,
    get_object_or_404.
  destruct (user request) as [u|]; simpl; [|done].
  destruct (User.is_passenger u); simpl; [|done].
  destruct (trips db !! trip_id) as [trip|]; simplify_eq/=.
  unfold Trip.is_bookable. rewrite Hs. simpl. by rewrite andb_false_r.
Qed.

Lemma lifecycle_seats rq trip_id db :
  seats_of trip_id (lifecycle rq db).2 = seats_of trip_id db.
Proof.
  destruct rq as [request tid|request tid|request tid]; simpl;
    unfold seats_of; unfold_views; unfold CancelTripForm.clean;
    repeat (case_match; simplify_eq/=; try done);
    insert_cases tid trip_id;
    match goal with H : trips db !! _ = Some _ |- _ => by rewrite H end.
Qed.

(** Nothing but the cancellation of a booking gives a seat to a trip that
    has none. *)
Lemma no_seat_run (rqs : list AnyRequest) (trip_id : nat) (db : Db) :
  forallb (negb ∘ is_booking_cancellation) rqs = true ->
  seats_of trip_id db = Some 0 ->
  seats_of trip_id (serve_all rqs db) = Some 0.
Proof.
  revert db. induction rqs as [|rq rqs IH]; intros db Hrqs Hs; [done|].
  simpl in Hrqs. apply andb_true_iff in Hrqs as [Hrq Hrqs].
  simpl. apply IH; [done|].
  destruct rq as [[now request tid|request booking_id]|rq|request booking_id];
    simpl in *; try done.
  - destruct (decide (tid = trip_id)) as [->|Hne].
    + by destruct (trip_book_view_no_seat now request trip_id db Hs) as [_ ->].
    + destruct (trip_book_view_effect now request tid db)
        as [->|(u & trip & seats & _ & _ & ->)]; [done|].
      unfold seats_of in *. simpl. by rewrite list_lookup_insert_ne.
  - by rewrite lifecycle_seats.
  - unfold seats_of in *.
    by destruct (rate_trip_view_store request booking_id db) as (-> & _).
Qed.

(** X9.  No double booking.  A booking that went through is stored,
    Confirmed, under the next key.  From then on, after any sequence of
    requests to the six handlers, as long as that booking is still
    Confirmed, every request of the passenger to book the same trip, at any
    time and for any number of seats, is rejected and changes nothing. *)
Theorem second_booking_is_rejected
    (now : Z) (trip_id uid : nat) (seats : Z) (db : Db)
    (rqs : list AnyRequest) (now' : Z) (request : Request) :
  succeeded (book now trip_id uid seats db).1 = true ->
  User.id <$> user request = Some uid ->
  let db1 := (book now trip_id uid seats db).2 in
  let booking_id := length (bookings db) in
  let db2 := serve_all rqs db1 in
  TripBooking.status <$> bookings db1 !! booking_id
    = Some TripBooking.CONFIRMED
  /\ (TripBooking.status <$> bookings db2 !! booking_id
        = Some TripBooking.CONFIRMED ->
      succeeded (trip_book_view now' request trip_id db2).1 = false
      /\ (trip_book_view now' request trip_id db2).2 = db2).
Proof.
  intros Hok Hu db1 booking_id db2. subst db1 booking_id db2.
  destruct (book_success_inv _ _ _ _ _ Hok) as (trip & Ht & _ & _ & ->).
  set (b := {| TripBooking.trip := trip_id; TripBooking.user := uid;
               TripBooking.seats_booked := seats;
               TripBooking.total_price := Trip.price trip * seats;
               TripBooking.status := TripBooking.CONFIRMED |}).
  set (db1 := set_trips _ _).
  assert (Hb : bookings db1 !! length (bookings db) = Some b).
  { subst db1. simpl. by rewrite lookup_app_r, Nat.sub_diag by lia. }
  split; [by rewrite Hb|].
  destruct (booking_run rqs _ _ _ Hb) as (b' & Hb' & Htrip & Huser & _).
  rewrite Hb'. intros [= Hst].
  apply trip_book_view_existing with (uid := uid); [done|].
  eapply has_confirmed_booking_elem; eauto.
Qed.

(** Passenger 1 books, the driver starts the trip, passenger 1 asks
    again. *)
Lemma second_booking_is_rejected_witness :
  let db1 := (book 0 0 1 1 (sample_db Trip.UPCOMING 3 [])).2 in
  let db2 :=
    serve_all
      [TripLifecycle (StartTripRequest (post (driver_user 7) no_data) 0)]
      db1 in
  TripBooking.status <$> bookings db1 !! 0%nat = Some TripBooking.CONFIRMED
  /\ succeeded (book 5 0 1 1 db2).1 = false /\ (book 5 0 1 1 db2).2 = db2.
Proof.
  destruct (second_booking_is_rejected 0 0 1 1 (sample_db Trip.UPCOMING 3 [])
              [TripLifecycle (StartTripRequest (post (driver_user 7) no_data) 0)]
              5
              (post (passenger 1)
                 {| post_seats := Some 1;
                    post_cancellation_reason := EmptyString;
                    post_driver_rating := None; post_vehicle_rating := None;
                    post_driver_comment := EmptyString |})
              eq_refl eq_refl) as [Hfirst Hnext].
  split; [exact Hfirst | exact (Hnext eq_refl)].
Defined.

(** X10.  A booking is cancelled once: after a cancellation went through
    the booking reads Cancelled, and from then on, after any sequence of
    requests to the six handlers, it is not Confirmed and every request to
    cancel it, by anyone, is rejected and changes nothing, so its seats are
    given back a single time. *)
Theorem second_cancel_is_rejected
    (booking_id uid : nat) (db : Db) (rqs : list AnyRequest)
    (request : Request) :
  succeeded (cancel booking_id uid db).1 = true ->
  let db1 := (cancel booking_id uid db).2 in
  let db2 := serve_all rqs db1 in
  TripBooking.status <$> bookings db1 !! booking_id
    = Some TripBooking.CANCELLED
  /\ TripBooking.status <$> bookings db2 !! booking_id
     <> Some TripBooking.CONFIRMED
  /\ succeeded (cancel_booking_view request booking_id db2).1 = false
  /\ (cancel_booking_view request booking_id db2).2 = db2.
Proof.
  intros Hok db1 db2. subst db1 db2.
  destruct (cancel_success_inv _ _ _ Hok) as (booking & trip & Hb & Ht & ->).
  set (db1 := set_trips _ _).
  assert (Hb1 : bookings db1 !! booking_id
                = Some (TripBooking.set_status TripBooking.CANCELLED booking)).
  { subst db1. simpl.
    by rewrite list_lookup_insert_eq by (eapply lookup_lt_Some; eauto). }
  split; [by rewrite Hb1|].
  destruct (booking_run rqs _ _ _ Hb1) as (b' & Hb' & _ & _ & Hst).
  assert (Hne : TripBooking.status <$> bookings (serve_all rqs db1) !! booking_id
                <> Some TripBooking.CONFIRMED).
  { rewrite Hb'. simpl. intros [= Heq]. by apply Hst. }
  split; [done|]. by apply cancel_booking_view_not_confirmed.
Qed.

(** Passenger 1 cancels, books the trip again, and asks to cancel the
    first booking once more. *)
Lemma second_cancel_is_rejected_witness :
  let db :=
    sample_db Trip.UPCOMING 1 [sample_booking 1 2 TripBooking.CONFIRMED] in
  let db1 := (cancel 0 1 db).2 in
  let db2 :=
    serve_all
      [BookingManager
         (BookRequest 0
            (post (passenger 1)
               {| post_seats := Some 1;
                  post_cancellation_reason := EmptyString;
                  post_driver_rating := None; post_vehicle_rating := None;
                  post_driver_comment := EmptyString |}) 0)]
      db1 in
  TripBooking.status <$> bookings db1 !! 0%nat = Some TripBooking.CANCELLED
  /\ TripBooking.status <$> bookings db2 !! 0%nat
     <> Some TripBooking.CONFIRMED
  /\ succeeded (cancel 0 1 db2).1 = false /\ (cancel 0 1 db2).2 = db2.
Proof.
  apply (second_cancel_is_rejected 0 1
           (sample_db Trip.UPCOMING 1
              [sample_booking 1 2 TripBooking.CONFIRMED])
           [BookingManager
              (BookRequest 0
                 (post (passenger 1)
                    {| post_seats := Some 1;
                       post_cancellation_reason := EmptyString;
                       post_driver_rating := None;
                       post_vehicle_rating := None;
                       post_driver_comment := EmptyString |}) 0)]
           (post (passenger 1) no_data)).
  reflexivity.
Defined.

(** X11.  Selling out: a booking that takes every seat that was left
    leaves the trip without a seat.  From then on, after any sequence of
    requests to the six handlers none of which asks to cancel a booking,
    the trip still has no seat and every request to book it, by anyone, at
    any time and for any number of seats, is rejected and changes
    nothing. *)
Theorem sold_out_trip_takes_no_booking
    (now : Z) (trip_id uid : nat) (db : Db) (trip : Trip.t)
    (rqs : list AnyRequest) (now' : Z) (request : Request) :
  trips db !! trip_id = Some trip ->
  succeeded (book now trip_id uid (Trip.available_seats trip) db).1 = true ->
  forallb (negb ∘ is_booking_cancellation) rqs = true ->
  let db1 := (book now trip_id uid (Trip.available_seats trip) db).2 in
  let db2 := serve_all rqs db1 in
  seats_of trip_id db1 = Some 0
  /\ seats_of trip_id db2 = Some 0
  /\ succeeded (trip_book_view now' request trip_id db2).1 = false
  /\ (trip_book_view now' request trip_id db2).2 = db2.
Proof.
  intros Htrip Hok Hrqs db1 db2. subst db1 db2.
  destruct (book_success_inv _ _ _ _ _ Hok) as (trip' & Ht & _ & _ & ->).
  simplify_eq.
  set (db1 := set_trips _ _).
  assert (Hs1 : seats_of trip_id db1 = Some 0).
  { subst db1. unfold seats_of. simpl.
    rewrite list_lookup_insert_eq by (eapply lookup_lt_Some; eauto). simpl.
    f_equal. lia. }
  split; [done|].
  pose proof (no_seat_run rqs trip_id db1 Hrqs Hs1) as Hs2.
  split; [done|]. by apply trip_book_view_no_seat.
Qed.

(** Passenger 1 takes the three seats, the driver starts the trip,
    passenger 2 asks for a seat. *)
Lemma sold_out_trip_takes_no_booking_witness :
  let db1 := (book 0 0 1 3 (sample_db Trip.UPCOMING 3 [])).2 in
  let db2 :=
    serve_all
      [TripLifecycle (StartTripRequest (post (driver_user 7) no_data) 0)]
      db1 in
  seats_of 0 db1 = Some 0
  /\ seats_of 0 db2 = Some 0
  /\ succeeded (book 5 0 2 1 db2).1 = false
  /\ (book 5 0 2 1 db2).2 = db2.
Proof.
  apply (sold_out_trip_takes_no_booking 0 0 1 (sample_db Trip.UPCOMING 3 [])
           (sample_trip Trip.UPCOMING 3)
           [TripLifecycle (StartTripRequest (post (driver_user 7) no_data) 0)]
           5
           (post (passenger 2)
              {| post_seats := Some 1;
                 post_cancellation_reason := EmptyString;
                 post_driver_rating := None; post_vehicle_rating := None;
                 post_driver_comment := EmptyString |})).
  - reflexivity.
  - reflexivity.
  - reflexivity.
Defined.

(** ** Ratings *)

(** The mean of stars, once rounded, is between 1.00 and 5.00. *)
Lemma Avg_range (column : list (option Stars)) (mean : Q) :
  Avg column = Some mean -> 100 <= quantize mean <= 500.
Proof.
  intros Hm. destruct (Avg_bounds _ _ Hm) as (n & d & -> & Hq).
  by apply quantize_range.
Qed.

Lemma driver_set_average_id (d : Driver.t) :
  Driver.set_average_rating (Driver.average_rating d) d = d.
Proof. by destruct d. Qed.

Lemma vehicle_set_average_id (v : Vehicle.t) :
  Vehicle.set_average_rating (Vehicle.average_rating v) v = v.
Proof. by destruct v. Qed.

Lemma update_driver_average_rows driver db i d0 :
  (forall id d, driver = Row id d -> drivers db !! id = Some d) ->
  drivers db !! i = Some d0 ->
  exists a,
    drivers (update_driver_average driver db) !! i
    = Some (Driver.set_average_rating a d0)
    /\ (a = Driver.average_rating d0 \/ 100 <= a <= 500).
Proof.
  intros Hrow Hi. unfold update_driver_average.
  destruct driver as [|id d|];
    try (exists (Driver.average_rating d0);
         rewrite driver_set_average_id; by auto).
  specialize (Hrow id d eq_refl).
  destruct (driver_avg id (ratings db)) as [mean|] eqn:Hm; simpl;
    [destruct (negb (Qeq_bool mean 0))|];
    try (exists (Driver.average_rating d0);
         rewrite driver_set_average_id; by auto).
  simpl. destruct (decide (id = i)) as [->|Hne].
  - rewrite list_lookup_insert_eq by (eapply lookup_lt_Some; eauto).
    simplify_eq. eexists. split; [done|]. right.
    eapply Avg_range. exact Hm.
  - rewrite list_lookup_insert_ne by done.
    exists (Driver.average_rating d0). rewrite driver_set_average_id. auto.
Qed.

Lemma update_vehicle_average_rows vehicle db i v0 :
  (forall id v, vehicle = Row id v -> vehicles db !! id = Some v) ->
  vehicles db !! i = Some v0 ->
  exists a,
    vehicles (update_vehicle_average vehicle db) !! i
    = Some (Vehicle.set_average_rating a v0)
    /\ (a = Vehicle.average_rating v0 \/ 100 <= a <= 500).
Proof.
  intros Hrow Hi. unfold update_vehicle_average.
  destruct vehicle as [|id v|];
    try (exists (Vehicle.average_rating v0);
         rewrite vehicle_set_average_id; by auto).
  specialize (Hrow id v eq_refl).
  destruct (vehicle_avg id (ratings db)) as [mean|] eqn:Hm; simpl;
    [destruct (negb (Qeq_bool mean 0))|];
    try (exists (Vehicle.average_rating v0);
         rewrite vehicle_set_average_id; by auto).
  simpl. destruct (decide (id = i)) as [->|Hne].
  - rewrite list_lookup_insert_eq by (eapply lookup_lt_Some; eauto).
    simplify_eq. eexists. split; [done|]. right.
    eapply Avg_range. exact Hm.
  - rewrite list_lookup_insert_ne by done.
    exists (Vehicle.average_rating v0). rewrite vehicle_set_average_id. auto.
Qed.

Lemma related_row {A} (table : list A) fk id row :
  related table fk = Row id row -> table !! id = Some row.
Proof.
  unfold related. destruct fk as [pk|]; [|done].
  destruct (table !! pk) eqn:Hpk; [|done]. by intros [= <- <-].
Qed.

Lemma rate_trip_view_drivers request booking_id db i d :
  drivers db !! i = Some d ->
  exists a,
    drivers (rate_trip_view request booking_id db).2 !! i
    = Some (Driver.set_average_rating a d)
    /\ (a = Driver.average_rating d \/ 100 <= a <= 500).
Proof.
  intros Hi.
  assert (Hsame : exists a, drivers db !! i = Some (Driver.set_average_rating a d)
                    /\ (a = Driver.average_rating d \/ 100 <= a <= 500)).
  { exists (Driver.average_rating d). rewrite driver_set_average_id. auto. }
  unfold_views. unfold RatingForm.clean.
  repeat (case_match; simplify_eq; cbn [fst snd]; try exact Hsame);
    match goal with
    | |- context [update_vehicle_average ?v ?x] =>
        destruct (update_vehicle_average_store v x) as (_ & _ & _ & -> & _)
    end;
    apply update_driver_average_rows; try done;
    intros id' row' Hrow'; simpl; eapply related_row; rewrite <- Hrow'; eauto.
Qed.

Lemma rate_trip_view_vehicles request booking_id db i v :
  vehicles db !! i = Some v ->
  exists a,
    vehicles (rate_trip_view request booking_id db).2 !! i
    = Some (Vehicle.set_average_rating a v)
    /\ (a = Vehicle.average_rating v \/ 100 <= a <= 500).
Proof.
  intros Hi.
  assert (Hsame : exists a,
             vehicles db !! i = Some (Vehicle.set_average_rating a v)
             /\ (a = Vehicle.average_rating v \/ 100 <= a <= 500)).
  { exists (Vehicle.average_rating v). rewrite vehicle_set_average_id. auto. }
  unfold_views. unfold RatingForm.clean.
  repeat (case_match; simplify_eq; cbn [fst snd]; try exact Hsame);
    (apply update_vehicle_average_rows;
     [ intros id' row' Hrow' | ];
     match goal with
     | |- context [update_driver_average ?v ?x] =>
         destruct (update_driver_average_store v x) as (_ & _ & _ & -> & _)
     end; simpl;
     [ eapply related_row; rewrite <- Hrow'; eauto | done ]).
Qed.

(** X12.  A request to rate, whatever its outcome, changes no trip, no
    booking and no log entry, and of the drivers and the vehicles nothing
    but [average_rating]; an average it changes lies between 1.00 and 5.00,
    so it fits the three digits of the column. *)
Theorem rating_touches_only_averages
    (request : Request) (booking_id : nat) (db : Db) :
  let r := rate_trip_view request booking_id db in
  trips r.2 = trips db /\ bookings r.2 = bookings db
  /\ admin_logs r.2 = admin_logs db
  /\ (forall i d, drivers db !! i = Some d ->
        exists a,
          drivers r.2 !! i = Some (Driver.set_average_rating a d)
          /\ (a = Driver.average_rating d \/ 100 <= a <= 500))
  /\ (forall i v, vehicles db !! i = Some v ->
        exists a,
          vehicles r.2 !! i = Some (Vehicle.set_average_rating a v)
          /\ (a = Vehicle.average_rating v \/ 100 <= a <= 500)).
Proof.
  intros r. subst r.
  destruct (rate_trip_view_store request booking_id db) as (Ht & Hb & Hl).
  split; [done|]. split; [done|]. split; [done|]. split.
  - intros i d Hi. by apply rate_trip_view_drivers.
  - intros i v Hi. by apply rate_trip_view_vehicles.
Qed.

Lemma rate_trip_view_ratings request booking_id db :
  ratings (rate_trip_view request booking_id db).2 = ratings db
  \/ exists x,
       ratings (rate_trip_view request booking_id db).2 = ratings db ++ [x]
       /\ has_rating (Rating.trip x) (Rating.user x) (ratings db) = false
       /\ status_of (Rating.trip x) db = Some Trip.COMPLETED.
Proof.
  unfold_views. unfold RatingForm.clean, status_of.
  repeat (case_match; simplify_eq; cbn [fst snd]; try (by left));
    right;
    match goal with
    | |- context [update_vehicle_average ?v ?x] =>
        destruct (update_vehicle_average_store v x) as (_ & _ & -> & _ & _)
    end;
    match goal with
    | |- context [update_driver_average ?v ?x] =>
        destruct (update_driver_average_store v x) as (_ & _ & -> & _ & _)
    end; simpl; eexists; (split; [done|]); (split; [done|]); simpl;
    decide_hyps;
    match goal with
    | H : trips db !! _ = Some _, H' : ¬ Trip.status _ ≠ _ |- _ =>
        rewrite H; simpl; apply dec_stable in H'; by rewrite H'
    end.
Qed.

Lemma serve_ratings rq db :
  ratings (serve rq db).2 = ratings db
  \/ exists x,
       ratings (serve rq db).2 = ratings db ++ [x]
       /\ has_rating (Rating.trip x) (Rating.user x) (ratings db) = false
       /\ status_of (Rating.trip x) db = Some Trip.COMPLETED.
Proof.
  destruct rq as [[now request trip_id|request booking_id]
                 |[request trip_id|request trip_id|request trip_id]
                 |request booking_id]; simpl;
    try apply rate_trip_view_ratings;
    left; unfold_views; unfold BookingForm.clean, CancelTripForm.clean;
    repeat (case_match; simplify_eq/=; try done).
Qed.

Lemma has_rating_elem (trip_id uid : nat) rows i x :
  rows !! i = Some x -> Rating.trip x = trip_id -> Rating.user x = uid ->
  has_rating trip_id uid rows = true.
Proof.
  intros Hi ? ?. apply has_rating_spec. exists x.
  split; [by eapply list_elem_of_lookup_2|done].
Qed.

(** X13.  At most one rating for a trip and a user: when it holds of the
    database, it holds after any sequence of requests to the six handlers,
    as the uniqueness constraint of the table asks. *)
Theorem one_rating_kept (rqs : list AnyRequest) (db : Db) :
  one_rating (ratings db) -> one_rating (ratings (serve_all rqs db)).
Proof.
  revert db. induction rqs as [|rq rqs IH]; intros db Hone; simpl; [done|].
  apply IH.
  destruct (serve_ratings rq db) as [->|(x & -> & Hnew & _)]; [done|].
  intros i j y z Hi Hj Ht Hu.
  apply lookup_app_Some in Hi as [Hi|[Hi Hi']];
    apply lookup_app_Some in Hj as [Hj|[Hj Hj']].
  - eapply Hone; eauto.
  - apply list_lookup_singleton_Some in Hj' as [_ <-].
    rewrite (has_rating_elem _ _ _ _ _ Hi Ht Hu) in Hnew. done.
  - apply list_lookup_singleton_Some in Hi' as [_ <-].
    rewrite (has_rating_elem _ _ _ _ _ Hj (eq_sym Ht) (eq_sym Hu)) in Hnew.
    done.
  - apply list_lookup_singleton_Some in Hi' as [? _].
    apply list_lookup_singleton_Some in Hj' as [? _]. lia.
Qed.

Lemma one_rating_kept_witness :
  one_rating
    (ratings
       (serve_all
          [ RateRequest
              (post (passenger 1)
                 {| post_seats := None;
                    post_cancellation_reason := EmptyString;
                    post_driver_rating := Some Star4;
                    post_vehicle_rating := Some Star4;
                    post_driver_comment := EmptyString |}) 0;
            RateRequest
              (post (passenger 1)
                 {| post_seats := None;
                    post_cancellation_reason := EmptyString;
                    post_driver_rating := Some Star5;
                    post_vehicle_rating := Some Star5;
                    post_driver_comment := EmptyString |}) 0 ]
          rating_db)).
Proof.
  apply (one_rating_kept _ rating_db).
  intros i j x y Hi. destruct i; discriminate Hi.
Defined.

(** ** The audit trail and the drivers' counters *)

(** X14.  The log of administrator actions grows, by these six handlers,
    on one occasion: a cancellation of a trip that goes through appends
    exactly one entry, which names the administrator, the action CANCEL
    and the trip; a cancellation that is refused, and every other request,
    leave the log as it was. *)
Theorem admin_log_records_trip_cancellations (rq : AnyRequest) (db : Db) :
  match rq with
  | TripLifecycle (CancelTripRequest request trip_id) =>
      if succeeded (serve rq db).1 then
        exists u trip,
          user request = Some u
          /\ trips db !! trip_id = Some trip
          /\ admin_logs (serve rq db).2 =
             admin_logs db ++
               [ {| AdminLog.admin := User.id u;
                    AdminLog.action_type := "CANCEL";
                    AdminLog.entity_type := "Trip";
                    AdminLog.entity_id := trip_id;
                    AdminLog.description :=
                      "Cancelled trip: " +:+ Trip.trip_name trip |} ]
          /\ length (admin_logs (serve rq db).2)
             = S (length (admin_logs db))
      else admin_logs (serve rq db).2 = admin_logs db
  | _ => admin_logs (serve rq db).2 = admin_logs db
  end.
Proof.
  destruct rq as [[now request trip_id|request booking_id]
                 |[request trip_id|request trip_id|request trip_id]
                 |request booking_id]; simpl;
    try apply rate_trip_view_store;
    unfold_views; unfold BookingForm.clean, CancelTripForm.clean;
    repeat (case_match; simplify_eq/=; try done).
  eexists _, _. repeat split; eauto.
  rewrite length_app. simpl. lia.
Qed.

(** An administrator cancels a trip and asks to cancel it once more: one
    entry. *)
Example admin_log_after_a_cancellation :
  let db := sample_db Trip.UPCOMING 1 [] in
  let r := cancelTrip 0 9 "storm" db in
  succeeded r.1 = true
  /\ admin_logs db = []
  /\ AdminLog.admin <$> admin_logs r.2 = [9%nat]
  /\ AdminLog.action_type <$> admin_logs r.2 = ["CANCEL"]
  /\ AdminLog.entity_id <$> admin_logs r.2 = [0%nat]
  /\ admin_logs (cancelTrip 0 9 "storm" r.2).2 = admin_logs r.2.
Proof. vm_compute. repeat split. Qed.

(** X15.  Whatever the request, a driver row keeps its user and its
    vehicle, and [total_trips] stays as it was or grows by exactly one; it
    grows only by a completion that goes through, of a trip assigned to that
    driver. *)
Theorem total_trips_counts_completions
    (rq : AnyRequest) (db : Db) (i : nat) (d : Driver.t) :
  drivers db !! i = Some d ->
  exists d',
    drivers (serve rq db).2 !! i = Some d'
    /\ Driver.user d' = Driver.user d
    /\ Driver.vehicle d' = Driver.vehicle d
    /\ (Driver.total_trips d' = Driver.total_trips d
        \/ (Driver.total_trips d' = Driver.total_trips d + 1
            /\ succeeded (serve rq db).1 = true
            /\ exists request trip_id,
                 rq = TripLifecycle (CompleteTripRequest request trip_id)
                 /\ Trip.driver <$> trips db !! trip_id = Some (Some i))).
Proof.
  intros Hi.
  assert (Hsame : exists d',
             drivers db !! i = Some d'
             /\ Driver.user d' = Driver.user d
             /\ Driver.vehicle d' = Driver.vehicle d
             /\ (Driver.total_trips d' = Driver.total_trips d
                 \/ (Driver.total_trips d' = Driver.total_trips d + 1
                     /\ succeeded (serve rq db).1 = true
                     /\ exists request trip_id,
                          rq = TripLifecycle
                                 (CompleteTripRequest request trip_id)
                          /\ Trip.driver <$> trips db !! trip_id
                             = Some (Some i)))) by eauto 10.
  destruct rq as [[now request trip_id|request booking_id]
                 |[request trip_id|request trip_id|request trip_id]
                 |request booking_id]; simpl in *.
  - clear Hsame. unfold_views. unfold BookingForm.clean.
    repeat (case_match; simplify_eq/=; eauto 10).
  - clear Hsame. unfold_views.
    repeat (case_match; simplify_eq/=; eauto 10).
  - clear Hsame. unfold_views. unfold CancelTripForm.clean.
    repeat (case_match; simplify_eq/=; eauto 10).
  - clear Hsame. unfold_views.
    repeat (case_match; simplify_eq/=; eauto 10).
    match goal with H : list_find _ _ = Some _ |- _ =>
      apply list_find_Some in H as (Hd & _ & _) end.
    match goal with |- context [<[?k := _]> _ !! i] =>
      destruct (decide (k = i)) as [->|Hne] end.
    + rewrite list_lookup_insert_eq by (eapply lookup_lt_Some; eauto).
      simplify_eq. eexists. split; [done|]. simpl. auto.
    + rewrite list_lookup_insert_ne by done. eauto 10.
  - unfold_views.
    repeat (case_match; simplify_eq/=; try exact Hsame). clear Hsame.
    match goal with H : list_find _ _ = Some _ |- _ =>
      apply list_find_Some in H as (Hd & _ & _) end.
    decide_hyps.
    match goal with |- context [<[?k := _]> _ !! i] =>
      destruct (decide (k = i)) as [->|Hne] end.
    + rewrite list_lookup_insert_eq by (eapply lookup_lt_Some; eauto).
      simplify_eq. eexists. split; [done|]. simpl.
      split; [done|]. split; [done|]. right.
      split; [done|]. split; [done|].
      eexists _, _. split; [done|].
      match goal with H : trips db !! _ = Some _ |- _ => rewrite H end.
      simpl. congruence.
    + rewrite list_lookup_insert_ne by done. eauto 10.
  - clear Hsame.
    destruct (rate_trip_view_drivers request booking_id db i d Hi)
      as (a & -> & _).
    eexists. split; [done|]. simpl. auto.
Qed.

Lemma total_trips_counts_completions_witness :
  let db := sample_db Trip.ONGOING 1 [] in
  let rq :=
    TripLifecycle (CompleteTripRequest (post (driver_user 7) no_data) 0) in
  exists d',
    drivers (serve rq db).2 !! 0%nat = Some d'
    /\ Driver.user d' = 7%nat
    /\ Driver.vehicle d' = Some 0%nat
    /\ (Driver.total_trips d' = 0
        \/ (Driver.total_trips d' = 0 + 1
            /\ succeeded (serve rq db).1 = true
            /\ exists request trip_id,
                 rq = TripLifecycle (CompleteTripRequest request trip_id)
                 /\ Trip.driver <$> trips db !! trip_id
                    = Some (Some 0%nat))).
Proof.
  apply (total_trips_counts_completions
           (TripLifecycle
              (CompleteTripRequest (post (driver_user 7) no_data) 0))
           (sample_db Trip.ONGOING 1 []) 0 sample_driver).
  reflexivity.
Defined.

(** ** What the handlers never change of a trip *)

Lemma trip_step db db' i trip :
  store_step db db' -> trips db !! i = Some trip ->
  exists trip',
    trips db' !! i = Some trip'
    /\ Trip.driver trip' = Trip.driver trip
    /\ Trip.vehicle trip' = Trip.vehicle trip
    /\ Trip.trip_name trip' = Trip.trip_name trip
    /\ Trip.departure_time trip' = Trip.departure_time trip
    /\ Trip.price trip' = Trip.price trip.
Proof.
  intros [Ht Hb|now tid uid t seats Htrip Hbk Hnone Hseats Ht Hb
         |k booking t Hk Hst Htrip Hup Ht Hb
         |tid t reason Htrip Hst Ht Hb
         |tid t Htrip Hst Ht Hb
         |tid t Htrip Hst Ht Hb] Hi; rewrite Ht; try (by eauto 10);
    match goal with |- context [<[?k := _]> _ !! i] =>
      destruct (decide (k = i)) as [Heq|Hne] end;
    try (rewrite list_lookup_insert_ne by done; by eauto 10);
    rewrite Heq in *;
    rewrite list_lookup_insert_eq by (eapply lookup_lt_Some; eauto);
    simplify_eq; eexists; (split; [done|]); simpl; done.
Qed.

(** X16.  No trip is removed, and a trip keeps its driver, its vehicle, its
    name, its departure time and its price through any sequence of requests
    to the six handlers: they move its seats, its status and the record of
    its cancellation, nothing else. *)
Theorem trip_columns_kept
    (rqs : list AnyRequest) (db : Db) (i : nat) (trip : Trip.t) :
  trips db !! i = Some trip ->
  exists trip',
    trips (serve_all rqs db) !! i = Some trip'
    /\ Trip.driver trip' = Trip.driver trip
    /\ Trip.vehicle trip' = Trip.vehicle trip
    /\ Trip.trip_name trip' = Trip.trip_name trip
    /\ Trip.departure_time trip' = Trip.departure_time trip
    /\ Trip.price trip' = Trip.price trip.
Proof.
  revert db trip. induction rqs as [|rq rqs IH]; intros db trip Hi; simpl.
  { eauto 10. }
  destruct (trip_step _ _ _ _ (serve_step rq db) Hi)
    as (t1 & Hi1 & ? & ? & ? & ? & ?).
  destruct (IH _ _ Hi1) as (t' & Hi' & ? & ? & ? & ? & ?).
  exists t'. split; [done|]. repeat split; congruence.
Qed.

Lemma trip_columns_kept_witness :
  let db :=
    sample_db Trip.UPCOMING 3 [sample_booking 1 2 TripBooking.CONFIRMED] in
  let rqs :=
    [ BookingManager (CancelRequest (post (passenger 1) no_data) 0);
      TripLifecycle (StartTripRequest (post (driver_user 7) no_data) 0) ] in
  exists trip',
    trips (serve_all rqs db) !! 0%nat = Some trip'
    /\ Trip.driver trip' = Some 0%nat
    /\ Trip.vehicle trip' = Some 0%nat
    /\ Trip.trip_name trip' = "Airport shuttle"
    /\ Trip.departure_time trip' = 1000
    /\ Trip.price trip' = 1000.
Proof.
  apply (trip_columns_kept _
           (sample_db Trip.UPCOMING 3
              [sample_booking 1 2 TripBooking.CONFIRMED]) 0
           (sample_trip Trip.UPCOMING 3)).
  reflexivity.
Defined.

(** X17.  Seats move by bookings and their cancellations only: a request to
    cancel, start or complete a trip, or to rate one, leaves
    [available_seats] of every trip as it was, whatever its outcome. *)
Theorem only_bookings_move_seats (db : Db) (trip_id : nat) :
  (forall rq, seats_of trip_id (lifecycle rq db).2 = seats_of trip_id db)
  /\ (forall request booking_id,
        seats_of trip_id (rate_trip_view request booking_id db).2
        = seats_of trip_id db).
Proof.
  split.
  - intros [request tid|request tid|request tid]; simpl;
      unfold seats_of; unfold_views; unfold CancelTripForm.clean;
      repeat (case_match; simplify_eq/=; try done);
      insert_cases tid trip_id;
      match goal with H : trips db !! _ = Some _ |- _ => by rewrite H end.
  - intros request booking_id. unfold seats_of.
    by destruct (rate_trip_view_store request booking_id db) as (-> & _).
Qed.

(** ** Listings *)

Lemma elem_of_imap_pair {A} (rows : list A) (i : nat) (x : A) :
  (i, x) ∈ imap pair rows <-> rows !! i = Some x.
Proof.
  rewrite elem_of_lookup_imap. split.
  - intros (j & y & Heq & Hj). by simplify_eq.
  - intros Hi. eauto.
Qed.

(** X18.  The search lists the bookable trips: a trip is in the queryset of
    [trip_search_view] exactly when it is a row that is bookable at that
    moment and that the search form keeps; and a passenger without a
    Confirmed booking of a listed trip does get a seat on it when booking
    at that moment. *)
Theorem search_lists_bookable_trips
    (now : Z) (narrow : nat -> bool) (db : Db) (i : nat) (trip : Trip.t) :
  ((i, trip) ∈ trip_search_queryset now narrow db <->
   trips db !! i = Some trip /\ Trip.is_bookable now trip = true
   /\ narrow i = true)
  /\ ((i, trip) ∈ trip_search_queryset now narrow db ->
      forall uid,
        has_confirmed_booking i uid (bookings db) = false ->
        succeeded (book now i uid 1 db).1 = true).
Proof.
  assert (Hiff : (i, trip) ∈ trip_search_queryset now narrow db <->
                 trips db !! i = Some trip /\ Trip.is_bookable now trip = true
                 /\ narrow i = true).
  { unfold trip_search_queryset.
    rewrite list_elem_of_filter, elem_of_imap_pair, is_bookable_spec. simpl.
    tauto. }
  split; [done|].
  intros (Hi & Hbk & _)%Hiff uid Hnone.
  unfold_views. unfold BookingForm.clean. simpl.
  rewrite Hi, Hbk. simpl. rewrite Hnone.
  apply is_bookable_spec in Hbk as (_ & Hseats & _).
  destruct (Z.ltb_spec (Trip.available_seats trip) 1); [lia|done].
Qed.

(** X19.  A passenger sees no booking of anyone else: whatever the status
    filter, every booking on the page of [my_bookings_view] is a row of the
    table that belongs to the caller, and the caller is a passenger.
    Without a filter, or with one the handler does not know, every booking
    of the caller is on the page; and each booking of the caller shows
    under the filter named after its own status. *)
Theorem my_bookings_lists_own_bookings
    (status : option string) (request : Request) (db : Db)
    (i : nat) (b : TripBooking.t) :
  ((i, b) ∈ (my_bookings_view status request db).2 ->
   bookings db !! i = Some b
   /\ exists u, user request = Some u
                /\ User.user_type u = User.PASSENGER
                /\ TripBooking.user b = User.id u)
  /\ (forall u,
        user request = Some u -> User.user_type u = User.PASSENGER ->
        bookings db !! i = Some b -> TripBooking.user b = User.id u ->
        (status = None
         \/ (forall st, status <> Some (booking_status_value st)) ->
         (i, b) ∈ (my_bookings_view status request db).2)
        /\ (i, b) ∈ (my_bookings_view
                       (Some (booking_status_value (TripBooking.status b)))
                       request db).2).
Proof.
  assert (Hall : forall uid,
             (i, b) ∈ reverse (filter (fun ib => TripBooking.user ib.2 = uid)
                                 (imap pair (bookings db)))
             <-> bookings db !! i = Some b /\ TripBooking.user b = uid).
  { intros uid.
    rewrite elem_of_reverse, list_elem_of_filter, elem_of_imap_pair. simpl.
    tauto. }
  split.
  - unfold my_bookings_view, my_bookings_queryset, User.is_passenger.
    destruct (user request) as [u|]; simpl; [|by intros ?%elem_of_nil].
    case_bool_decide; simpl; [|by intros ?%elem_of_nil].
    intros Hin.
    assert ((i, b) ∈ reverse (filter (fun ib => TripBooking.user ib.2
                                               = User.id u)
                                (imap pair (bookings db)))) as Hin'.
    { destruct status as [s|]; [|done].
      repeat case_bool_decide; try done;
        by apply list_elem_of_filter in Hin as [_ ?]. }
    apply Hall in Hin' as [? ?]. eauto.
  - intros u Hu Hp Hi Hown.
    unfold my_bookings_view, my_bookings_queryset, User.is_passenger.
    rewrite Hu, Hp. simpl.
    assert ((i, b) ∈ reverse (filter (fun ib => TripBooking.user ib.2
                                               = User.id u)
                                (imap pair (bookings db)))) as Hin
      by (by apply Hall).
    split.
    + intros [->|Hunknown]; [done|].
      destruct status as [s|]; [|done].
      repeat case_bool_decide; subst; try done.
      * by destruct (Hunknown TripBooking.CONFIRMED).
      * by destruct (Hunknown TripBooking.COMPLETED).
      * by destruct (Hunknown TripBooking.CANCELLED).
    + destruct (TripBooking.status b) eqn:Hst; simpl;
        apply list_elem_of_filter; simpl; auto.
Qed.

(** ** The mandatory reason *)

Lemma is_space2_bytes (c1 c2 : ascii) :
  is_space2 c1 c2 = true ->
  nat_of_ascii c1 = 194%nat
  /\ (nat_of_ascii c2 = 133 \/ nat_of_ascii c2 = 160)%nat.
Proof.
  unfold is_space2. rewrite andb_true_iff, orb_true_iff, !Nat.eqb_eq. tauto.
Qed.

Lemma is_space3_bytes (c1 c2 c3 : ascii) :
  is_space3 c1 c2 c3 = true ->
  (225 <= nat_of_ascii c1 <= 227 /\ 128 <= nat_of_ascii c2
   /\ 128 <= nat_of_ascii c3)%nat.
Proof.
  unfold is_space3.
  rewrite !orb_true_iff, !andb_true_iff, !orb_true_iff, !andb_true_iff,
    !Nat.eqb_eq, !Nat.leb_le. lia.
Qed.

Lemma is_space_byte (c : ascii) :
  is_space c = true -> (9 <= nat_of_ascii c <= 32)%nat.
Proof.
  unfold is_space. rewrite orb_true_iff, !andb_true_iff, !Nat.leb_le. lia.
Qed.

Lemma not_is_space (c : ascii) :
  (32 < nat_of_ascii c)%nat -> is_space c = false.
Proof.
  intros Hc. apply not_true_iff_false. intros Hs%is_space_byte. lia.
Qed.

Lemma not_is_space2 (c1 c2 : ascii) :
  (194 < nat_of_ascii c1)%nat -> is_space2 c1 c2 = false.
Proof.
  intros Hc. apply not_true_iff_false. intros Hs%is_space2_bytes. lia.
Qed.

Lemma lstrip_white_space (w s : string) :
  white_space w = true -> lstrip (w +:+ s) = lstrip s.
Proof.
  destruct w as [|c1 [|c2 [|c3 [|c4 w]]]]; try done;
    unfold lstrip; cbn [white_space]; intros Hw.
  - change (lstrip_with is_space2 is_space3 (String c1 s) = lstrip s).
    cbn [lstrip_with]. by rewrite Hw.
  - change (lstrip_with is_space2 is_space3 (String c1 (String c2 s))
            = lstrip s).
    cbn [lstrip_with]. destruct (is_space2_bytes _ _ Hw) as [H1 _].
    rewrite not_is_space by lia. by rewrite Hw.
  - change (lstrip_with is_space2 is_space3
              (String c1 (String c2 (String c3 s))) = lstrip s).
    cbn [lstrip_with]. destruct (is_space3_bytes _ _ _ Hw) as (H1 & _).
    rewrite not_is_space, not_is_space2 by lia. by rewrite Hw.
Qed.

Lemma lstrip_blank (s : string) : blank s -> lstrip s = EmptyString.
Proof.
  induction 1 as [|w s Hw _ IH]; [done|]. by rewrite lstrip_white_space.
Qed.

Lemma strip_blank (s : string) : blank s -> strip s = EmptyString.
Proof. intros Hs. unfold strip. by rewrite lstrip_blank. Qed.

(** The null character is no white space: stripping keeps it. *)
Lemma has_null_rev_app (s1 s2 : string) :
  has_null_character (String.rev_app s1 s2)
  = has_null_character s1 || has_null_character s2.
Proof.
  revert s2. induction s1 as [|c s1 IH]; intros s2; simpl; [done|].
  rewrite IH. simpl. destruct (bool_decide (c = Ascii.zero)); simpl;
    [by rewrite orb_true_r | done].
Qed.

Lemma has_null_rev (s : string) :
  has_null_character (String.rev s) = has_null_character s.
Proof. unfold String.rev. rewrite has_null_rev_app. simpl. apply orb_false_r. Qed.

Lemma not_null (c : ascii) :
  (0 < nat_of_ascii c)%nat -> bool_decide (c = Ascii.zero) = false.
Proof.
  intros Hc. apply bool_decide_eq_false. intros ->.
  change (nat_of_ascii Ascii.zero) with 0%nat in Hc. lia.
Qed.

Lemma has_null_lstrip_with sp2 sp3 (s : string) :
  (forall c1 c2, sp2 c1 c2 = true ->
     (0 < nat_of_ascii c1 /\ 0 < nat_of_ascii c2)%nat) ->
  (forall c1 c2 c3, sp3 c1 c2 c3 = true ->
     (0 < nat_of_ascii c1 /\ 0 < nat_of_ascii c2 /\ 0 < nat_of_ascii c3)%nat) ->
  has_null_character (lstrip_with sp2 sp3 s) = has_null_character s.
Proof.
  intros H2 H3.
  assert (Hn : forall n s, (String.length s <= n)%nat ->
            has_null_character (lstrip_with sp2 sp3 s) = has_null_character s).
  { clear s. induction n as [|n IH]; intros [|c1 s1] Hlen; simpl in *;
      try done; try lia.
    destruct (is_space c1) eqn:Hc1.
    { apply is_space_byte in Hc1. rewrite not_null by lia.
      apply IH. lia. }
    destruct s1 as [|c2 s2]; [done|].
    destruct (sp2 c1 c2) eqn:Hc2.
    { destruct (H2 _ _ Hc2). simpl. rewrite !not_null by lia.
      apply IH. simpl in Hlen. lia. }
    destruct s2 as [|c3 s3]; [done|].
    destruct (sp3 c1 c2 c3) eqn:Hc3; [|done].
    destruct (H3 _ _ _ Hc3) as (? & ? & ?). simpl. rewrite !not_null by lia.
    apply IH. simpl in Hlen. lia. }
  by apply (Hn (String.length s)).
Qed.

Lemma has_null_strip (s : string) :
  has_null_character (strip s) = has_null_character s.
Proof.
  unfold strip, rstrip, lstrip.
  rewrite has_null_rev, has_null_lstrip_with, has_null_rev,
    has_null_lstrip_with; try done.
  - intros c1 c2 Hs%is_space2_bytes. lia.
  - intros c1 c2 c3 Hs%is_space3_bytes. lia.
  - intros c1 c2 Hs%is_space2_bytes. lia.
  - intros c1 c2 c3 Hs%is_space3_bytes. lia.
Qed.

Lemma CharField_blank (required : bool) (s : string) :
  blank s -> CharField required s = if required then None else Some EmptyString.
Proof.
  intros Hs. unfold CharField. rewrite (strip_blank _ Hs). by destruct required.
Qed.

Lemma CharField_null (required : bool) (s : string) :
  has_null_character s = true -> CharField required s = None.
Proof.
  intros Hs. unfold CharField. rewrite has_null_strip, Hs.
  by destruct (required && _).
Qed.

(** X20.  The reason of a cancellation is mandatory: a request to cancel a
    trip whose reason is empty or made of white space only, ASCII or not,
    or holds a null character, is refused, whoever sends it and whatever
    the trip, and changes nothing: no trip is cancelled without a reason
    on record. *)
Theorem blank_reason_is_refused
    (request : Request) (trip_id : nat) (db : Db) :
  blank (post_cancellation_reason (POST_ request))
  \/ has_null_character (post_cancellation_reason (POST_ request)) = true ->
  succeeded (trip_cancel_view request trip_id db).1 = false
  /\ (trip_cancel_view request trip_id db).2 = db.
Proof.
  intros Hreason.
  assert (Hclean : CancelTripForm.clean (POST_ request) = None).
  { unfold CancelTripForm.clean.
    destruct Hreason as [Hb|Hn];
      [by rewrite CharField_blank | by apply CharField_null]. }
  unfold_views. rewrite Hclean.
  repeat (case_match; simplify_eq/=; try done).
Qed.

(** A reason of a space, a no-break space (U+00A0) and an ideographic
    space (U+3000). *)
Lemma blank_reason_is_refused_witness :
  let reason :=
    string_of_list_ascii
      (ascii_of_nat <$> [32; 194; 160; 227; 128; 128]%nat) in
  let db := sample_db Trip.UPCOMING 1 [] in
  succeeded (cancelTrip 0 9 reason db).1 = false
  /\ (cancelTrip 0 9 reason db).2 = db.
Proof.
  apply (blank_reason_is_refused
           (post (administrator 9)
              {| post_seats := None;
                 post_cancellation_reason :=
                   string_of_list_ascii
                     (ascii_of_nat <$> [32; 194; 160; 227; 128; 128]%nat);
                 post_driver_rating := None; post_vehicle_rating := None;
                 post_driver_comment := EmptyString |}) 0
           (sample_db Trip.UPCOMING 1 [])).
  left.
  apply (blank_space (String (ascii_of_nat 32) EmptyString)); [reflexivity|].
  apply (blank_space
           (String (ascii_of_nat 194) (String (ascii_of_nat 160) EmptyString)));
    [reflexivity|].
  apply (blank_space
           (String (ascii_of_nat 227)
              (String (ascii_of_nat 128)
                 (String (ascii_of_nat 128) EmptyString))));
    [reflexivity|].
  apply blank_empty.
Defined.

(** ** The life of a trip *)

Lemma status_step db db' trip_id st :
  store_step db db' -> status_of trip_id db = Some st ->
  seats_of trip_id db' = seats_of trip_id db /\ status_of trip_id db' = Some st
  \/ (st = Trip.UPCOMING /\ status_of trip_id db' = Some Trip.UPCOMING)
  \/ (st = Trip.UPCOMING /\ seats_of trip_id db' = seats_of trip_id db
      /\ status_of trip_id db' = Some Trip.ONGOING)
  \/ (st = Trip.ONGOING /\ seats_of trip_id db' = seats_of trip_id db
      /\ status_of trip_id db' = Some Trip.COMPLETED)
  \/ (st <> Trip.CANCELLED /\ seats_of trip_id db' = seats_of trip_id db
      /\ status_of trip_id db' = Some Trip.CANCELLED).
Proof.
  unfold status_of, seats_of.
  intros [Ht Hb|now tid uid t seats Htrip Hbk Hnone Hseats Ht Hb
         |k booking t Hk Hst Htrip Hup Ht Hb
         |tid t reason Htrip Hst Ht Hb
         |tid t Htrip Hst Ht Hb
         |tid t Htrip Hst Ht Hb] Hi; rewrite Ht; try (by left);
    match goal with |- context [<[?k := _]> _ !! trip_id] =>
      destruct (decide (k = trip_id)) as [Heq|Hne] end;
    try (rewrite !list_lookup_insert_ne by done; by left);
    rewrite Heq in *;
    rewrite !list_lookup_insert_eq by (eapply lookup_lt_Some; eauto);
    rewrite Htrip in *; simplify_eq/=.
  - apply is_bookable_spec in Hbk as (-> & _ & _). right. left. done.
  - right. left. rewrite Hup. done.
  - right. right. right. right. done.
  - right. right. left. rewrite Hst. done.
  - right. right. right. left. rewrite Hst. done.
Qed.

(** X21.  The status of a trip moves along three arrows only: whatever the
    request, a trip keeps its status, or goes from Upcoming to Ongoing, or
    from Ongoing to Completed, or from a status other than Cancelled to
    Cancelled.  No request takes a trip back to Upcoming or to Ongoing. *)
Theorem status_moves_forward
    (rq : AnyRequest) (db : Db) (trip_id : nat) (st : Trip.Status) :
  status_of trip_id db = Some st ->
  exists st',
    status_of trip_id (serve rq db).2 = Some st'
    /\ (st' = st
        \/ (st = Trip.UPCOMING /\ st' = Trip.ONGOING)
        \/ (st = Trip.ONGOING /\ st' = Trip.COMPLETED)
        \/ (st <> Trip.CANCELLED /\ st' = Trip.CANCELLED)).
Proof.
  intros Hst.
  destruct (status_step _ _ _ _ (serve_step rq db) Hst)
    as [[_ ?]|[[-> ?]|[(-> & _ & ?)|[(-> & _ & ?)|(? & _ & ?)]]]];
    eexists; (split; [done|]); auto.
Qed.

Lemma status_moves_forward_witness :
  let db := sample_db Trip.UPCOMING 1 [] in
  exists st',
    status_of 0
      (serve (TripLifecycle
                (StartTripRequest (post (driver_user 7) no_data) 0)) db).2
    = Some st'
    /\ (st' = Trip.UPCOMING
        \/ (Trip.UPCOMING = Trip.UPCOMING /\ st' = Trip.ONGOING)
        \/ (Trip.UPCOMING = Trip.ONGOING /\ st' = Trip.COMPLETED)
        \/ (Trip.UPCOMING <> Trip.CANCELLED /\ st' = Trip.CANCELLED)).
Proof.
  apply (status_moves_forward
           (TripLifecycle (StartTripRequest (post (driver_user 7) no_data) 0))
           (sample_db Trip.UPCOMING 1 []) 0 Trip.UPCOMING).
  reflexivity.
Defined.

(** X22.  Once a trip has left Upcoming its seats are final: through any
    sequence of requests to the six handlers, a trip that is Ongoing,
    Completed or Cancelled keeps its [available_seats] and never becomes
    Upcoming again. *)
Theorem seats_final_after_start
    (rqs : list AnyRequest) (db : Db) (trip_id : nat) (st : Trip.Status) :
  status_of trip_id db = Some st -> st <> Trip.UPCOMING ->
  seats_of trip_id (serve_all rqs db) = seats_of trip_id db
  /\ exists st', status_of trip_id (serve_all rqs db) = Some st'
                 /\ st' <> Trip.UPCOMING.
Proof.
  revert db st. induction rqs as [|rq rqs IH]; intros db st Hst Hne; simpl.
  { eauto. }
  destruct (status_step _ _ _ _ (serve_step rq db) Hst)
    as [[Hs ?]|[[-> ?]|[(-> & _ & ?)|[(-> & Hs & ?)|(? & Hs & ?)]]]];
    try done;
    (edestruct IH as [Hseats Hstatus]; [eassumption|done|]);
    rewrite Hseats, Hs; done.
Qed.

Lemma seats_final_after_start_witness :
  let db :=
    sample_db Trip.ONGOING 1 [sample_booking 1 2 TripBooking.CONFIRMED] in
  let rqs :=
    [ BookingManager (CancelRequest (post (passenger 1) no_data) 0);
      TripLifecycle (CompleteTripRequest (post (driver_user 7) no_data) 0) ] in
  seats_of 0 (serve_all rqs db) = seats_of 0 db
  /\ exists st', status_of 0 (serve_all rqs db) = Some st'
                 /\ st' <> Trip.UPCOMING.
Proof.
  apply (seats_final_after_start _
           (sample_db Trip.ONGOING 1
              [sample_booking 1 2 TripBooking.CONFIRMED]) 0 Trip.ONGOING).
  - reflexivity.
  - discriminate.
Defined.

Lemma completed_status_step db db' trip_id :
  store_step db db' ->
  status_of trip_id db = Some Trip.COMPLETED
  \/ status_of trip_id db = Some Trip.CANCELLED ->
  status_of trip_id db' = Some Trip.COMPLETED
  \/ status_of trip_id db' = Some Trip.CANCELLED.
Proof.
  intros Hstep [Hst|Hst];
    destruct (status_step _ _ _ _ Hstep Hst)
      as [[_ ?]|[[? ?]|[(? & _ & ?)|[(? & _ & ?)|(? & _ & ?)]]]];
    try done; auto.
Qed.

(** X23.  Only completed trips are rated: when every rating of the database
    is about a trip that is Completed or Cancelled (as in a database without
    ratings), the same holds after any sequence of requests to the six
    handlers; a rating of a trip that is Upcoming or Ongoing never
    appears. *)
Theorem ratings_only_for_completed_trips (rqs : list AnyRequest) (db : Db) :
  rated_trips_completed db -> rated_trips_completed (serve_all rqs db).
Proof.
  revert db. induction rqs as [|rq rqs IH]; intros db Hdb; simpl; [done|].
  apply IH. intros x Hx.
  apply (completed_status_step _ _ _ (serve_step rq db)).
  destruct (serve_ratings rq db) as [Hr|(y & Hr & _ & Hy)]; rewrite Hr in Hx.
  - by apply Hdb.
  - apply elem_of_app in Hx as [Hx|Hx]; [by apply Hdb|].
    apply list_elem_of_singleton in Hx as ->. by left.
Qed.

Lemma ratings_only_for_completed_trips_witness :
  rated_trips_completed
    (serve_all
       [ RateRequest
           (post (passenger 1)
              {| post_seats := None;
                 post_cancellation_reason := EmptyString;
                 post_driver_rating := Some Star4;
                 post_vehicle_rating := Some Star4;
                 post_driver_comment := EmptyString |}) 0;
         TripLifecycle
           (CancelTripRequest
              (post (administrator 9)
                 {| post_seats := None; post_cancellation_reason := "storm";
                    post_driver_rating := None; post_vehicle_rating := None;
                    post_driver_comment := EmptyString |}) 0) ]
       rating_db).
Proof.
  apply (ratings_only_for_completed_trips _ rating_db).
  intros x Hx. inversion Hx.
Defined.
